(** * Rhino.Compute helpers: parameter/response codec and location resolution

    A shallow embedding of the helper modules

      - [helpers/compute_helpers.py]          ([run_rhino_compute], [format_parameter]),
      - [helpers/compute_rhino3dm_helpers.py] ([decode_gh_output], [save_3dm_file]),
      - [helpers/location_helpers.py]         (the location-resolution pipeline),

    followed by the properties established about them.

    Conventions.  Python values are a tagged union [pyval]; a Python [float] is
    an IEEE-754 binary64 number ([PrimFloat.float]); a Python [str] is the
    [string] of its UTF-8 encoding.  A Python exception is a value [exn] (class and
    message) and a computation that may raise has type [result A].  The
    services the helpers talk to (the geocoder, the compute server, the
    rhino3dm library, [json.loads], the C library's cosine, [repr]) are
    [Variable]s of the sections that use them.  The debug lines the helpers
    print are left out, except where evaluating what they print can raise. *)

From Stdlib Require Import ZArith String Ascii List Bool Lia.
From Stdlib Require Import Floats Reals Lra.
From Stdlib Require Import DecimalString.
Import ListNotations.

Set Warnings "-inexact-float,-register-all".

Local Open Scope string_scope.
Local Open Scope Z_scope.

(* ================================================================== *)
(** * Python values, exceptions and the builtins the helpers use      *)
(* ================================================================== *)

Module Py.

(** The exception classes the helpers raise or catch.  [ETimeout] is
    [requests.exceptions.Timeout], a subclass of [ERequestException]
    ([requests.exceptions.RequestException]); every class below is a subclass
    of [Exception], which [EException] stands for when no class is more
    specific. *)
Inductive exn_class : Type :=
| ETimeout
| ERequestException
| EValueError
| EIndexError
| EKeyError
| ETypeError
| EAttributeError
| EZeroDivisionError
| EOverflowError
| EException.

Record exn : Type := mkExn { exn_cls : exn_class; exn_msg : string }.

(** [isinstance(e, requests.exceptions.RequestException)]. *)
Definition is_request_exception (c : exn_class) : bool :=
  match c with
  | ETimeout | ERequestException => true
  | _ => false
  end.

Inductive result (A : Type) : Type :=
| Ok (a : A)
| Raise (e : exn).
Arguments Ok {A} a.
Arguments Raise {A} e.

Definition bind {A B : Type} (m : result A) (k : A -> result B) : result B :=
  match m with
  | Ok a => k a
  | Raise e => Raise e
  end.

Definition raise {A : Type} (c : exn_class) (msg : string) : result A :=
  Raise (mkExn c msg).

(** [try: m except Exception: h]. *)
Definition try_except {A : Type} (m : result A) (h : exn -> A) : A :=
  match m with
  | Ok a => a
  | Raise e => h e
  end.

Definition of_option {A : Type} (o : option A) (c : exn_class) (msg : string)
  : result A :=
  match o with
  | Some a => Ok a
  | None => raise c msg
  end.

(** Python values.  A [dict] keeps its items in insertion order (keys are
    strings, as in decoded JSON); [PyObj cls data] is an object of an external
    library, known by its class name and its encoded content. *)
Inductive pyval : Type :=
| PyNone
| PyBool (b : bool)
| PyInt (z : Z)
| PyFloat (f : float)
| PyStr (s : string)
| PyList (l : list pyval)
| PyDict (d : list (string * pyval))
| PyObj (cls : string) (data : string).

(** ** [isinstance] against the builtin types.  [bool] is a subclass of
    [int], so [isinstance(True, int)] holds. *)
Definition isinstance_str (v : pyval) : bool :=
  match v with PyStr _ => true | _ => false end.
Definition isinstance_bool (v : pyval) : bool :=
  match v with PyBool _ => true | _ => false end.
Definition isinstance_int (v : pyval) : bool :=
  match v with PyBool _ | PyInt _ => true | _ => false end.
Definition isinstance_float (v : pyval) : bool :=
  match v with PyFloat _ => true | _ => false end.

(** ** Strings

    A [string] holds a Python [str] as its UTF-8 encoding, so that ASCII
    text is the text itself; a [str] with a lone surrogate has no encoding
    and is left out.  Searching, splitting and replacing work on the bytes
    and find the same occurrences as on the code points; case mapping, white
    space, digits and [repr] go through the code points, with the tables of
    Unicode 14.0, the version CPython 3.11 is built with. *)

Definition byte (c : ascii) : Z := Z.of_N (N_of_ascii c).

Definition char_of (b : Z) : ascii := ascii_of_N (Z.to_N b).

(** A continuation byte of a multi-byte sequence. *)
Definition is_cont (c : ascii) : bool :=
  ((128 <=? byte c) && (byte c <? 192))%bool.

(** The payloads of the continuation bytes [s] starts with, [n] at most. *)
Fixpoint trail (n : nat) (s : string) : list Z :=
  match n, s with
  | S k, String c r => if is_cont c then (byte c - 128) :: trail k r else []
  | _, _ => []
  end.

(** The code point [s] starts with and the number of bytes it takes.  A byte
    that starts no well-formed sequence stands for itself, as the negative
    number [- b]: no table knows it and [encode_cp] gives the byte back. *)
Definition next (s : string) : Z * nat :=
  match s with
  | EmptyString => (0, O)
  | String c r =>
      let b := byte c in
      let t := trail 3 r in
      if b <? 128 then (b, 1%nat)
      else if ((194 <=? b) && (b <? 224))%bool then
        match t with
        | t1 :: _ => ((b - 192) * 64 + t1, 2%nat)
        | _ => (- b, 1%nat)
        end
      else if ((224 <=? b) && (b <? 240))%bool then
        match t with
        | t1 :: t2 :: _ =>
            let cp := ((b - 224) * 64 + t1) * 64 + t2 in
            if ((0x800 <=? cp) && negb ((0xD800 <=? cp) && (cp <=? 0xDFFF)))%bool
            then (cp, 3%nat) else (- b, 1%nat)
        | _ => (- b, 1%nat)
        end
      else if ((240 <=? b) && (b <? 245))%bool then
        match t with
        | t1 :: t2 :: t3 :: _ =>
            let cp := (((b - 240) * 64 + t1) * 64 + t2) * 64 + t3 in
            if ((0x10000 <=? cp) && (cp <=? 0x10FFFF))%bool
            then (cp, 4%nat) else (- b, 1%nat)
        | _ => (- b, 1%nat)
        end
      else (- b, 1%nat)
  end.

(** The code points of a text; [skip] counts the bytes still to pass of the
    sequence that was read last. *)
Fixpoint code_points_from (skip : nat) (s : string) : list Z :=
  match s with
  | EmptyString => []
  | String _ r =>
      match skip with
      | S k => code_points_from k r
      | O => fst (next s) :: code_points_from (Nat.pred (snd (next s))) r
      end
  end.

Definition code_points (s : string) : list Z := code_points_from O s.

Definition encode_cp (cp : Z) : string :=
  let one (b : Z) := String (char_of b) EmptyString in
  if cp <? 0 then one (- cp)
  else if cp <? 0x80 then one cp
  else if cp <? 0x800 then one (192 + cp / 64) ++ one (128 + cp mod 64)
  else if cp <? 0x10000
  then one (224 + cp / 4096) ++ one (128 + (cp / 64) mod 64)
       ++ one (128 + cp mod 64)
  else one (240 + cp / 262144) ++ one (128 + (cp / 4096) mod 64)
       ++ one (128 + (cp / 64) mod 64) ++ one (128 + cp mod 64).

Fixpoint encode (l : list Z) : string :=
  match l with
  | [] => EmptyString
  | cp :: r => encode_cp cp ++ encode r
  end.

Definition in_ranges (cp : Z) (ranges : list (Z * Z)) : bool :=
  existsb (fun r => ((fst r <=? cp) && (cp <=? snd r))%bool) ranges.

(** *** The tables *)

(** The white space of [str.isspace] and [str.strip]. *)
Definition space_ranges : list (Z * Z) :=
  [(0x9, 0xD); (0x1C, 0x20); (0x85, 0x85); (0xA0, 0xA0); (0x1680, 0x1680);
   (0x2000, 0x200A); (0x2028, 0x2029); (0x202F, 0x202F); (0x205F, 0x205F);
   (0x3000, 0x3000)].

(** The digit zero of every script that has decimal digits; its nine
    successors are the digits one to nine. *)
Definition digit_zeros : list Z :=
  [0x30; 0x660; 0x6F0; 0x7C0; 0x966; 0x9E6; 0xA66; 0xAE6; 0xB66; 0xBE6; 0xC66;
   0xCE6; 0xD66; 0xDE6; 0xE50; 0xED0; 0xF20; 0x1040; 0x1090; 0x17E0; 0x1810;
   0x1946; 0x19D0; 0x1A80; 0x1A90; 0x1B50; 0x1BB0; 0x1C40; 0x1C50; 0xA620;
   0xA8D0; 0xA900; 0xA9D0; 0xA9F0; 0xAA50; 0xABF0; 0xFF10; 0x104A0; 0x10D30;
   0x11066; 0x110F0; 0x11136; 0x111D0; 0x112F0; 0x11450; 0x114D0; 0x11650;
   0x116C0; 0x11730; 0x118E0; 0x11950; 0x11C50; 0x11D50; 0x11DA0; 0x16A60;
   0x16AC0; 0x16B50; 0x1D7CE; 0x1D7D8; 0x1D7E2; 0x1D7EC; 0x1D7F6; 0x1E140;
   0x1E2F0; 0x1E950; 0x1FBF0].

(** The simple lower-case mapping, as runs [(first, last, step, offset)]:
    every [step]-th code point from [first] to [last] maps to itself plus
    [offset]. *)
Definition lower_runs : list (Z * Z * Z * Z) :=
  [(0x41, 0x5A, 1, 32); (0xC0, 0xD6, 1, 32); (0xD8, 0xDE, 1, 32);
   (0x100, 0x12E, 2, 1); (0x132, 0x136, 2, 1); (0x139, 0x147, 2, 1);
   (0x14A, 0x176, 2, 1); (0x178, 0x178, 1, -121); (0x179, 0x17D, 2, 1);
   (0x181, 0x181, 1, 210); (0x182, 0x184, 2, 1); (0x186, 0x186, 1, 206);
   (0x187, 0x187, 1, 1); (0x189, 0x18A, 1, 205); (0x18B, 0x18B, 1, 1);
   (0x18E, 0x18E, 1, 79); (0x18F, 0x18F, 1, 202); (0x190, 0x190, 1, 203);
   (0x191, 0x191, 1, 1); (0x193, 0x193, 1, 205); (0x194, 0x194, 1, 207);
   (0x196, 0x196, 1, 211); (0x197, 0x197, 1, 209); (0x198, 0x198, 1, 1);
   (0x19C, 0x19C, 1, 211); (0x19D, 0x19D, 1, 213); (0x19F, 0x19F, 1, 214);
   (0x1A0, 0x1A4, 2, 1); (0x1A6, 0x1A6, 1, 218); (0x1A7, 0x1A7, 1, 1);
   (0x1A9, 0x1A9, 1, 218); (0x1AC, 0x1AC, 1, 1); (0x1AE, 0x1AE, 1, 218);
   (0x1AF, 0x1AF, 1, 1); (0x1B1, 0x1B2, 1, 217); (0x1B3, 0x1B5, 2, 1);
   (0x1B7, 0x1B7, 1, 219); (0x1B8, 0x1B8, 1, 1); (0x1BC, 0x1BC, 1, 1);
   (0x1C4, 0x1C4, 1, 2); (0x1C5, 0x1C5, 1, 1); (0x1C7, 0x1C7, 1, 2);
   (0x1C8, 0x1C8, 1, 1); (0x1CA, 0x1CA, 1, 2); (0x1CB, 0x1DB, 2, 1);
   (0x1DE, 0x1EE, 2, 1); (0x1F1, 0x1F1, 1, 2); (0x1F2, 0x1F4, 2, 1);
   (0x1F6, 0x1F6, 1, -97); (0x1F7, 0x1F7, 1, -56); (0x1F8, 0x21E, 2, 1);
   (0x220, 0x220, 1, -130); (0x222, 0x232, 2, 1); (0x23A, 0x23A, 1, 10795);
   (0x23B, 0x23B, 1, 1); (0x23D, 0x23D, 1, -163); (0x23E, 0x23E, 1, 10792);
   (0x241, 0x241, 1, 1); (0x243, 0x243, 1, -195); (0x244, 0x244, 1, 69);
   (0x245, 0x245, 1, 71); (0x246, 0x24E, 2, 1); (0x370, 0x372, 2, 1);
   (0x376, 0x376, 1, 1); (0x37F, 0x37F, 1, 116); (0x386, 0x386, 1, 38);
   (0x388, 0x38A, 1, 37); (0x38C, 0x38C, 1, 64); (0x38E, 0x38F, 1, 63);
   (0x391, 0x3A1, 1, 32); (0x3A3, 0x3AB, 1, 32); (0x3CF, 0x3CF, 1, 8);
   (0x3D8, 0x3EE, 2, 1); (0x3F4, 0x3F4, 1, -60); (0x3F7, 0x3F7, 1, 1);
   (0x3F9, 0x3F9, 1, -7); (0x3FA, 0x3FA, 1, 1); (0x3FD, 0x3FF, 1, -130);
   (0x400, 0x40F, 1, 80); (0x410, 0x42F, 1, 32); (0x460, 0x480, 2, 1);
   (0x48A, 0x4BE, 2, 1); (0x4C0, 0x4C0, 1, 15); (0x4C1, 0x4CD, 2, 1);
   (0x4D0, 0x52E, 2, 1); (0x531, 0x556, 1, 48); (0x10A0, 0x10C5, 1, 7264);
   (0x10C7, 0x10C7, 1, 7264); (0x10CD, 0x10CD, 1, 7264);
   (0x13A0, 0x13EF, 1, 38864); (0x13F0, 0x13F5, 1, 8);
   (0x1C90, 0x1CBA, 1, -3008); (0x1CBD, 0x1CBF, 1, -3008);
   (0x1E00, 0x1E94, 2, 1); (0x1E9E, 0x1E9E, 1, -7615); (0x1EA0, 0x1EFE, 2, 1);
   (0x1F08, 0x1F0F, 1, -8); (0x1F18, 0x1F1D, 1, -8); (0x1F28, 0x1F2F, 1, -8);
   (0x1F38, 0x1F3F, 1, -8); (0x1F48, 0x1F4D, 1, -8); (0x1F59, 0x1F5F, 2, -8);
   (0x1F68, 0x1F6F, 1, -8); (0x1F88, 0x1F8F, 1, -8); (0x1F98, 0x1F9F, 1, -8);
   (0x1FA8, 0x1FAF, 1, -8); (0x1FB8, 0x1FB9, 1, -8); (0x1FBA, 0x1FBB, 1, -74);
   (0x1FBC, 0x1FBC, 1, -9); (0x1FC8, 0x1FCB, 1, -86); (0x1FCC, 0x1FCC, 1, -9);
   (0x1FD8, 0x1FD9, 1, -8); (0x1FDA, 0x1FDB, 1, -100); (0x1FE8, 0x1FE9, 1, -8);
   (0x1FEA, 0x1FEB, 1, -112); (0x1FEC, 0x1FEC, 1, -7);
   (0x1FF8, 0x1FF9, 1, -128); (0x1FFA, 0x1FFB, 1, -126);
   (0x1FFC, 0x1FFC, 1, -9); (0x2126, 0x2126, 1, -7517);
   (0x212A, 0x212A, 1, -8383); (0x212B, 0x212B, 1, -8262);
   (0x2132, 0x2132, 1, 28); (0x2160, 0x216F, 1, 16); (0x2183, 0x2183, 1, 1);
   (0x24B6, 0x24CF, 1, 26); (0x2C00, 0x2C2F, 1, 48); (0x2C60, 0x2C60, 1, 1);
   (0x2C62, 0x2C62, 1, -10743); (0x2C63, 0x2C63, 1, -3814);
   (0x2C64, 0x2C64, 1, -10727); (0x2C67, 0x2C6B, 2, 1);
   (0x2C6D, 0x2C6D, 1, -10780); (0x2C6E, 0x2C6E, 1, -10749);
   (0x2C6F, 0x2C6F, 1, -10783); (0x2C70, 0x2C70, 1, -10782);
   (0x2C72, 0x2C72, 1, 1); (0x2C75, 0x2C75, 1, 1); (0x2C7E, 0x2C7F, 1, -10815);
   (0x2C80, 0x2CE2, 2, 1); (0x2CEB, 0x2CED, 2, 1); (0x2CF2, 0x2CF2, 1, 1);
   (0xA640, 0xA66C, 2, 1); (0xA680, 0xA69A, 2, 1); (0xA722, 0xA72E, 2, 1);
   (0xA732, 0xA76E, 2, 1); (0xA779, 0xA77B, 2, 1); (0xA77D, 0xA77D, 1, -35332);
   (0xA77E, 0xA786, 2, 1); (0xA78B, 0xA78B, 1, 1); (0xA78D, 0xA78D, 1, -42280);
   (0xA790, 0xA792, 2, 1); (0xA796, 0xA7A8, 2, 1); (0xA7AA, 0xA7AA, 1, -42308);
   (0xA7AB, 0xA7AB, 1, -42319); (0xA7AC, 0xA7AC, 1, -42315);
   (0xA7AD, 0xA7AD, 1, -42305); (0xA7AE, 0xA7AE, 1, -42308);
   (0xA7B0, 0xA7B0, 1, -42258); (0xA7B1, 0xA7B1, 1, -42282);
   (0xA7B2, 0xA7B2, 1, -42261); (0xA7B3, 0xA7B3, 1, 928);
   (0xA7B4, 0xA7C2, 2, 1); (0xA7C4, 0xA7C4, 1, -48);
   (0xA7C5, 0xA7C5, 1, -42307); (0xA7C6, 0xA7C6, 1, -35384);
   (0xA7C7, 0xA7C9, 2, 1); (0xA7D0, 0xA7D0, 1, 1); (0xA7D6, 0xA7D8, 2, 1);
   (0xA7F5, 0xA7F5, 1, 1); (0xFF21, 0xFF3A, 1, 32); (0x10400, 0x10427, 1, 40);
   (0x104B0, 0x104D3, 1, 40); (0x10570, 0x1057A, 1, 39);
   (0x1057C, 0x1058A, 1, 39); (0x1058C, 0x10592, 1, 39);
   (0x10594, 0x10595, 1, 39); (0x10C80, 0x10CB2, 1, 64);
   (0x118A0, 0x118BF, 1, 32); (0x16E40, 0x16E5F, 1, 32);
   (0x1E900, 0x1E921, 1, 34)].

(** The case-ignorable code points. *)
Definition case_ignorable_ranges : list (Z * Z) :=
  [(0x27, 0x27); (0x2E, 0x2E); (0x3A, 0x3A); (0x5E, 0x5E); (0x60, 0x60);
   (0xA8, 0xA8); (0xAD, 0xAD); (0xAF, 0xAF); (0xB4, 0xB4); (0xB7, 0xB8);
   (0x2B0, 0x36F); (0x374, 0x375); (0x37A, 0x37A); (0x384, 0x385);
   (0x387, 0x387); (0x483, 0x489); (0x559, 0x559); (0x55F, 0x55F);
   (0x591, 0x5BD); (0x5BF, 0x5BF); (0x5C1, 0x5C2); (0x5C4, 0x5C5);
   (0x5C7, 0x5C7); (0x5F4, 0x5F4); (0x600, 0x605); (0x610, 0x61A);
   (0x61C, 0x61C); (0x640, 0x640); (0x64B, 0x65F); (0x670, 0x670);
   (0x6D6, 0x6DD); (0x6DF, 0x6E8); (0x6EA, 0x6ED); (0x70F, 0x70F);
   (0x711, 0x711); (0x730, 0x74A); (0x7A6, 0x7B0); (0x7EB, 0x7F5);
   (0x7FA, 0x7FA); (0x7FD, 0x7FD); (0x816, 0x82D); (0x859, 0x85B);
   (0x888, 0x888); (0x890, 0x891); (0x898, 0x89F); (0x8C9, 0x902);
   (0x93A, 0x93A); (0x93C, 0x93C); (0x941, 0x948); (0x94D, 0x94D);
   (0x951, 0x957); (0x962, 0x963); (0x971, 0x971); (0x981, 0x981);
   (0x9BC, 0x9BC); (0x9C1, 0x9C4); (0x9CD, 0x9CD); (0x9E2, 0x9E3);
   (0x9FE, 0x9FE); (0xA01, 0xA02); (0xA3C, 0xA3C); (0xA41, 0xA42);
   (0xA47, 0xA48); (0xA4B, 0xA4D); (0xA51, 0xA51); (0xA70, 0xA71);
   (0xA75, 0xA75); (0xA81, 0xA82); (0xABC, 0xABC); (0xAC1, 0xAC5);
   (0xAC7, 0xAC8); (0xACD, 0xACD); (0xAE2, 0xAE3); (0xAFA, 0xAFF);
   (0xB01, 0xB01); (0xB3C, 0xB3C); (0xB3F, 0xB3F); (0xB41, 0xB44);
   (0xB4D, 0xB4D); (0xB55, 0xB56); (0xB62, 0xB63); (0xB82, 0xB82);
   (0xBC0, 0xBC0); (0xBCD, 0xBCD); (0xC00, 0xC00); (0xC04, 0xC04);
   (0xC3C, 0xC3C); (0xC3E, 0xC40); (0xC46, 0xC48); (0xC4A, 0xC4D);
   (0xC55, 0xC56); (0xC62, 0xC63); (0xC81, 0xC81); (0xCBC, 0xCBC);
   (0xCBF, 0xCBF); (0xCC6, 0xCC6); (0xCCC, 0xCCD); (0xCE2, 0xCE3);
   (0xD00, 0xD01); (0xD3B, 0xD3C); (0xD41, 0xD44); (0xD4D, 0xD4D);
   (0xD62, 0xD63); (0xD81, 0xD81); (0xDCA, 0xDCA); (0xDD2, 0xDD4);
   (0xDD6, 0xDD6); (0xE31, 0xE31); (0xE34, 0xE3A); (0xE46, 0xE4E);
   (0xEB1, 0xEB1); (0xEB4, 0xEBC); (0xEC6, 0xEC6); (0xEC8, 0xECD);
   (0xF18, 0xF19); (0xF35, 0xF35); (0xF37, 0xF37); (0xF39, 0xF39);
   (0xF71, 0xF7E); (0xF80, 0xF84); (0xF86, 0xF87); (0xF8D, 0xF97);
   (0xF99, 0xFBC); (0xFC6, 0xFC6); (0x102D, 0x1030); (0x1032, 0x1037);
   (0x1039, 0x103A); (0x103D, 0x103E); (0x1058, 0x1059); (0x105E, 0x1060);
   (0x1071, 0x1074); (0x1082, 0x1082); (0x1085, 0x1086); (0x108D, 0x108D);
   (0x109D, 0x109D); (0x10FC, 0x10FC); (0x135D, 0x135F); (0x1712, 0x1714);
   (0x1732, 0x1733); (0x1752, 0x1753); (0x1772, 0x1773); (0x17B4, 0x17B5);
   (0x17B7, 0x17BD); (0x17C6, 0x17C6); (0x17C9, 0x17D3); (0x17D7, 0x17D7);
   (0x17DD, 0x17DD); (0x180B, 0x180F); (0x1843, 0x1843); (0x1885, 0x1886);
   (0x18A9, 0x18A9); (0x1920, 0x1922); (0x1927, 0x1928); (0x1932, 0x1932);
   (0x1939, 0x193B); (0x1A17, 0x1A18); (0x1A1B, 0x1A1B); (0x1A56, 0x1A56);
   (0x1A58, 0x1A5E); (0x1A60, 0x1A60); (0x1A62, 0x1A62); (0x1A65, 0x1A6C);
   (0x1A73, 0x1A7C); (0x1A7F, 0x1A7F); (0x1AA7, 0x1AA7); (0x1AB0, 0x1ACE);
   (0x1B00, 0x1B03); (0x1B34, 0x1B34); (0x1B36, 0x1B3A); (0x1B3C, 0x1B3C);
   (0x1B42, 0x1B42); (0x1B6B, 0x1B73); (0x1B80, 0x1B81); (0x1BA2, 0x1BA5);
   (0x1BA8, 0x1BA9); (0x1BAB, 0x1BAD); (0x1BE6, 0x1BE6); (0x1BE8, 0x1BE9);
   (0x1BED, 0x1BED); (0x1BEF, 0x1BF1); (0x1C2C, 0x1C33); (0x1C36, 0x1C37);
   (0x1C78, 0x1C7D); (0x1CD0, 0x1CD2); (0x1CD4, 0x1CE0); (0x1CE2, 0x1CE8);
   (0x1CED, 0x1CED); (0x1CF4, 0x1CF4); (0x1CF8, 0x1CF9); (0x1D2C, 0x1D6A);
   (0x1D78, 0x1D78); (0x1D9B, 0x1DFF); (0x1FBD, 0x1FBD); (0x1FBF, 0x1FC1);
   (0x1FCD, 0x1FCF); (0x1FDD, 0x1FDF); (0x1FED, 0x1FEF); (0x1FFD, 0x1FFE);
   (0x200B, 0x200F); (0x2018, 0x2019); (0x2024, 0x2024); (0x2027, 0x2027);
   (0x202A, 0x202E); (0x2060, 0x2064); (0x2066, 0x206F); (0x2071, 0x2071);
   (0x207F, 0x207F); (0x2090, 0x209C); (0x20D0, 0x20F0); (0x2C7C, 0x2C7D);
   (0x2CEF, 0x2CF1); (0x2D6F, 0x2D6F); (0x2D7F, 0x2D7F); (0x2DE0, 0x2DFF);
   (0x2E2F, 0x2E2F); (0x3005, 0x3005); (0x302A, 0x302D); (0x3031, 0x3035);
   (0x303B, 0x303B); (0x3099, 0x309E); (0x30FC, 0x30FE); (0xA015, 0xA015);
   (0xA4F8, 0xA4FD); (0xA60C, 0xA60C); (0xA66F, 0xA672); (0xA674, 0xA67D);
   (0xA67F, 0xA67F); (0xA69C, 0xA69F); (0xA6F0, 0xA6F1); (0xA700, 0xA721);
   (0xA770, 0xA770); (0xA788, 0xA78A); (0xA7F2, 0xA7F4); (0xA7F8, 0xA7F9);
   (0xA802, 0xA802); (0xA806, 0xA806); (0xA80B, 0xA80B); (0xA825, 0xA826);
   (0xA82C, 0xA82C); (0xA8C4, 0xA8C5); (0xA8E0, 0xA8F1); (0xA8FF, 0xA8FF);
   (0xA926, 0xA92D); (0xA947, 0xA951); (0xA980, 0xA982); (0xA9B3, 0xA9B3);
   (0xA9B6, 0xA9B9); (0xA9BC, 0xA9BD); (0xA9CF, 0xA9CF); (0xA9E5, 0xA9E6);
   (0xAA29, 0xAA2E); (0xAA31, 0xAA32); (0xAA35, 0xAA36); (0xAA43, 0xAA43);
   (0xAA4C, 0xAA4C); (0xAA70, 0xAA70); (0xAA7C, 0xAA7C); (0xAAB0, 0xAAB0);
   (0xAAB2, 0xAAB4); (0xAAB7, 0xAAB8); (0xAABE, 0xAABF); (0xAAC1, 0xAAC1);
   (0xAADD, 0xAADD); (0xAAEC, 0xAAED); (0xAAF3, 0xAAF4); (0xAAF6, 0xAAF6);
   (0xAB5B, 0xAB5F); (0xAB69, 0xAB6B); (0xABE5, 0xABE5); (0xABE8, 0xABE8);
   (0xABED, 0xABED); (0xFB1E, 0xFB1E); (0xFBB2, 0xFBC2); (0xFE00, 0xFE0F);
   (0xFE13, 0xFE13); (0xFE20, 0xFE2F); (0xFE52, 0xFE52); (0xFE55, 0xFE55);
   (0xFEFF, 0xFEFF); (0xFF07, 0xFF07); (0xFF0E, 0xFF0E); (0xFF1A, 0xFF1A);
   (0xFF3E, 0xFF3E); (0xFF40, 0xFF40); (0xFF70, 0xFF70); (0xFF9E, 0xFF9F);
   (0xFFE3, 0xFFE3); (0xFFF9, 0xFFFB); (0x101FD, 0x101FD); (0x102E0, 0x102E0);
   (0x10376, 0x1037A); (0x10780, 0x10785); (0x10787, 0x107B0);
   (0x107B2, 0x107BA); (0x10A01, 0x10A03); (0x10A05, 0x10A06);
   (0x10A0C, 0x10A0F); (0x10A38, 0x10A3A); (0x10A3F, 0x10A3F);
   (0x10AE5, 0x10AE6); (0x10D24, 0x10D27); (0x10EAB, 0x10EAC);
   (0x10F46, 0x10F50); (0x10F82, 0x10F85); (0x11001, 0x11001);
   (0x11038, 0x11046); (0x11070, 0x11070); (0x11073, 0x11074);
   (0x1107F, 0x11081); (0x110B3, 0x110B6); (0x110B9, 0x110BA);
   (0x110BD, 0x110BD); (0x110C2, 0x110C2); (0x110CD, 0x110CD);
   (0x11100, 0x11102); (0x11127, 0x1112B); (0x1112D, 0x11134);
   (0x11173, 0x11173); (0x11180, 0x11181); (0x111B6, 0x111BE);
   (0x111C9, 0x111CC); (0x111CF, 0x111CF); (0x1122F, 0x11231);
   (0x11234, 0x11234); (0x11236, 0x11237); (0x1123E, 0x1123E);
   (0x112DF, 0x112DF); (0x112E3, 0x112EA); (0x11300, 0x11301);
   (0x1133B, 0x1133C); (0x11340, 0x11340); (0x11366, 0x1136C);
   (0x11370, 0x11374); (0x11438, 0x1143F); (0x11442, 0x11444);
   (0x11446, 0x11446); (0x1145E, 0x1145E); (0x114B3, 0x114B8);
   (0x114BA, 0x114BA); (0x114BF, 0x114C0); (0x114C2, 0x114C3);
   (0x115B2, 0x115B5); (0x115BC, 0x115BD); (0x115BF, 0x115C0);
   (0x115DC, 0x115DD); (0x11633, 0x1163A); (0x1163D, 0x1163D);
   (0x1163F, 0x11640); (0x116AB, 0x116AB); (0x116AD, 0x116AD);
   (0x116B0, 0x116B5); (0x116B7, 0x116B7); (0x1171D, 0x1171F);
   (0x11722, 0x11725); (0x11727, 0x1172B); (0x1182F, 0x11837);
   (0x11839, 0x1183A); (0x1193B, 0x1193C); (0x1193E, 0x1193E);
   (0x11943, 0x11943); (0x119D4, 0x119D7); (0x119DA, 0x119DB);
   (0x119E0, 0x119E0); (0x11A01, 0x11A0A); (0x11A33, 0x11A38);
   (0x11A3B, 0x11A3E); (0x11A47, 0x11A47); (0x11A51, 0x11A56);
   (0x11A59, 0x11A5B); (0x11A8A, 0x11A96); (0x11A98, 0x11A99);
   (0x11C30, 0x11C36); (0x11C38, 0x11C3D); (0x11C3F, 0x11C3F);
   (0x11C92, 0x11CA7); (0x11CAA, 0x11CB0); (0x11CB2, 0x11CB3);
   (0x11CB5, 0x11CB6); (0x11D31, 0x11D36); (0x11D3A, 0x11D3A);
   (0x11D3C, 0x11D3D); (0x11D3F, 0x11D45); (0x11D47, 0x11D47);
   (0x11D90, 0x11D91); (0x11D95, 0x11D95); (0x11D97, 0x11D97);
   (0x11EF3, 0x11EF4); (0x13430, 0x13438); (0x16AF0, 0x16AF4);
   (0x16B30, 0x16B36); (0x16B40, 0x16B43); (0x16F4F, 0x16F4F);
   (0x16F8F, 0x16F9F); (0x16FE0, 0x16FE1); (0x16FE3, 0x16FE4);
   (0x1AFF0, 0x1AFF3); (0x1AFF5, 0x1AFFB); (0x1AFFD, 0x1AFFE);
   (0x1BC9D, 0x1BC9E); (0x1BCA0, 0x1BCA3); (0x1CF00, 0x1CF2D);
   (0x1CF30, 0x1CF46); (0x1D167, 0x1D169); (0x1D173, 0x1D182);
   (0x1D185, 0x1D18B); (0x1D1AA, 0x1D1AD); (0x1D242, 0x1D244);
   (0x1DA00, 0x1DA36); (0x1DA3B, 0x1DA6C); (0x1DA75, 0x1DA75);
   (0x1DA84, 0x1DA84); (0x1DA9B, 0x1DA9F); (0x1DAA1, 0x1DAAF);
   (0x1E000, 0x1E006); (0x1E008, 0x1E018); (0x1E01B, 0x1E021);
   (0x1E023, 0x1E024); (0x1E026, 0x1E02A); (0x1E130, 0x1E13D);
   (0x1E2AE, 0x1E2AE); (0x1E2EC, 0x1E2EF); (0x1E8D0, 0x1E8D6);
   (0x1E944, 0x1E94B); (0x1F3FB, 0x1F3FF); (0xE0001, 0xE0001);
   (0xE0020, 0xE007F); (0xE0100, 0xE01EF)].

(** The cased code points that are not case-ignorable. *)
Definition cased_ranges : list (Z * Z) :=
  [(0x41, 0x5A); (0x61, 0x7A); (0xAA, 0xAA); (0xB5, 0xB5); (0xBA, 0xBA);
   (0xC0, 0xD6); (0xD8, 0xF6); (0xF8, 0x1BA); (0x1BC, 0x1BF); (0x1C4, 0x293);
   (0x295, 0x2AF); (0x370, 0x373); (0x376, 0x377); (0x37B, 0x37D);
   (0x37F, 0x37F); (0x386, 0x386); (0x388, 0x38A); (0x38C, 0x38C);
   (0x38E, 0x3A1); (0x3A3, 0x3F5); (0x3F7, 0x481); (0x48A, 0x52F);
   (0x531, 0x556); (0x560, 0x588); (0x10A0, 0x10C5); (0x10C7, 0x10C7);
   (0x10CD, 0x10CD); (0x10D0, 0x10FA); (0x10FD, 0x10FF); (0x13A0, 0x13F5);
   (0x13F8, 0x13FD); (0x1C80, 0x1C88); (0x1C90, 0x1CBA); (0x1CBD, 0x1CBF);
   (0x1D00, 0x1D2B); (0x1D6B, 0x1D77); (0x1D79, 0x1D9A); (0x1E00, 0x1F15);
   (0x1F18, 0x1F1D); (0x1F20, 0x1F45); (0x1F48, 0x1F4D); (0x1F50, 0x1F57);
   (0x1F59, 0x1F59); (0x1F5B, 0x1F5B); (0x1F5D, 0x1F5D); (0x1F5F, 0x1F7D);
   (0x1F80, 0x1FB4); (0x1FB6, 0x1FBC); (0x1FBE, 0x1FBE); (0x1FC2, 0x1FC4);
   (0x1FC6, 0x1FCC); (0x1FD0, 0x1FD3); (0x1FD6, 0x1FDB); (0x1FE0, 0x1FEC);
   (0x1FF2, 0x1FF4); (0x1FF6, 0x1FFC); (0x2102, 0x2102); (0x2107, 0x2107);
   (0x210A, 0x2113); (0x2115, 0x2115); (0x2119, 0x211D); (0x2124, 0x2124);
   (0x2126, 0x2126); (0x2128, 0x2128); (0x212A, 0x212D); (0x212F, 0x2134);
   (0x2139, 0x2139); (0x213C, 0x213F); (0x2145, 0x2149); (0x214E, 0x214E);
   (0x2160, 0x217F); (0x2183, 0x2184); (0x24B6, 0x24E9); (0x2C00, 0x2C7B);
   (0x2C7E, 0x2CE4); (0x2CEB, 0x2CEE); (0x2CF2, 0x2CF3); (0x2D00, 0x2D25);
   (0x2D27, 0x2D27); (0x2D2D, 0x2D2D); (0xA640, 0xA66D); (0xA680, 0xA69B);
   (0xA722, 0xA76F); (0xA771, 0xA787); (0xA78B, 0xA78E); (0xA790, 0xA7CA);
   (0xA7D0, 0xA7D1); (0xA7D3, 0xA7D3); (0xA7D5, 0xA7D9); (0xA7F5, 0xA7F6);
   (0xA7FA, 0xA7FA); (0xAB30, 0xAB5A); (0xAB60, 0xAB68); (0xAB70, 0xABBF);
   (0xFB00, 0xFB06); (0xFB13, 0xFB17); (0xFF21, 0xFF3A); (0xFF41, 0xFF5A);
   (0x10400, 0x1044F); (0x104B0, 0x104D3); (0x104D8, 0x104FB);
   (0x10570, 0x1057A); (0x1057C, 0x1058A); (0x1058C, 0x10592);
   (0x10594, 0x10595); (0x10597, 0x105A1); (0x105A3, 0x105B1);
   (0x105B3, 0x105B9); (0x105BB, 0x105BC); (0x10C80, 0x10CB2);
   (0x10CC0, 0x10CF2); (0x118A0, 0x118DF); (0x16E40, 0x16E7F);
   (0x1D400, 0x1D454); (0x1D456, 0x1D49C); (0x1D49E, 0x1D49F);
   (0x1D4A2, 0x1D4A2); (0x1D4A5, 0x1D4A6); (0x1D4A9, 0x1D4AC);
   (0x1D4AE, 0x1D4B9); (0x1D4BB, 0x1D4BB); (0x1D4BD, 0x1D4C3);
   (0x1D4C5, 0x1D505); (0x1D507, 0x1D50A); (0x1D50D, 0x1D514);
   (0x1D516, 0x1D51C); (0x1D51E, 0x1D539); (0x1D53B, 0x1D53E);
   (0x1D540, 0x1D544); (0x1D546, 0x1D546); (0x1D54A, 0x1D550);
   (0x1D552, 0x1D6A5); (0x1D6A8, 0x1D6C0); (0x1D6C2, 0x1D6DA);
   (0x1D6DC, 0x1D6FA); (0x1D6FC, 0x1D714); (0x1D716, 0x1D734);
   (0x1D736, 0x1D74E); (0x1D750, 0x1D76E); (0x1D770, 0x1D788);
   (0x1D78A, 0x1D7A8); (0x1D7AA, 0x1D7C2); (0x1D7C4, 0x1D7CB);
   (0x1DF00, 0x1DF09); (0x1DF0B, 0x1DF1E); (0x1E900, 0x1E943);
   (0x1F130, 0x1F149); (0x1F150, 0x1F169); (0x1F170, 0x1F189)].

(** The code points [str.isprintable] rejects, which [repr] escapes. *)
Definition nonprintable_ranges : list (Z * Z) :=
  [(0x0, 0x1F); (0x7F, 0xA0); (0xAD, 0xAD); (0x378, 0x379); (0x380, 0x383);
   (0x38B, 0x38B); (0x38D, 0x38D); (0x3A2, 0x3A2); (0x530, 0x530);
   (0x557, 0x558); (0x58B, 0x58C); (0x590, 0x590); (0x5C8, 0x5CF);
   (0x5EB, 0x5EE); (0x5F5, 0x605); (0x61C, 0x61C); (0x6DD, 0x6DD);
   (0x70E, 0x70F); (0x74B, 0x74C); (0x7B2, 0x7BF); (0x7FB, 0x7FC);
   (0x82E, 0x82F); (0x83F, 0x83F); (0x85C, 0x85D); (0x85F, 0x85F);
   (0x86B, 0x86F); (0x88F, 0x897); (0x8E2, 0x8E2); (0x984, 0x984);
   (0x98D, 0x98E); (0x991, 0x992); (0x9A9, 0x9A9); (0x9B1, 0x9B1);
   (0x9B3, 0x9B5); (0x9BA, 0x9BB); (0x9C5, 0x9C6); (0x9C9, 0x9CA);
   (0x9CF, 0x9D6); (0x9D8, 0x9DB); (0x9DE, 0x9DE); (0x9E4, 0x9E5);
   (0x9FF, 0xA00); (0xA04, 0xA04); (0xA0B, 0xA0E); (0xA11, 0xA12);
   (0xA29, 0xA29); (0xA31, 0xA31); (0xA34, 0xA34); (0xA37, 0xA37);
   (0xA3A, 0xA3B); (0xA3D, 0xA3D); (0xA43, 0xA46); (0xA49, 0xA4A);
   (0xA4E, 0xA50); (0xA52, 0xA58); (0xA5D, 0xA5D); (0xA5F, 0xA65);
   (0xA77, 0xA80); (0xA84, 0xA84); (0xA8E, 0xA8E); (0xA92, 0xA92);
   (0xAA9, 0xAA9); (0xAB1, 0xAB1); (0xAB4, 0xAB4); (0xABA, 0xABB);
   (0xAC6, 0xAC6); (0xACA, 0xACA); (0xACE, 0xACF); (0xAD1, 0xADF);
   (0xAE4, 0xAE5); (0xAF2, 0xAF8); (0xB00, 0xB00); (0xB04, 0xB04);
   (0xB0D, 0xB0E); (0xB11, 0xB12); (0xB29, 0xB29); (0xB31, 0xB31);
   (0xB34, 0xB34); (0xB3A, 0xB3B); (0xB45, 0xB46); (0xB49, 0xB4A);
   (0xB4E, 0xB54); (0xB58, 0xB5B); (0xB5E, 0xB5E); (0xB64, 0xB65);
   (0xB78, 0xB81); (0xB84, 0xB84); (0xB8B, 0xB8D); (0xB91, 0xB91);
   (0xB96, 0xB98); (0xB9B, 0xB9B); (0xB9D, 0xB9D); (0xBA0, 0xBA2);
   (0xBA5, 0xBA7); (0xBAB, 0xBAD); (0xBBA, 0xBBD); (0xBC3, 0xBC5);
   (0xBC9, 0xBC9); (0xBCE, 0xBCF); (0xBD1, 0xBD6); (0xBD8, 0xBE5);
   (0xBFB, 0xBFF); (0xC0D, 0xC0D); (0xC11, 0xC11); (0xC29, 0xC29);
   (0xC3A, 0xC3B); (0xC45, 0xC45); (0xC49, 0xC49); (0xC4E, 0xC54);
   (0xC57, 0xC57); (0xC5B, 0xC5C); (0xC5E, 0xC5F); (0xC64, 0xC65);
   (0xC70, 0xC76); (0xC8D, 0xC8D); (0xC91, 0xC91); (0xCA9, 0xCA9);
   (0xCB4, 0xCB4); (0xCBA, 0xCBB); (0xCC5, 0xCC5); (0xCC9, 0xCC9);
   (0xCCE, 0xCD4); (0xCD7, 0xCDC); (0xCDF, 0xCDF); (0xCE4, 0xCE5);
   (0xCF0, 0xCF0); (0xCF3, 0xCFF); (0xD0D, 0xD0D); (0xD11, 0xD11);
   (0xD45, 0xD45); (0xD49, 0xD49); (0xD50, 0xD53); (0xD64, 0xD65);
   (0xD80, 0xD80); (0xD84, 0xD84); (0xD97, 0xD99); (0xDB2, 0xDB2);
   (0xDBC, 0xDBC); (0xDBE, 0xDBF); (0xDC7, 0xDC9); (0xDCB, 0xDCE);
   (0xDD5, 0xDD5); (0xDD7, 0xDD7); (0xDE0, 0xDE5); (0xDF0, 0xDF1);
   (0xDF5, 0xE00); (0xE3B, 0xE3E); (0xE5C, 0xE80); (0xE83, 0xE83);
   (0xE85, 0xE85); (0xE8B, 0xE8B); (0xEA4, 0xEA4); (0xEA6, 0xEA6);
   (0xEBE, 0xEBF); (0xEC5, 0xEC5); (0xEC7, 0xEC7); (0xECE, 0xECF);
   (0xEDA, 0xEDB); (0xEE0, 0xEFF); (0xF48, 0xF48); (0xF6D, 0xF70);
   (0xF98, 0xF98); (0xFBD, 0xFBD); (0xFCD, 0xFCD); (0xFDB, 0xFFF);
   (0x10C6, 0x10C6); (0x10C8, 0x10CC); (0x10CE, 0x10CF); (0x1249, 0x1249);
   (0x124E, 0x124F); (0x1257, 0x1257); (0x1259, 0x1259); (0x125E, 0x125F);
   (0x1289, 0x1289); (0x128E, 0x128F); (0x12B1, 0x12B1); (0x12B6, 0x12B7);
   (0x12BF, 0x12BF); (0x12C1, 0x12C1); (0x12C6, 0x12C7); (0x12D7, 0x12D7);
   (0x1311, 0x1311); (0x1316, 0x1317); (0x135B, 0x135C); (0x137D, 0x137F);
   (0x139A, 0x139F); (0x13F6, 0x13F7); (0x13FE, 0x13FF); (0x1680, 0x1680);
   (0x169D, 0x169F); (0x16F9, 0x16FF); (0x1716, 0x171E); (0x1737, 0x173F);
   (0x1754, 0x175F); (0x176D, 0x176D); (0x1771, 0x1771); (0x1774, 0x177F);
   (0x17DE, 0x17DF); (0x17EA, 0x17EF); (0x17FA, 0x17FF); (0x180E, 0x180E);
   (0x181A, 0x181F); (0x1879, 0x187F); (0x18AB, 0x18AF); (0x18F6, 0x18FF);
   (0x191F, 0x191F); (0x192C, 0x192F); (0x193C, 0x193F); (0x1941, 0x1943);
   (0x196E, 0x196F); (0x1975, 0x197F); (0x19AC, 0x19AF); (0x19CA, 0x19CF);
   (0x19DB, 0x19DD); (0x1A1C, 0x1A1D); (0x1A5F, 0x1A5F); (0x1A7D, 0x1A7E);
   (0x1A8A, 0x1A8F); (0x1A9A, 0x1A9F); (0x1AAE, 0x1AAF); (0x1ACF, 0x1AFF);
   (0x1B4D, 0x1B4F); (0x1B7F, 0x1B7F); (0x1BF4, 0x1BFB); (0x1C38, 0x1C3A);
   (0x1C4A, 0x1C4C); (0x1C89, 0x1C8F); (0x1CBB, 0x1CBC); (0x1CC8, 0x1CCF);
   (0x1CFB, 0x1CFF); (0x1F16, 0x1F17); (0x1F1E, 0x1F1F); (0x1F46, 0x1F47);
   (0x1F4E, 0x1F4F); (0x1F58, 0x1F58); (0x1F5A, 0x1F5A); (0x1F5C, 0x1F5C);
   (0x1F5E, 0x1F5E); (0x1F7E, 0x1F7F); (0x1FB5, 0x1FB5); (0x1FC5, 0x1FC5);
   (0x1FD4, 0x1FD5); (0x1FDC, 0x1FDC); (0x1FF0, 0x1FF1); (0x1FF5, 0x1FF5);
   (0x1FFF, 0x200F); (0x2028, 0x202F); (0x205F, 0x206F); (0x2072, 0x2073);
   (0x208F, 0x208F); (0x209D, 0x209F); (0x20C1, 0x20CF); (0x20F1, 0x20FF);
   (0x218C, 0x218F); (0x2427, 0x243F); (0x244B, 0x245F); (0x2B74, 0x2B75);
   (0x2B96, 0x2B96); (0x2CF4, 0x2CF8); (0x2D26, 0x2D26); (0x2D28, 0x2D2C);
   (0x2D2E, 0x2D2F); (0x2D68, 0x2D6E); (0x2D71, 0x2D7E); (0x2D97, 0x2D9F);
   (0x2DA7, 0x2DA7); (0x2DAF, 0x2DAF); (0x2DB7, 0x2DB7); (0x2DBF, 0x2DBF);
   (0x2DC7, 0x2DC7); (0x2DCF, 0x2DCF); (0x2DD7, 0x2DD7); (0x2DDF, 0x2DDF);
   (0x2E5E, 0x2E7F); (0x2E9A, 0x2E9A); (0x2EF4, 0x2EFF); (0x2FD6, 0x2FEF);
   (0x2FFC, 0x3000); (0x3040, 0x3040); (0x3097, 0x3098); (0x3100, 0x3104);
   (0x3130, 0x3130); (0x318F, 0x318F); (0x31E4, 0x31EF); (0x321F, 0x321F);
   (0xA48D, 0xA48F); (0xA4C7, 0xA4CF); (0xA62C, 0xA63F); (0xA6F8, 0xA6FF);
   (0xA7CB, 0xA7CF); (0xA7D2, 0xA7D2); (0xA7D4, 0xA7D4); (0xA7DA, 0xA7F1);
   (0xA82D, 0xA82F); (0xA83A, 0xA83F); (0xA878, 0xA87F); (0xA8C6, 0xA8CD);
   (0xA8DA, 0xA8DF); (0xA954, 0xA95E); (0xA97D, 0xA97F); (0xA9CE, 0xA9CE);
   (0xA9DA, 0xA9DD); (0xA9FF, 0xA9FF); (0xAA37, 0xAA3F); (0xAA4E, 0xAA4F);
   (0xAA5A, 0xAA5B); (0xAAC3, 0xAADA); (0xAAF7, 0xAB00); (0xAB07, 0xAB08);
   (0xAB0F, 0xAB10); (0xAB17, 0xAB1F); (0xAB27, 0xAB27); (0xAB2F, 0xAB2F);
   (0xAB6C, 0xAB6F); (0xABEE, 0xABEF); (0xABFA, 0xABFF); (0xD7A4, 0xD7AF);
   (0xD7C7, 0xD7CA); (0xD7FC, 0xF8FF); (0xFA6E, 0xFA6F); (0xFADA, 0xFAFF);
   (0xFB07, 0xFB12); (0xFB18, 0xFB1C); (0xFB37, 0xFB37); (0xFB3D, 0xFB3D);
   (0xFB3F, 0xFB3F); (0xFB42, 0xFB42); (0xFB45, 0xFB45); (0xFBC3, 0xFBD2);
   (0xFD90, 0xFD91); (0xFDC8, 0xFDCE); (0xFDD0, 0xFDEF); (0xFE1A, 0xFE1F);
   (0xFE53, 0xFE53); (0xFE67, 0xFE67); (0xFE6C, 0xFE6F); (0xFE75, 0xFE75);
   (0xFEFD, 0xFF00); (0xFFBF, 0xFFC1); (0xFFC8, 0xFFC9); (0xFFD0, 0xFFD1);
   (0xFFD8, 0xFFD9); (0xFFDD, 0xFFDF); (0xFFE7, 0xFFE7); (0xFFEF, 0xFFFB);
   (0xFFFE, 0xFFFF); (0x1000C, 0x1000C); (0x10027, 0x10027);
   (0x1003B, 0x1003B); (0x1003E, 0x1003E); (0x1004E, 0x1004F);
   (0x1005E, 0x1007F); (0x100FB, 0x100FF); (0x10103, 0x10106);
   (0x10134, 0x10136); (0x1018F, 0x1018F); (0x1019D, 0x1019F);
   (0x101A1, 0x101CF); (0x101FE, 0x1027F); (0x1029D, 0x1029F);
   (0x102D1, 0x102DF); (0x102FC, 0x102FF); (0x10324, 0x1032C);
   (0x1034B, 0x1034F); (0x1037B, 0x1037F); (0x1039E, 0x1039E);
   (0x103C4, 0x103C7); (0x103D6, 0x103FF); (0x1049E, 0x1049F);
   (0x104AA, 0x104AF); (0x104D4, 0x104D7); (0x104FC, 0x104FF);
   (0x10528, 0x1052F); (0x10564, 0x1056E); (0x1057B, 0x1057B);
   (0x1058B, 0x1058B); (0x10593, 0x10593); (0x10596, 0x10596);
   (0x105A2, 0x105A2); (0x105B2, 0x105B2); (0x105BA, 0x105BA);
   (0x105BD, 0x105FF); (0x10737, 0x1073F); (0x10756, 0x1075F);
   (0x10768, 0x1077F); (0x10786, 0x10786); (0x107B1, 0x107B1);
   (0x107BB, 0x107FF); (0x10806, 0x10807); (0x10809, 0x10809);
   (0x10836, 0x10836); (0x10839, 0x1083B); (0x1083D, 0x1083E);
   (0x10856, 0x10856); (0x1089F, 0x108A6); (0x108B0, 0x108DF);
   (0x108F3, 0x108F3); (0x108F6, 0x108FA); (0x1091C, 0x1091E);
   (0x1093A, 0x1093E); (0x10940, 0x1097F); (0x109B8, 0x109BB);
   (0x109D0, 0x109D1); (0x10A04, 0x10A04); (0x10A07, 0x10A0B);
   (0x10A14, 0x10A14); (0x10A18, 0x10A18); (0x10A36, 0x10A37);
   (0x10A3B, 0x10A3E); (0x10A49, 0x10A4F); (0x10A59, 0x10A5F);
   (0x10AA0, 0x10ABF); (0x10AE7, 0x10AEA); (0x10AF7, 0x10AFF);
   (0x10B36, 0x10B38); (0x10B56, 0x10B57); (0x10B73, 0x10B77);
   (0x10B92, 0x10B98); (0x10B9D, 0x10BA8); (0x10BB0, 0x10BFF);
   (0x10C49, 0x10C7F); (0x10CB3, 0x10CBF); (0x10CF3, 0x10CF9);
   (0x10D28, 0x10D2F); (0x10D3A, 0x10E5F); (0x10E7F, 0x10E7F);
   (0x10EAA, 0x10EAA); (0x10EAE, 0x10EAF); (0x10EB2, 0x10EFF);
   (0x10F28, 0x10F2F); (0x10F5A, 0x10F6F); (0x10F8A, 0x10FAF);
   (0x10FCC, 0x10FDF); (0x10FF7, 0x10FFF); (0x1104E, 0x11051);
   (0x11076, 0x1107E); (0x110BD, 0x110BD); (0x110C3, 0x110CF);
   (0x110E9, 0x110EF); (0x110FA, 0x110FF); (0x11135, 0x11135);
   (0x11148, 0x1114F); (0x11177, 0x1117F); (0x111E0, 0x111E0);
   (0x111F5, 0x111FF); (0x11212, 0x11212); (0x1123F, 0x1127F);
   (0x11287, 0x11287); (0x11289, 0x11289); (0x1128E, 0x1128E);
   (0x1129E, 0x1129E); (0x112AA, 0x112AF); (0x112EB, 0x112EF);
   (0x112FA, 0x112FF); (0x11304, 0x11304); (0x1130D, 0x1130E);
   (0x11311, 0x11312); (0x11329, 0x11329); (0x11331, 0x11331);
   (0x11334, 0x11334); (0x1133A, 0x1133A); (0x11345, 0x11346);
   (0x11349, 0x1134A); (0x1134E, 0x1134F); (0x11351, 0x11356);
   (0x11358, 0x1135C); (0x11364, 0x11365); (0x1136D, 0x1136F);
   (0x11375, 0x113FF); (0x1145C, 0x1145C); (0x11462, 0x1147F);
   (0x114C8, 0x114CF); (0x114DA, 0x1157F); (0x115B6, 0x115B7);
   (0x115DE, 0x115FF); (0x11645, 0x1164F); (0x1165A, 0x1165F);
   (0x1166D, 0x1167F); (0x116BA, 0x116BF); (0x116CA, 0x116FF);
   (0x1171B, 0x1171C); (0x1172C, 0x1172F); (0x11747, 0x117FF);
   (0x1183C, 0x1189F); (0x118F3, 0x118FE); (0x11907, 0x11908);
   (0x1190A, 0x1190B); (0x11914, 0x11914); (0x11917, 0x11917);
   (0x11936, 0x11936); (0x11939, 0x1193A); (0x11947, 0x1194F);
   (0x1195A, 0x1199F); (0x119A8, 0x119A9); (0x119D8, 0x119D9);
   (0x119E5, 0x119FF); (0x11A48, 0x11A4F); (0x11AA3, 0x11AAF);
   (0x11AF9, 0x11BFF); (0x11C09, 0x11C09); (0x11C37, 0x11C37);
   (0x11C46, 0x11C4F); (0x11C6D, 0x11C6F); (0x11C90, 0x11C91);
   (0x11CA8, 0x11CA8); (0x11CB7, 0x11CFF); (0x11D07, 0x11D07);
   (0x11D0A, 0x11D0A); (0x11D37, 0x11D39); (0x11D3B, 0x11D3B);
   (0x11D3E, 0x11D3E); (0x11D48, 0x11D4F); (0x11D5A, 0x11D5F);
   (0x11D66, 0x11D66); (0x11D69, 0x11D69); (0x11D8F, 0x11D8F);
   (0x11D92, 0x11D92); (0x11D99, 0x11D9F); (0x11DAA, 0x11EDF);
   (0x11EF9, 0x11FAF); (0x11FB1, 0x11FBF); (0x11FF2, 0x11FFE);
   (0x1239A, 0x123FF); (0x1246F, 0x1246F); (0x12475, 0x1247F);
   (0x12544, 0x12F8F); (0x12FF3, 0x12FFF); (0x1342F, 0x143FF);
   (0x14647, 0x167FF); (0x16A39, 0x16A3F); (0x16A5F, 0x16A5F);
   (0x16A6A, 0x16A6D); (0x16ABF, 0x16ABF); (0x16ACA, 0x16ACF);
   (0x16AEE, 0x16AEF); (0x16AF6, 0x16AFF); (0x16B46, 0x16B4F);
   (0x16B5A, 0x16B5A); (0x16B62, 0x16B62); (0x16B78, 0x16B7C);
   (0x16B90, 0x16E3F); (0x16E9B, 0x16EFF); (0x16F4B, 0x16F4E);
   (0x16F88, 0x16F8E); (0x16FA0, 0x16FDF); (0x16FE5, 0x16FEF);
   (0x16FF2, 0x16FFF); (0x187F8, 0x187FF); (0x18CD6, 0x18CFF);
   (0x18D09, 0x1AFEF); (0x1AFF4, 0x1AFF4); (0x1AFFC, 0x1AFFC);
   (0x1AFFF, 0x1AFFF); (0x1B123, 0x1B14F); (0x1B153, 0x1B163);
   (0x1B168, 0x1B16F); (0x1B2FC, 0x1BBFF); (0x1BC6B, 0x1BC6F);
   (0x1BC7D, 0x1BC7F); (0x1BC89, 0x1BC8F); (0x1BC9A, 0x1BC9B);
   (0x1BCA0, 0x1CEFF); (0x1CF2E, 0x1CF2F); (0x1CF47, 0x1CF4F);
   (0x1CFC4, 0x1CFFF); (0x1D0F6, 0x1D0FF); (0x1D127, 0x1D128);
   (0x1D173, 0x1D17A); (0x1D1EB, 0x1D1FF); (0x1D246, 0x1D2DF);
   (0x1D2F4, 0x1D2FF); (0x1D357, 0x1D35F); (0x1D379, 0x1D3FF);
   (0x1D455, 0x1D455); (0x1D49D, 0x1D49D); (0x1D4A0, 0x1D4A1);
   (0x1D4A3, 0x1D4A4); (0x1D4A7, 0x1D4A8); (0x1D4AD, 0x1D4AD);
   (0x1D4BA, 0x1D4BA); (0x1D4BC, 0x1D4BC); (0x1D4C4, 0x1D4C4);
   (0x1D506, 0x1D506); (0x1D50B, 0x1D50C); (0x1D515, 0x1D515);
   (0x1D51D, 0x1D51D); (0x1D53A, 0x1D53A); (0x1D53F, 0x1D53F);
   (0x1D545, 0x1D545); (0x1D547, 0x1D549); (0x1D551, 0x1D551);
   (0x1D6A6, 0x1D6A7); (0x1D7CC, 0x1D7CD); (0x1DA8C, 0x1DA9A);
   (0x1DAA0, 0x1DAA0); (0x1DAB0, 0x1DEFF); (0x1DF1F, 0x1DFFF);
   (0x1E007, 0x1E007); (0x1E019, 0x1E01A); (0x1E022, 0x1E022);
   (0x1E025, 0x1E025); (0x1E02B, 0x1E0FF); (0x1E12D, 0x1E12F);
   (0x1E13E, 0x1E13F); (0x1E14A, 0x1E14D); (0x1E150, 0x1E28F);
   (0x1E2AF, 0x1E2BF); (0x1E2FA, 0x1E2FE); (0x1E300, 0x1E7DF);
   (0x1E7E7, 0x1E7E7); (0x1E7EC, 0x1E7EC); (0x1E7EF, 0x1E7EF);
   (0x1E7FF, 0x1E7FF); (0x1E8C5, 0x1E8C6); (0x1E8D7, 0x1E8FF);
   (0x1E94C, 0x1E94F); (0x1E95A, 0x1E95D); (0x1E960, 0x1EC70);
   (0x1ECB5, 0x1ED00); (0x1ED3E, 0x1EDFF); (0x1EE04, 0x1EE04);
   (0x1EE20, 0x1EE20); (0x1EE23, 0x1EE23); (0x1EE25, 0x1EE26);
   (0x1EE28, 0x1EE28); (0x1EE33, 0x1EE33); (0x1EE38, 0x1EE38);
   (0x1EE3A, 0x1EE3A); (0x1EE3C, 0x1EE41); (0x1EE43, 0x1EE46);
   (0x1EE48, 0x1EE48); (0x1EE4A, 0x1EE4A); (0x1EE4C, 0x1EE4C);
   (0x1EE50, 0x1EE50); (0x1EE53, 0x1EE53); (0x1EE55, 0x1EE56);
   (0x1EE58, 0x1EE58); (0x1EE5A, 0x1EE5A); (0x1EE5C, 0x1EE5C);
   (0x1EE5E, 0x1EE5E); (0x1EE60, 0x1EE60); (0x1EE63, 0x1EE63);
   (0x1EE65, 0x1EE66); (0x1EE6B, 0x1EE6B); (0x1EE73, 0x1EE73);
   (0x1EE78, 0x1EE78); (0x1EE7D, 0x1EE7D); (0x1EE7F, 0x1EE7F);
   (0x1EE8A, 0x1EE8A); (0x1EE9C, 0x1EEA0); (0x1EEA4, 0x1EEA4);
   (0x1EEAA, 0x1EEAA); (0x1EEBC, 0x1EEEF); (0x1EEF2, 0x1EFFF);
   (0x1F02C, 0x1F02F); (0x1F094, 0x1F09F); (0x1F0AF, 0x1F0B0);
   (0x1F0C0, 0x1F0C0); (0x1F0D0, 0x1F0D0); (0x1F0F6, 0x1F0FF);
   (0x1F1AE, 0x1F1E5); (0x1F203, 0x1F20F); (0x1F23C, 0x1F23F);
   (0x1F249, 0x1F24F); (0x1F252, 0x1F25F); (0x1F266, 0x1F2FF);
   (0x1F6D8, 0x1F6DC); (0x1F6ED, 0x1F6EF); (0x1F6FD, 0x1F6FF);
   (0x1F774, 0x1F77F); (0x1F7D9, 0x1F7DF); (0x1F7EC, 0x1F7EF);
   (0x1F7F1, 0x1F7FF); (0x1F80C, 0x1F80F); (0x1F848, 0x1F84F);
   (0x1F85A, 0x1F85F); (0x1F888, 0x1F88F); (0x1F8AE, 0x1F8AF);
   (0x1F8B2, 0x1F8FF); (0x1FA54, 0x1FA5F); (0x1FA6E, 0x1FA6F);
   (0x1FA75, 0x1FA77); (0x1FA7D, 0x1FA7F); (0x1FA87, 0x1FA8F);
   (0x1FAAD, 0x1FAAF); (0x1FABB, 0x1FABF); (0x1FAC6, 0x1FACF);
   (0x1FADA, 0x1FADF); (0x1FAE8, 0x1FAEF); (0x1FAF7, 0x1FAFF);
   (0x1FB93, 0x1FB93); (0x1FBCB, 0x1FBEF); (0x1FBFA, 0x1FFFF);
   (0x2A6E0, 0x2A6FF); (0x2B739, 0x2B73F); (0x2B81E, 0x2B81F);
   (0x2CEA2, 0x2CEAF); (0x2EBE1, 0x2F7FF); (0x2FA1E, 0x2FFFF);
   (0x3134B, 0xE00FF); (0xE01F0, 0x10FFFF)].

(** *** The builtins *)

(** The lower case of one code point: the capital I with a dot is the one
    that becomes two. *)
Definition lower_full (cp : Z) : list Z :=
  if cp =? 0x130 then [0x69; 0x307]
  else
    match find (fun run =>
                  let '(first, last, step, _) := run in
                  ((first <=? cp) && (cp <=? last)
                   && ((cp - first) mod step =? 0))%bool) lower_runs with
    | Some (_, _, _, offset) => [cp + offset]
    | None => [cp]
    end.

Definition case_ignorable (cp : Z) : bool := in_ranges cp case_ignorable_ranges.

Definition cased (cp : Z) : bool := in_ranges cp cased_ranges.

(** The first code point that is not case-ignorable is a cased one. *)
Fixpoint cased_ahead (l : list Z) : bool :=
  match l with
  | [] => false
  | cp :: r => if case_ignorable cp then cased_ahead r else cased cp
  end.

(** The capital sigma becomes the final sigma after a cased letter and not
    before one, case-ignorable code points apart; [after_cased] tells that
    the last code point that is not case-ignorable was cased. *)
Fixpoint lower_cps (after_cased : bool) (l : list Z) : list Z :=
  match l with
  | [] => []
  | cp :: r =>
      ((if cp =? 0x3A3
        then [if (after_cased && negb (cased_ahead r))%bool
              then 0x3C2 else 0x3C3]
        else lower_full cp)
       ++ lower_cps (if case_ignorable cp then after_cased else cased cp) r)%list
  end.

(** [s.lower()]. *)
Definition lower (s : string) : string :=
  encode (lower_cps false (code_points s)).

(** [sub in s] for two strings. *)
Fixpoint contains (sub s : string) : bool :=
  match s with
  | EmptyString => prefix sub EmptyString
  | String _ r => (prefix sub s || contains sub r)%bool
  end.

(** [s.replace(old, new)] for a non-empty [old]: the occurrences are taken
    from left to right and do not overlap.  [skip] counts the characters of
    an occurrence that is being skipped. *)
Fixpoint replace_from (old new s : string) (skip : nat) : string :=
  match s with
  | EmptyString => EmptyString
  | String c r =>
      match skip with
      | S n => replace_from old new r n
      | O =>
          if prefix old s
          then new ++ replace_from old new r (Nat.pred (String.length old))
          else String c (replace_from old new r O)
      end
  end.

Definition replace (old new s : string) : string := replace_from old new s O.

(** White space as [str.strip] and [str.isspace] see it. *)
Definition is_space (cp : Z) : bool := in_ranges cp space_ranges.

Fixpoint drop_while {A : Type} (p : A -> bool) (l : list A) : list A :=
  match l with
  | [] => []
  | x :: r => if p x then drop_while p r else l
  end.

(** [s.strip()]. *)
Definition strip (s : string) : string :=
  encode (rev (drop_while is_space (rev (drop_while is_space (code_points s))))).

(** [s.rstrip(ch)] for a one-character argument. *)
Fixpoint rstrip_char (ch : ascii) (s : string) : string :=
  match s with
  | EmptyString => EmptyString
  | String c r =>
      match rstrip_char ch r with
      | EmptyString => if Ascii.eqb c ch then EmptyString else String c EmptyString
      | r' => String c r'
      end
  end.

(** [s.split(sep)] for a one-character separator: never the empty list. *)
Fixpoint split (sep : ascii) (s : string) : list string :=
  match s with
  | EmptyString => [EmptyString]
  | String c r =>
      if Ascii.eqb c sep then EmptyString :: split sep r
      else match split sep r with
           | p :: ps => String c p :: ps
           | [] => [String c EmptyString]
           end
  end.

Definition startswith_char (ch : ascii) (s : string) : bool :=
  match s with
  | String c _ => Ascii.eqb c ch
  | EmptyString => false
  end.

Fixpoint endswith_char (ch : ascii) (s : string) : bool :=
  match s with
  | EmptyString => false
  | String c EmptyString => Ascii.eqb c ch
  | String _ r => endswith_char ch r
  end.

(** [s[:-1]]. *)
Fixpoint drop_last (s : string) : string :=
  match s with
  | EmptyString => EmptyString
  | String _ EmptyString => EmptyString
  | String c r => String c (drop_last r)
  end.

(** [s[1:-1]], for a text that starts and ends with an ASCII character. *)
Definition slice_1_m1 (s : string) : string :=
  match s with
  | EmptyString => EmptyString
  | String _ r => drop_last r
  end.

(** [str(n)] for an integer. *)
Definition str_of_Z (z : Z) : string := NilZero.string_of_int (Z.to_int z).

(** The hexadecimal digits of [z], lower case, [width] of them. *)
Fixpoint hex (width : nat) (z : Z) : string :=
  match width with
  | O => EmptyString
  | S k =>
      let d := z mod 16 in
      hex k (z / 16)
      ++ String (char_of (if d <? 10 then 48 + d else 87 + d)) EmptyString
  end.

(** [repr(s)] for a string: between apostrophes, or between double quotes
    when the text has an apostrophe and no double quote; the quote in use,
    the backslash, the control characters and what is not printable are
    escaped. *)
Definition repr_cp (quote : Z) (cp : Z) : string :=
  if ((cp =? quote) || (cp =? 92))%bool
  then String "\" (String (char_of cp) EmptyString)
  else if cp =? 9 then "\t"
  else if cp =? 10 then "\n"
  else if cp =? 13 then "\r"
  else if cp <? 0 then encode_cp cp
  else if in_ranges cp nonprintable_ranges then
    if cp <? 0x100 then "\x" ++ hex 2 cp
    else if cp <? 0x10000 then "\u" ++ hex 4 cp
    else "\U" ++ hex 8 cp
  else encode_cp cp.

Definition repr_str (s : string) : string :=
  let cps := code_points s in
  let quote :=
    if (existsb (Z.eqb 39) cps && negb (existsb (Z.eqb 34) cps))%bool
    then 34 else 39 in
  let q := String (char_of quote) EmptyString in
  q ++ fold_right (fun cp r => repr_cp quote cp ++ r) EmptyString cps ++ q.

(** ** Numbers from text *)

(** The value of a decimal digit of any script. *)
Definition decimal_value (cp : Z) : option Z :=
  match find (fun zero => ((zero <=? cp) && (cp <=? zero + 9))%bool)
             digit_zeros with
  | Some zero => Some (cp - zero)
  | None => None
  end.

(** What [float] and [int] read: the ASCII characters as they are, any other
    white space as a space, any other decimal digit as its ASCII digit and
    anything else as a question mark, which no number holds. *)
Definition ascii_of_cp (cp : Z) : ascii :=
  if ((0 <=? cp) && (cp <? 128))%bool then char_of cp
  else if is_space cp then " "%char
  else match decimal_value cp with
       | Some d => char_of (48 + d)
       | None => "?"%char
       end.

Definition ascii_number (s : string) : string :=
  fold_right (fun cp r => String (ascii_of_cp cp) r) EmptyString
             (code_points s).

(** The white space of the C locale, which the two conversions strip: the
    separators U+001C to U+001F are white space for [str.strip] only. *)
Definition is_c_space (c : ascii) : bool :=
  let b := byte c in (((9 <=? b) && (b <=? 13)) || (b =? 32))%bool.

Fixpoint lstrip_c (s : string) : string :=
  match s with
  | EmptyString => EmptyString
  | String c r => if is_c_space c then lstrip_c r else s
  end.

Fixpoint rstrip_c (s : string) : string :=
  match s with
  | EmptyString => EmptyString
  | String c r =>
      match rstrip_c r with
      | EmptyString => if is_c_space c then EmptyString else String c EmptyString
      | r' => String c r'
      end
  end.

Definition strip_c (s : string) : string := rstrip_c (lstrip_c s).

(** The lower case of ASCII text, for the names of infinity and NaN. *)
Fixpoint lower_c (s : string) : string :=
  match s with
  | EmptyString => EmptyString
  | String c r =>
      let b := byte c in
      String (if ((65 <=? b) && (b <=? 90))%bool then char_of (b + 32) else c)
             (lower_c r)
  end.

Definition digit_value (c : ascii) : option Z :=
  let b := byte c in
  if ((48 <=? b) && (b <=? 57))%bool then Some (b - 48) else None.

(** A run [digit (["_"] digit)*]: its value and its number of digits.
    [prev] tells whether the previous character was a digit. *)
Fixpoint digitpart (s : string) (acc : Z) (count : nat) (prev : bool)
  : option (Z * nat) :=
  match s with
  | EmptyString => if prev then Some (acc, count) else None
  | String c r =>
      match digit_value c with
      | Some d => digitpart r (10 * acc + d) (S count) true
      | None =>
          if (Ascii.eqb c "_" && prev)%bool then digitpart r acc count false
          else None
      end
  end.

(** An optional sign: the sign read and the rest of the text. *)
Definition split_sign (s : string) : bool * string :=
  match s with
  | String "-" r => (true, r)
  | String "+" r => (false, r)
  | _ => (false, s)
  end.

(** The limit CPython puts on the number of digits of a decimal text. *)
Definition max_str_digits : nat := 4300.

(** The integer a text writes in base ten, and its number of digits. *)
Definition int_literal (s : string) : option (Z * nat) :=
  let (neg, body) := split_sign (strip_c (ascii_number s)) in
  match digitpart body 0 O false with
  | Some (n, count) => Some (if neg then - n else n, count)
  | None => None
  end.

(** [int(s)] for a string, base ten; [None] stands for [ValueError]. *)
Definition int_of_str (s : string) : option Z :=
  match int_literal s with
  | Some (n, count) => if Nat.leb count max_str_digits then Some n else None
  | None => None
  end.

(** The number of digits [int] counts before it reads them: those of the
    run of digits and single underscores after the sign, when the run does
    not end with an underscore. *)
Fixpoint digit_run (s : string) (count : nat) (prev : ascii) : option nat :=
  match s with
  | EmptyString => if Ascii.eqb prev "_" then None else Some count
  | String c r =>
      match digit_value c with
      | Some _ => digit_run r (S count) c
      | None =>
          if Ascii.eqb c "_"
          then if Ascii.eqb prev "_" then None else digit_run r count c
          else if Ascii.eqb prev "_" then None else Some count
      end
  end.

(** The text of the [ValueError] of [int(s)]. *)
Definition int_error (s : string) : string :=
  let body := snd (split_sign (strip_c (ascii_number s))) in
  let invalid :=
    "invalid literal for int() with base 10: "
    ++ encode (firstn 200 (code_points (repr_str s))) in
  if startswith_char "_" body then invalid
  else
    match digit_run body O "0" with
    | Some count =>
        if Nat.leb count max_str_digits then invalid
        else "Exceeds the limit (4300 digits) for integer string conversion: "
             ++ "value has " ++ str_of_Z (Z.of_nat count)
             ++ " digits; use sys.set_int_max_str_digits() "
             ++ "to increase the limit"
    | None => invalid
    end.

(** The binary64 number nearest to [n / d] (ties to even): the quotient is
    taken with more than 55 bits and a sticky bit, and rounded once. *)
Definition float_of_ratio (n d : positive) : float :=
  let s := Z.max 0 (Z.log2 (Zpos d) - Z.log2 (Zpos n) + 60) in
  let num := Zpos n * 2 ^ s in
  let q := num / Zpos d in
  let sticky := if num mod Zpos d =? 0 then 0 else 1 in
  SF2Prim (binary_normalize prec emax (2 * q + sticky) (- s - 1) false).

(** [float(z)] for an integer that is in range. *)
Definition float_of_Z (z : Z) : float :=
  match z with
  | Z0 => 0%float
  | Zpos p => float_of_ratio p 1
  | Zneg p => PrimFloat.opp (float_of_ratio p 1)
  end.

(** The text before and after the first character satisfying [p]. *)
Fixpoint break_at (p : ascii -> bool) (s : string) : string * option string :=
  match s with
  | EmptyString => (EmptyString, None)
  | String c r =>
      if p c then (EmptyString, Some r)
      else let (a, b) := break_at p r in (String c a, b)
  end.

Definition is_exp_char (c : ascii) : bool := (Ascii.eqb c "e" || Ascii.eqb c "E")%bool.
Definition is_point (c : ascii) : bool := Ascii.eqb c ".".

(** A possibly empty digit run. *)
Definition digitpart_opt (s : string) : option (Z * nat) :=
  match s with
  | EmptyString => Some (0, O)
  | _ => digitpart s 0 O false
  end.

(** The decimal number [m * 10 ^ e], rounded to binary64.  A number of at
    least [10 ^ 311] is beyond the largest float and one below [10 ^ -330]
    is nearer to zero than to any other float, so these are answered without
    the power of ten being computed ([m] is below
    [10 ^ ((Z.log2 m + 1) / 3 + 1)]). *)
Definition float_of_decimal (m : Z) (e : Z) : float :=
  match m with
  | Z0 => 0%float
  | Zpos p =>
      if 310 <? e then infinity
      else if e + (Z.log2 m + 1) / 3 + 1 <? -330 then 0%float
      else
        match e with
        | Zneg k => float_of_ratio p (10 ^ k)%positive
        | _ => float_of_ratio (p * Z.to_pos (10 ^ e)) 1
        end
  | Zneg _ => 0%float
  end.

(** [float(s)] for a string; [None] stands for [ValueError]. *)
Definition float_of_str (s : string) : option float :=
  let (neg, body) := split_sign (strip_c (ascii_number s)) in
  let signed (f : float) := if neg then PrimFloat.opp f else f in
  let low := lower_c body in
  if (String.eqb low "inf" || String.eqb low "infinity")%bool
  then Some (signed infinity)
  else if String.eqb low "nan" then Some nan
  else
    let (mant, ex) := break_at is_exp_char body in
    let (ip, fp) := break_at is_point mant in
    let frac := match fp with Some f => f | None => EmptyString end in
    match ip, frac with
    | EmptyString, EmptyString => None
    | _, _ =>
        match digitpart_opt ip, digitpart_opt frac with
        | Some (iv, _), Some (fv, nf) =>
            let m := iv * 10 ^ Z.of_nat nf + fv in
            let e10 :=
              match ex with
              | None => Some 0
              | Some t =>
                  let (eneg, ebody) := split_sign t in
                  match digitpart ebody 0 O false with
                  | Some (ev, _) => Some (if eneg then - ev else ev)
                  | None => None
                  end
              end in
            match e10 with
            | Some e => Some (signed (float_of_decimal m (e - Z.of_nat nf)))
            | None => None
            end
        | _, _ => None
        end
    end.

(** ** Floats and integers *)

(** [int(f)]: truncation towards zero. *)
Definition int_of_float (f : float) : result Z :=
  match Prim2SF f with
  | S754_zero _ => Ok 0
  | S754_infinity _ =>
      raise EOverflowError "cannot convert float infinity to integer"
  | S754_nan => raise EValueError "cannot convert float NaN to integer"
  | S754_finite s m e =>
      let a := match e with
               | Zneg k => Zpos m / 2 ^ Zpos k
               | _ => Zpos m * 2 ^ e
               end in
      Ok (if s then - a else a)
  end.

(** [f == z] for a float and an integer: Python compares the two exactly. *)
Definition float_eq_Z (f : float) (z : Z) : bool :=
  match Prim2SF f with
  | S754_zero _ => z =? 0
  | S754_finite s m e =>
      let signed (a : Z) := if s then - a else a in
      match e with
      | Zneg k =>
          ((Zpos m mod 2 ^ Zpos k =? 0) && (z =? signed (Zpos m / 2 ^ Zpos k)))%bool
      | _ => z =? signed (Zpos m * 2 ^ e)
      end
  | _ => false
  end.

(** [x / y] on floats: a zero divisor raises. *)
Definition float_div (x y : float) : result float :=
  if PrimFloat.eqb y 0 then raise EZeroDivisionError "float division by zero"
  else Ok (x / y)%float.

(** [lo <= x <= hi]. *)
Definition float_between (lo x hi : float) : bool :=
  (PrimFloat.leb lo x && PrimFloat.leb x hi)%bool.

(** ** Dynamic operations on values *)

(** The name of the type of a value, as the error texts give it. *)
Definition type_name (v : pyval) : string :=
  match v with
  | PyNone => "NoneType"
  | PyBool _ => "bool"
  | PyInt _ => "int"
  | PyFloat _ => "float"
  | PyStr _ => "str"
  | PyList _ => "list"
  | PyDict _ => "dict"
  | PyObj cls _ => cls
  end.

Definition not_subscriptable (v : pyval) : string :=
  "'" ++ type_name v ++ "' object is not subscriptable".

Definition no_attribute (v : pyval) (name : string) : string :=
  "'" ++ type_name v ++ "' object has no attribute '" ++ name ++ "'".

(** [bool(v)], as [not v] and [if v] read it. *)
Definition truthy (v : pyval) : bool :=
  match v with
  | PyNone => false
  | PyBool b => b
  | PyInt z => negb (z =? 0)
  | PyFloat f => negb (PrimFloat.eqb f 0)
  | PyStr s => negb (String.eqb s EmptyString)
  | PyList l => match l with [] => false | _ => true end
  | PyDict d => match d with [] => false | _ => true end
  | PyObj _ _ => true
  end.

Definition is_none (v : pyval) : bool :=
  match v with PyNone => true | _ => false end.

(** [v == s] for a string [s]. *)
Definition eq_str (v : pyval) (s : string) : bool :=
  match v with
  | PyStr t => String.eqb t s
  | _ => false
  end.

Definition lookup (k : string) (d : list (string * pyval)) : option pyval :=
  match find (fun kv => String.eqb (fst kv) k) d with
  | Some kv => Some (snd kv)
  | None => None
  end.

(** [needle in v] for a string [needle]. *)
Definition in_str (needle : string) (v : pyval) : result bool :=
  match v with
  | PyStr s => Ok (contains needle s)
  | PyList l => Ok (existsb (fun x => eq_str x needle) l)
  | PyDict d => Ok (match lookup needle d with Some _ => true | None => false end)
  | _ => raise ETypeError
             ("argument of type '" ++ type_name v ++ "' is not iterable")
  end.

(** [v[k]] for a string [k]. *)
Definition getitem_str (v : pyval) (k : string) : result pyval :=
  match v with
  | PyDict d => of_option (lookup k d) EKeyError (repr_str k)
  | PyList _ => raise ETypeError "list indices must be integers or slices, not str"
  | PyStr _ => raise ETypeError "string indices must be integers, not 'str'"
  | _ => raise ETypeError (not_subscriptable v)
  end.

(** [v[0]]. *)
Definition getitem_0 (v : pyval) : result pyval :=
  match v with
  | PyList l => of_option (hd_error l) EIndexError "list index out of range"
  | PyStr s =>
      match code_points s with
      | cp :: _ => Ok (PyStr (encode_cp cp))
      | [] => raise EIndexError "string index out of range"
      end
  | PyDict _ => raise EKeyError "0"
  | _ => raise ETypeError (not_subscriptable v)
  end.

(** The characters of a text, each a text of its own. *)
Definition chars (s : string) : list pyval :=
  map (fun cp => PyStr (encode_cp cp)) (code_points s).

(** The items [for item in v] goes through. *)
Definition iterate (v : pyval) : result (list pyval) :=
  match v with
  | PyList l => Ok l
  | PyDict d => Ok (map (fun kv => PyStr (fst kv)) d)
  | PyStr s => Ok (chars s)
  | _ => raise ETypeError ("'" ++ type_name v ++ "' object is not iterable")
  end.

(** [v.lower()]. *)
Definition lower_of (v : pyval) : result string :=
  match v with
  | PyStr s => Ok (lower s)
  | _ => raise EAttributeError (no_attribute v "lower")
  end.

(** [float(v)]. *)
Definition float_of (v : pyval) : result float :=
  match v with
  | PyStr s =>
      of_option (float_of_str s) EValueError
        ("could not convert string to float: " ++ repr_str s)
  | PyFloat f => Ok f
  | PyInt z =>
      let f := float_of_Z z in
      if PrimFloat.eqb (PrimFloat.abs f) infinity
      then raise EOverflowError "int too large to convert to float"
      else Ok f
  | PyBool b => Ok (if b then 1%float else 0%float)
  | _ => raise ETypeError
             ("float() argument must be a string or a real number, not '"
              ++ type_name v ++ "'")
  end.

(** [int(v)]. *)
Definition int_of (v : pyval) : result Z :=
  match v with
  | PyStr s =>
      of_option (int_of_str s) EValueError (int_error s)
  | PyInt z => Ok z
  | PyBool b => Ok (if b then 1 else 0)
  | PyFloat f => int_of_float f
  | _ => raise ETypeError
             ("int() argument must be a string, a bytes-like object or a "
              ++ "real number, not '" ++ type_name v ++ "'")
  end.

End Py.

Import Py.

Notation "x <- m ;; k" := (bind m (fun x => k))
  (at level 61, m at next level, right associativity).

(* ================================================================== *)
(** * helpers/compute_helpers.py                                      *)
(* ================================================================== *)

Module compute_helpers.

(** What [requests.post] hands back: the status code, the result of
    [response.json()] and the raw body [response.text]. *)
Record response : Type := mkResponse {
  status_code : Z;
  json : result pyval;
  text : string
}.

(** The body of the [try] block of [run_rhino_compute]. *)
Definition read_response (r : response) : result pyval :=
  json_response <- json r ;;
  accept <- (if status_code r =? 500 then in_str "values" json_response
             else Ok false) ;;
  if accept : bool then Ok json_response
  else if negb (status_code r =? 200)
  then raise EValueError
         ("Rhino.Compute returned status " ++ str_of_Z (status_code r)
          ++ ": " ++ text r)
  else Ok json_response.

(** The [try ... except Exception as e: raise ValueError(...)] around it. *)
Definition process_response (r : response) : result pyval :=
  match read_response r with
  | Ok v => Ok v
  | Raise e => raise EValueError ("Failed to process response: " ++ exn_msg e)
  end.

Section Compute.

(** [requests.post(url, json=payload, headers=..., timeout=3000)]. *)
Variable http_post : string -> pyval -> result response.

Definition run_rhino_compute (definition_path : string)
    (parameters : list pyval) (compute_url : string) : result pyval :=
  let payload :=
    PyDict [("algo", PyNone);
            ("pointer", PyStr definition_path);
            ("values", PyList parameters)] in
  let url := rstrip_char "/" compute_url ++ "/grasshopper" in
  r <- http_post url payload ;;
  process_response r.

End Compute.

Section Format.

(** [str(value)] for a value that is no string, boolean or number. *)
Variable py_str : pyval -> string.

(** The [if]/[elif] chain of [format_parameter]: the .NET type name and
    the value sent. *)
Definition infer_type (value : pyval) : result (string * pyval) :=
  if isinstance_str value then Ok ("System.String", value)
  else if isinstance_bool value then Ok ("System.Boolean", value)
  else if isinstance_int value then Ok ("System.Int32", value)
  else if isinstance_float value then
    match value with
    | PyFloat f =>
        n <- int_of_float f ;;
        if float_eq_Z f n then Ok ("System.Int32", PyInt n)
        else Ok ("System.Double", value)
    | _ => Ok ("System.Double", value)
    end
  else Ok ("System.String", PyStr (py_str value)).

Definition format_parameter (param_name : string) (value : pyval)
  : result pyval :=
  tv <- infer_type value ;;
  Ok (PyDict
        [("ParamName", PyStr param_name);
         ("InnerTree",
          PyDict [("{0}", PyList [PyDict [("type", PyStr (fst tv));
                                          ("data", snd tv)]])])]).

(** [format_parameters], over the items of the dictionary in order. *)
Fixpoint format_parameters (param_dict : list (string * pyval))
  : result (list pyval) :=
  match param_dict with
  | [] => Ok []
  | (name, value) :: rest =>
      p <- format_parameter name value ;;
      ps <- format_parameters rest ;;
      Ok (p :: ps)
  end.

End Format.

End compute_helpers.

(* ================================================================== *)
(** * helpers/compute_rhino3dm_helpers.py                             *)
(* ================================================================== *)

Module compute_rhino3dm_helpers.

(** The double-quote character. *)
Definition dquote : ascii := "034"%char.

(** The default [tree_path] of [decode_gh_output]. *)
Definition default_tree_path : string := "{0;0}".

Section Decode.

(** [json.loads] on a string, and [rhino3dm.CommonObject.Decode]; the
    latter answers [PyNone] when it builds no object. *)
Variable json_loads : string -> result pyval.
Variable Decode : pyval -> result pyval.

(** The quote-stripping step. *)
Definition unquote (data : pyval) : pyval :=
  match data with
  | PyStr s =>
      if (startswith_char dquote s && endswith_char dquote s)%bool
      then PyStr (slice_1_m1 s)
      else data
  | _ => data
  end.

(** [json.loads(data)]: anything but text is a [TypeError]. *)
Definition loads (data : pyval) : result pyval :=
  match data with
  | PyStr s => json_loads s
  | _ => raise ETypeError
             ("the JSON object must be str, bytes or bytearray, not "
              ++ type_name data)
  end.

(** The first [try] block: [Some obj] when the loop continues with [obj]
    appended, [None] when control falls through. *)
Definition try_geometry (data : pyval) : option pyval :=
  match (j <- loads data ;; Decode j) with
  | Ok obj => if is_none obj then None else Some obj
  | Raise _ => None
  end.

(** The second [try] block. *)
Definition try_number (data : pyval) : option pyval :=
  match (dot <- in_str "." data ;;
         if dot : bool
         then f <- float_of data ;; Ok (PyFloat f)
         else n <- int_of data ;; Ok (PyInt n)) with
  | Ok num => Some num
  | Raise _ => None
  end.

(** What one pass of the loop body appends for the value of [item['data']]. *)
Definition decode_item (data0 : pyval) : pyval :=
  let data := unquote data0 in
  match try_geometry data with
  | Some obj => obj
  | None =>
      match try_number data with
      | Some num => num
      | None => data
      end
  end.

(** The loop over the branch. *)
Fixpoint decode_items (branch : list pyval) : result (list pyval) :=
  match branch with
  | [] => Ok []
  | item :: rest =>
      data <- getitem_str item "data" ;;
      let r := decode_item data in
      rs <- decode_items rest ;;
      Ok (r :: rs)
  end.

Definition decode_gh_output (output : pyval) (tree_path : string)
  : result (list pyval) :=
  values <- getitem_str output "values" ;;
  first <- getitem_0 values ;;
  tree <- getitem_str first "InnerTree" ;;
  branch <- getitem_str tree tree_path ;;
  items <- iterate branch ;;
  decode_items items.

End Decode.

(** The geometry classes [save_3dm_file] tests for, in the order of its
    [try] blocks. *)
Inductive kind : Type := Curve | Point | Surface | Mesh | Brep.

Definition kinds_in_order : list kind := [Curve; Point; Surface; Mesh; Brep].

Section Save.

(** The state of a [rhino3dm.File3dm] model, the empty model,
    [isinstance(obj, rhino3dm.K)], [model.Objects.AddK(obj)] (its outcome
    and the model afterwards) and [model.Write(filename)]. *)
Variable File3dm : Type.
Variable new_model : File3dm.
Variable isinstance : pyval -> kind -> bool.
Variable add_to_model : kind -> pyval -> File3dm -> result unit * File3dm.
Variable write_model : File3dm -> string -> result unit.

(** One [try] block: [true] when it ends in [continue]. *)
Definition try_add (k : kind) (obj : pyval) (model : File3dm)
  : bool * File3dm :=
  if isinstance obj k then
    match add_to_model k obj model with
    | (Ok _, model') => (true, model')
    | (Raise _, model') => (false, model')
    end
  else (false, model).

(** The [try] blocks for the kinds [ks], one after the other. *)
Fixpoint add_first (ks : list kind) (obj : pyval) (model : File3dm)
  : File3dm :=
  match ks with
  | [] => model
  | k :: rest =>
      let (done, model') := try_add k obj model in
      if done then model' else add_first rest obj model'
  end.

(** The body of the loop over the objects. *)
Definition add_object (obj : pyval) (model : File3dm) : File3dm :=
  add_first kinds_in_order obj model.

(** The outcome of [model.Write] and the model that was written. *)
Definition save_3dm_file (objects : list pyval) (filename : string)
  : result unit * File3dm :=
  let model := fold_left (fun m obj => add_object obj m) objects new_model in
  (write_model model filename, model).

End Save.

End compute_rhino3dm_helpers.

(* ================================================================== *)
(** * helpers/location_helpers.py                                     *)
(* ================================================================== *)

Module location_helpers.

Definition parse_direct_coordinates (location : string)
  : bool * option float * option float :=
  if negb (contains "," location) then (false, None, None)
  else
    match map strip (split "," location) with
    | [p0; p1] =>
        (* a [ValueError] of [float] is caught and passed over *)
        match float_of_str p0, float_of_str p1 with
        | Some possible_lat, Some possible_lon =>
            if (float_between (-90) possible_lat 90
                && float_between (-180) possible_lon 180)%bool
            then (true, Some possible_lat, Some possible_lon)
            else (false, None, None)
        | _, _ => (false, None, None)
        end
    | _ => (false, None, None)
    end.

Definition intersection_keywords : list string :=
  [" and "; " & "; " at "; " intersection "].

Definition is_potential_intersection (location : string) : bool :=
  existsb (fun keyword => contains keyword (lower location))
          intersection_keywords.

(** The query [try_alternate_intersection_format] sends. *)
Definition alternate_query (location : string) : string :=
  if contains " and " (lower location)
  then replace " and " " & " (lower location)
  else if contains " & " (lower location)
  then replace " & " " and " (lower location)
  else location.

(** The loop of [select_best_geocoding_result]: the item it breaks on, or
    [PyNone]. *)
Fixpoint first_highway (items : list pyval) : result pyval :=
  match items with
  | [] => Ok PyNone
  | item :: rest =>
      has_type <- in_str "type" item ;;
      by_type <- (if has_type : bool
                  then t <- getitem_str item "type" ;;
                       l <- lower_of t ;;
                       Ok (contains "highway" l)
                  else Ok false) ;;
      if by_type : bool then Ok item
      else
        has_class <- in_str "class" item ;;
        by_class <- (if has_class : bool
                     then c <- getitem_str item "class" ;;
                          Ok (eq_str c "highway")
                     else Ok false) ;;
        if by_class : bool then Ok item else first_highway rest
  end.

(** [v.get(...)], evaluated for the debug line: only a [dict] has it. *)
Definition has_get (v : pyval) : result unit :=
  match v with
  | PyDict _ => Ok tt
  | _ => raise EAttributeError (no_attribute v "get")
  end.

Definition select_best_geocoding_result (data : pyval) (is_intersection : bool)
  : result pyval :=
  if negb (truthy data)
  then raise EValueError "No geocoding results to select from"
  else
    selected <- (if is_intersection
                 then items <- iterate data ;; first_highway items
                 else Ok PyNone) ;;
    selected <- (if negb (truthy selected) then getitem_0 data
                 else Ok selected) ;;
    _ <- has_get selected ;;
    Ok selected.

(** The arithmetic [calculate_bounding_box] is written over. *)
Record Numeric : Type := mkNumeric {
  num : Type;
  add : num -> num -> num;
  sub : num -> num -> num;
  mul : num -> num -> num;
  div : num -> num -> result num;
  absolute : num -> num;
  of_Z : Z -> num;
  radians : num -> num;
  cosine : num -> result num
}.

Definition calculate_bounding_box (N : Numeric)
    (lat lon box_size_meters : num N) : result (list (num N)) :=
  lat_offset <- div N box_size_meters (of_Z N 111320) ;;
  c <- cosine N (radians N lat) ;;
  lon_offset <-
    div N box_size_meters (mul N (of_Z N 111320) (absolute N c)) ;;
  Ok [sub N lon lon_offset;
      sub N lat lat_offset;
      add N lon lon_offset;
      add N lat lat_offset].

(** [repr] is the text an f-string puts for a number. *)
Definition generate_overpass_url {A : Type} (repr : A -> string)
    (bbox : list A) : result string :=
  match bbox with
  | b0 :: b1 :: b2 :: b3 :: _ =>
      Ok ("https://overpass-api.de/api/map?bbox="
          ++ repr b0 ++ "," ++ repr b1 ++ "," ++ repr b2 ++ "," ++ repr b3)
  | _ => raise EIndexError "list index out of range"
  end.

(** [math.radians]: multiplication by the double [pi / 180]. *)
Definition deg_to_rad : float := (0x1.921fb54442d18p+1 / 180)%float.

(** Binary64 arithmetic, over the C library's cosine. *)
Definition IEEE (math_cos : float -> result float) : Numeric :=
  {| num := float;
     add := PrimFloat.add;
     sub := PrimFloat.sub;
     mul := PrimFloat.mul;
     div := float_div;
     absolute := PrimFloat.abs;
     of_Z := float_of_Z;
     radians := fun x => (x * deg_to_rad)%float;
     cosine := math_cos |}.

(** The same operations on real numbers: what the floats approximate. *)
Definition Real : Numeric :=
  {| num := R;
     add := Rplus;
     sub := Rminus;
     mul := Rmult;
     div := fun x y =>
              if Req_dec_T y 0%R
              then raise EZeroDivisionError "float division by zero"
              else Ok (x / y)%R;
     absolute := Rabs;
     of_Z := IZR;
     radians := fun x => (x * (PI / 180))%R;
     cosine := fun x => Ok (cos x) |}.

(** The geocoding requests sent so far, oldest first. *)
Definition world : Type := list string.

(** A computation that may send requests and may raise. *)
Definition IO (A : Type) : Type := world -> result A * world.

Definition ret {A : Type} (a : A) : IO A := fun w => (Ok a, w).

Definition lift {A : Type} (m : result A) : IO A := fun w => (m, w).

Definition bindIO {A B : Type} (m : IO A) (k : A -> IO B) : IO B :=
  fun w =>
    match m w with
    | (Ok a, w') => k a w'
    | (Raise e, w') => (Raise e, w')
    end.

Notation "x <-- m ;;; k" := (bindIO m (fun x => k))
  (at level 61, m at next level, right associativity).

Section Pipeline.

(** The geocoding service: what a request with query [q] comes back with
    (the decoded JSON body, or the exception of [requests.get],
    [raise_for_status] or [response.json]) after the requests [w]. *)
Variable nominatim : world -> string -> result pyval.
(** [math.cos] and the [repr] of a float. *)
Variable math_cos : float -> result float.
Variable float_repr : float -> string.

Definition geocode_location (location : string) : IO pyval :=
  fun w => (nominatim w location, (w ++ [location])%list).

Definition try_alternate_intersection_format (location : string) : IO pyval :=
  geocode_location (alternate_query location).

(** The last two statements of the [try] block. *)
Definition finish (lat lon : option float) (box_size_meters : float)
  : result string :=
  match lat, lon with
  | Some la, Some lo =>
      bbox <- calculate_bounding_box (IEEE math_cos) la lo box_size_meters ;;
      generate_overpass_url float_repr bbox
  | _, _ => raise ETypeError "must be real number, not NoneType"
  end.

(** The statements of the [try] block that come after the geocoding
    requests: the early return for an empty result, the choice of a
    candidate and the reading of its coordinates. *)
Definition conclude (location : string) (box_size_meters : float)
    (intersection_check : bool) (geocode_results : pyval) : result string :=
  if negb (truthy geocode_results)
  then Ok ("Error: Location '" ++ location ++ "' not found")
  else
    selected_result <-
      select_best_geocoding_result geocode_results intersection_check ;;
    la <- (v <- getitem_str selected_result "lat" ;; float_of v) ;;
    lo <- (v <- getitem_str selected_result "lon" ;; float_of v) ;;
    finish (Some la) (Some lo) box_size_meters.

(** The [try] block of [location_to_coordinates]. *)
Definition resolve (location : string) (box_size_meters : float) : IO string :=
  let '(is_coordinates, lat, lon) := parse_direct_coordinates location in
  if negb is_coordinates then
    let intersection_check := is_potential_intersection location in
    geocode_results <-- geocode_location location ;;;
    geocode_results <--
      (if (negb (truthy geocode_results) && intersection_check)%bool
       then try_alternate_intersection_format location
       else ret geocode_results) ;;;
    lift (conclude location box_size_meters intersection_check geocode_results)
  else lift (finish lat lon box_size_meters).

(** The [except] clauses, in their order. *)
Definition handler (location : string) (e : exn) : string :=
  match exn_cls e with
  | ETimeout => "Error: Geocoding API request timed out"
  | ERequestException =>
      "Error: Network error when geocoding location: " ++ exn_msg e
  | EValueError => "Error: Invalid location format: " ++ exn_msg e
  | EIndexError =>
      "Error: Could not extract coordinates from location '" ++ location ++ "'"
  | _ => "Error: " ++ exn_msg e
  end.

Definition location_to_coordinates (location : string)
    (box_size_meters : float) : world -> string * world :=
  fun w =>
    match resolve location box_size_meters w with
    | (Ok url, w') => (url, w')
    | (Raise e, w') => (handler location e, w')
    end.

(** Awaiting the coroutine runs its body, which is the one call. *)
Definition location_to_coordinates_async (location : string)
    (box_size_meters : float) : world -> string * world :=
  fun w => location_to_coordinates location box_size_meters w.

End Pipeline.

End location_helpers.

(* ================================================================== *)
(** * helpers/context_gen_helpers.py                                  *)
(* ================================================================== *)

Module context_gen_helpers.

(** What [parse_result] returns: the bytes [base64.b64decode] gives for a
    text, or the value found when it is no text. *)
Inductive byte_array : Type :=
| Decoded (bytes : string)
| AsFound (value : pyval).

(** [outputs[0]['key']] and [outputs[0]['k']]. *)
Definition output_key : string := "RH_OUT:context_model_3dm".
Definition output_path : string := "{0;0;0}".

(** [len(v)]. *)
Definition len_of (v : pyval) : result Z :=
  match v with
  | PyList l => Ok (Z.of_nat (List.length l))
  | PyDict d => Ok (Z.of_nat (List.length d))
  | PyStr s => Ok (Z.of_nat (List.length (code_points s)))
  | _ => raise ETypeError ("object of type '" ++ type_name v ++ "' has no len()")
  end.

(** The two [if] tests of the loop body on the entry [d]. *)
Definition entry_matches (d : pyval) : result bool :=
  name <- getitem_str d "ParamName" ;;
  if eq_str name output_key then
    tree <- getitem_str d "InnerTree" ;;
    has <- in_str output_path tree ;;
    if has : bool then
      branch <- getitem_str tree output_path ;;
      n <- len_of branch ;;
      Ok (0 <? n)
    else Ok false
  else Ok false.

(** [d['InnerTree'][key][0]['data']]. *)
Definition entry_data (d : pyval) : result pyval :=
  tree <- getitem_str d "InnerTree" ;;
  branch <- getitem_str tree output_path ;;
  first <- getitem_0 branch ;;
  getitem_str first "data".

(** The loop with its [break]: the value of [result3dm] after it. *)
Fixpoint find_3dm (entries : list pyval) : result pyval :=
  match entries with
  | [] => Ok PyNone
  | d :: rest =>
      hit <- entry_matches d ;;
      if hit : bool then entry_data d else find_3dm rest
  end.

Section Parse.

(** [base64.b64decode] on a text. *)
Variable b64decode : string -> result string.

(** The body of the [try] block. *)
Definition parse_body (result : pyval) : Py.result byte_array :=
  values <- getitem_str result "values" ;;
  entries <- iterate values ;;
  result3dm <- find_3dm entries ;;
  if is_none result3dm
  then raise EValueError
         ("No parameter with name '" ++ output_key ++ "' found in response")
  else
    match result3dm with
    | PyStr s => bytes <- b64decode s ;; Ok (Decoded bytes)
    | value => Ok (AsFound value)
    end.

Definition parse_result (result : pyval) : Py.result byte_array :=
  match parse_body result with
  | Ok bytes => Ok bytes
  | Raise e =>
      raise EValueError ("Error parsing Rhino.Compute result: " ++ exn_msg e)
  end.

End Parse.

End context_gen_helpers.

(* ================================================================== *)
(** * helpers/rhino_helpers.py                                        *)
(* ================================================================== *)

Module rhino_helpers.

(** What [get_geometry_by_layer] reads of an object of the model:
    [obj.Attributes.LayerIndex], and [str(obj.Geometry.ObjectType)] when
    [obj.Geometry] is true. *)
Record model_object : Type := mkObject {
  LayerIndex : Z;
  Geometry : option string
}.

(** An entry [{"count": ..., "types": ...}]; the set of types is kept as a
    list without repetitions. *)
Record layer_stats : Type := mkStats {
  count : Z;
  types : list string
}.

(** The dictionary [layer_geometry], in insertion order. *)
Definition layer_table : Type := list (Z * layer_stats).

Fixpoint find_layer (i : Z) (d : layer_table) : option layer_stats :=
  match d with
  | [] => None
  | (j, g) :: rest => if i =? j then Some g else find_layer i rest
  end.

(** [d[i] = f(d[i])]. *)
Fixpoint update_layer (i : Z) (f : layer_stats -> layer_stats)
    (d : layer_table) : layer_table :=
  match d with
  | [] => []
  | (j, g) :: rest =>
      if i =? j then (j, f g) :: rest else (j, g) :: update_layer i f rest
  end.

(** [s.add(t)]. *)
Definition set_add (t : string) (s : list string) : list string :=
  if existsb (String.eqb t) s then s else (s ++ [t])%list.

(** The body of the loop over the objects. *)
Definition record_object (layer_geometry : layer_table) (obj : model_object)
  : layer_table :=
  let obj_layer_index := LayerIndex obj in
  let d1 :=
    match find_layer obj_layer_index layer_geometry with
    | Some _ => layer_geometry
    | None => (layer_geometry ++ [(obj_layer_index, mkStats 0 [])])%list
    end in
  let d2 :=
    update_layer obj_layer_index
      (fun g => mkStats (count g + 1) (types g)) d1 in
  match Geometry obj with
  | Some object_type =>
      update_layer obj_layer_index
        (fun g => mkStats (count g) (set_add object_type (types g))) d2
  | None => d2
  end.

(** The model is [None] when there is none; otherwise it is known by the
    list [model.Objects]. *)
Definition get_geometry_by_layer (model : option (list model_object))
  : layer_table :=
  match model with
  | None => []
  | Some objects => fold_left record_object objects []
  end.

Definition get_object_count (model : option (list model_object)) : Z :=
  match model with
  | None => 0
  | Some objects =>
      match objects with
      | [] => 0
      | _ => Z.of_nat (List.length objects)
      end
  end.

(** The names bound at the top level of [rhino_helpers.py]: its imports and
    its functions. *)
Definition module_names : list string :=
  ["os"; "rhino3dm"; "Dict"; "List"; "Tuple"; "Set"; "Any"; "Optional";
   "read_3dm_file"; "get_layers"; "get_geometry_by_layer";
   "get_object_count"; "format_layer_info"; "encode_geometry"].

(** The value of a global name: a name that is not bound raises
    [NameError]. *)
Definition global_name {A : Type} (name : string) (binding : A) : result A :=
  if existsb (String.eqb name) module_names then Ok binding
  else raise EException ("name '" ++ name ++ "' is not defined").

Section Encode.

(** [geometry.Encode()] and the function [json.dumps] of the [json]
    module. *)
Variable Encode : pyval -> result pyval.
Variable json_dumps : pyval -> result string.

Definition encode_geometry (geometry : pyval) : string :=
  if negb (truthy geometry) then EmptyString
  else
    try_except
      (dumps <- global_name "json" json_dumps ;;
       encoded <- Encode geometry ;;
       dumps encoded)
      (fun _ => EmptyString).

End Encode.

End rhino_helpers.

(* ================================================================== *)
(** * server.py                                                       *)
(* ================================================================== *)

Module server.

(** [str(v)], with [py_str] for the values whose text is not fixed here. *)
Definition to_str (py_str : pyval -> string) (v : pyval) : string :=
  match v with
  | PyStr s => s
  | PyInt z => str_of_Z z
  | PyBool b => if b then "True" else "False"
  | PyNone => "None"
  | _ => py_str v
  end.

Section GrasshopperTools.

Variable http_post : string -> pyval -> result compute_helpers.response.
(** [json.dumps(result, indent=2)] and [str]. *)
Variable json_dumps : pyval -> string.
Variable py_str : pyval -> string.
Variable json_loads : string -> result pyval.
Variable Decode : pyval -> result pyval.
(** [gh.EvaluateDefinition], and the [gh.DataTree] named [name] after
    [Append(path, items)]. *)
Variable gh_evaluate : string -> list pyval -> result pyval.
Variable data_tree : string -> list Z -> list pyval -> pyval.

Definition run_grasshopper_definition (definition_path : string)
    (parameters : list pyval) (compute_url : string) : string :=
  match compute_helpers.run_rhino_compute http_post definition_path
          parameters compute_url with
  | Ok result =>
      "Grasshopper definition executed successfully. Result: "
      ++ json_dumps result
  | Raise e => "Error: " ++ exn_msg e
  end.

(** [add_parameter] of [compute_rhino3dm_helpers.py]. *)
Definition add_parameter (input_name : string) (input_value : pyval) : pyval :=
  data_tree input_name [0] [input_value].

Definition run_simple_grasshopper_math (param_a param_b : Z) : string :=
  let attempt :=
    let a := add_parameter "a" (PyInt param_a) in
    let b := add_parameter "b" (PyInt param_b) in
    output <-
      gh_evaluate "c:/Users/jszychowska/Desktop/compute/add.gh" [a; b] ;;
    result <-
      compute_rhino3dm_helpers.decode_gh_output json_loads Decode output
        compute_rhino3dm_helpers.default_tree_path ;;
    first <- of_option (hd_error result) EIndexError "list index out of range" ;;
    Ok ("Grasshopper definition executed successfully. Result: "
        ++ to_str py_str first) in
  match attempt with
  | Ok text => text
  | Raise e => "Error: " ++ exn_msg e
  end.

End GrasshopperTools.

Section ContextGenerator.

Variable nominatim : location_helpers.world -> string -> result pyval.
Variable math_cos : float -> result float.
Variable float_repr : float -> string.
Variable http_post : string -> pyval -> result compute_helpers.response.
Variable py_str : pyval -> string.
Variable b64decode : string -> result string.
(** [os.path.expanduser("~")], [os.path.join], and the writing of a file
    opened with mode ["wb"]. *)
Variable home : string.
Variable path_join : string -> string -> string.
Variable write_binary :
  string -> context_gen_helpers.byte_array -> result unit.

Definition context_definition_path : string :=
  "c:/Users/jszychowska/Desktop/compute/Context_Generator_RH.gh".

Definition failure (text : string) : pyval :=
  PyDict [("success", PyBool false); ("error", PyStr text)].

(** The inner [try] block and its [except] clause. *)
Definition save_context (location : string) (result : pyval) : pyval :=
  let attempt :=
    byte_array <- context_gen_helpers.parse_result b64decode result ;;
    let downloads_path := path_join home "Downloads" in
    let file_path := path_join downloads_path "context_model.3dm" in
    _ <- write_binary file_path byte_array ;;
    Ok (PyDict [("success", PyBool true);
                ("download_path", PyStr downloads_path);
                ("location", PyStr location)]) in
  match attempt with
  | Ok answer => answer
  | Raise e => failure ("Error processing response data: " ++ exn_msg e)
  end.

(** The outer [try] block from the compute call on, for the text
    [overpass_url] that [location_to_coordinates] returned. *)
Definition generate_context (location compute_url overpass_url : string)
  : result pyval :=
  parameter <-
    compute_helpers.format_parameter py_str "osmURL" (PyStr overpass_url) ;;
  response <-
    compute_helpers.run_rhino_compute http_post context_definition_path
      [parameter] compute_url ;;
  has_values <- in_str "values" response ;;
  if has_values : bool then Ok (save_context location response)
  else Ok (failure "No values found in Rhino.Compute response").

Definition run_context_generator (location compute_url : string)
    (box_size_meters : float)
  : location_helpers.world -> pyval * location_helpers.world :=
  fun w =>
    let (overpass_url, w') :=
      location_helpers.location_to_coordinates nominatim math_cos float_repr
        location box_size_meters w in
    match generate_context location compute_url overpass_url with
    | Ok answer => (answer, w')
    | Raise e => (failure ("Error: " ++ exn_msg e), w')
    end.

Definition location_to_coordinates_tool (location : string)
    (box_size_meters : float)
  : location_helpers.world -> string * location_helpers.world :=
  location_helpers.location_to_coordinates nominatim math_cos float_repr
    location box_size_meters.

End ContextGenerator.

End server.


(* ================================================================== *)
(** * Vocabulary of the statements                                    *)
(* ================================================================== *)

(** The no-break space U+00A0. *)
Definition no_break_space : string := encode_cp 0xA0.

(** Text between a pair of double quotes. *)
Definition quoted (inner : string) : string :=
  String compute_rhino3dm_helpers.dquote
         (inner ++ String compute_rhino3dm_helpers.dquote EmptyString).

(** A response with one entry, whose branch at the default path holds one
    leaf with the data [data]. *)
Definition single_leaf_response (data : pyval) : pyval :=
  PyDict
    [("values",
      PyList
        [PyDict
           [("ParamName", PyStr "RH_OUT:result");
            ("InnerTree",
             PyDict [(compute_rhino3dm_helpers.default_tree_path,
                      PyList [PyDict [("type", PyStr "System.String");
                                      ("data", data)]])])]])].

(** The entry the specification's wording selects: the first one whose
    branch map contains the path. *)
Definition first_entry_with_path (entries : list pyval) (tree_path : string)
  : option pyval :=
  find (fun entry =>
          match getitem_str entry "InnerTree" with
          | Ok tree =>
              match in_str tree_path tree with
              | Ok true => true
              | _ => false
              end
          | Raise _ => false
          end) entries.

(** The claim as it is worded: every failure status with a well-formed
    payload is accepted. *)
Definition accepts_any_failure_status : Prop :=
  forall (r : compute_helpers.response) (j : pyval),
    compute_helpers.status_code r <> 200 ->
    compute_helpers.json r = Ok j ->
    in_str "values" j = Ok true ->
    compute_helpers.process_response r = Ok j.

(** Whether [parse_direct_coordinates] answers that the text is a pair of
    coordinates. *)
Definition is_coordinates (location : string) : bool :=
  fst (fst (location_helpers.parse_direct_coordinates location)).

(** The query the specification words: the text with " and " and " & "
    exchanged and nothing else changed. *)
Definition toggled_as_worded (location : string) : string :=
  if contains " and " location then replace " and " " & " location
  else if contains " & " location then replace " & " " and " location
  else location.

(** The C library's cosine at the two arguments used below, with the values
    [math.cos] returns for them ([math.cos(math.radians(60))] is
    [0.5000000000000001]); the table has no other entry. *)
Definition libm_cos (x : float) : result float :=
  if PrimFloat.eqb x 0 then Ok 1%float
  else if PrimFloat.eqb x 0x1.0c152382d7365p+0
  then Ok 0x1.0000000000001p-1%float
  else raise EException "no entry for this argument".

(** Stand-ins for the external services, used in the examples: a JSON
    reader that knows integer literals and takes any text starting with a
    brace for an encoded object, a geometry decoder that accepts objects
    only, a [repr] that prints the floats that are integers, and a geocoder
    that knows two places. *)
Definition sample_json_loads (s : string) : result pyval :=
  match int_of_str s with
  | Some n => Ok (PyInt n)
  | None =>
      if startswith_char "{" s then Ok (PyDict [("archive3dm", PyInt 70)])
      else raise EValueError "Expecting value"
  end.

Definition sample_Decode (v : pyval) : result pyval :=
  match v with
  | PyDict _ => Ok (PyObj "LineCurve" "archive3dm 70")
  | _ => raise ETypeError "Decode(): incompatible function arguments"
  end.

Definition sample_repr (f : float) : string :=
  match int_of_float f with
  | Ok n => if float_eq_Z f n then str_of_Z n ++ ".0" else "?"
  | Raise _ => "nan"
  end.

Definition sample_nominatim (w : location_helpers.world) (q : string)
  : result pyval :=
  if String.eqb q "Null Island"
  then Ok (PyList [PyDict [("lat", PyStr "0"); ("lon", PyStr "0");
                           ("class", PyStr "place"); ("type", PyStr "islet");
                           ("display_name", PyStr "Null Island")]])
  else if String.eqb q "Broken"
  then Ok (PyList [PyDict [("lat", PyStr "abc"); ("lon", PyStr "0")]])
  else if String.eqb q "Far away"
  then raise ETimeout "Read timed out."
  else Ok (PyList []).

(** Stand-ins for the rhino3dm library: a model is the list of the
    additions made to it, an object of the class [Point] is a point and any
    other object is a curve and a surface at once, and the add-operations for
    curves and for points raise and leave the model as it was. *)
Definition sample_isinstance (obj : pyval) (k : compute_rhino3dm_helpers.kind)
  : bool :=
  match obj with
  | PyObj cls _ =>
      match k with
      | compute_rhino3dm_helpers.Point => String.eqb cls "Point"
      | compute_rhino3dm_helpers.Curve | compute_rhino3dm_helpers.Surface =>
          negb (String.eqb cls "Point")
      | _ => false
      end
  | _ => false
  end.

Definition sample_add (k : compute_rhino3dm_helpers.kind) (obj : pyval)
    (model : list (compute_rhino3dm_helpers.kind * pyval))
  : result unit * list (compute_rhino3dm_helpers.kind * pyval) :=
  match k with
  | compute_rhino3dm_helpers.Curve | compute_rhino3dm_helpers.Point =>
      (raise EException "the object could not be added", model)
  | _ => (Ok tt, (model ++ [(k, obj)])%list)
  end.

(** The leaf [format_parameter] puts under the path [{0}]. *)
Definition parameter_leaf (p : pyval) : result pyval :=
  tree <- getitem_str p "InnerTree" ;;
  branch <- getitem_str tree "{0}" ;;
  getitem_0 branch.

(** A text made of [n] slashes. *)
Fixpoint slashes (n : nat) : string :=
  match n with
  | O => EmptyString
  | S k => String "/" (slashes k)
  end.

(** A geocoding candidate as [select_best_geocoding_result] expects it: an
    object whose "type", when it has one, is a text. *)
Definition candidate (item : pyval) : bool :=
  match item with
  | PyDict d =>
      match lookup "type" d with
      | Some (PyStr _) | None => true
      | Some _ => false
      end
  | _ => false
  end.

(** A candidate whose type mentions a highway or whose class is
    "highway". *)
Definition is_highway (item : pyval) : bool :=
  match item with
  | PyDict d =>
      (match lookup "type" d with
       | Some (PyStr t) => contains "highway" (lower t)
       | _ => false
       end
       || match lookup "class" d with
          | Some c => eq_str c "highway"
          | None => false
          end)%bool
  | _ => false
  end.

(** The computation raises no [IndexError]. *)
Definition no_index_error {A : Type} (m : result A) : Prop :=
  forall e, m = Raise e -> exn_cls e <> EIndexError.

(** The number of objects on the layer [i]. *)
Fixpoint count_on_layer (i : Z) (objects : list rhino_helpers.model_object)
  : Z :=
  match objects with
  | [] => 0
  | obj :: rest =>
      (if i =? rhino_helpers.LayerIndex obj then 1 else 0)
      + count_on_layer i rest
  end.

(** [sum(geom["count"] for geom in geometry_info.values())]. *)
Fixpoint total_count (table : rhino_helpers.layer_table) : Z :=
  match table with
  | [] => 0
  | (_, g) :: rest => rhino_helpers.count g + total_count rest
  end.

(** The object [obj] lies on the layer [i] and has a geometry of the type
    [t]. *)
Definition has_type_on_layer (i : Z) (t : string)
    (obj : rhino_helpers.model_object) : Prop :=
  rhino_helpers.LayerIndex obj = i /\ rhino_helpers.Geometry obj = Some t.

(** What the table says about the layer [i] agrees with the objects. *)
Definition layer_agrees (objects : list rhino_helpers.model_object)
    (table : rhino_helpers.layer_table) (i : Z) : Prop :=
  match rhino_helpers.find_layer i table with
  | None => count_on_layer i objects = 0
  | Some g =>
      rhino_helpers.count g = count_on_layer i objects
      /\ 0 < rhino_helpers.count g
      /\ forall t, In t (rhino_helpers.types g)
                   <-> exists obj, In obj objects /\ has_type_on_layer i t obj
  end.

(** The first [n] bytes of [s] are continuation bytes. *)
Fixpoint conts (n : nat) (s : string) : Prop :=
  match n with
  | O => True
  | S k =>
      match s with
      | String c r => is_cont c = true /\ conts k r
      | EmptyString => False
      end
  end.

(** An ASCII character that lower-casing leaves as it is. *)
Definition plain_char (c : ascii) : Prop :=
  (byte c <? 128) = true /\ lower_full (byte c) = [byte c].

Fixpoint plain (k : string) : Prop :=
  match k with
  | EmptyString => True
  | String c r => plain_char c /\ plain r
  end.

(** The bytes of a text. *)
Fixpoint bytes (s : string) : list Z :=
  match s with
  | EmptyString => []
  | String c r => byte c :: bytes r
  end.

(** The class of an exception of the dynamic look-ups. *)
Definition lookup_error (c : exn_class) : Prop :=
  c = EKeyError \/ c = EIndexError \/ c = ETypeError.

(* ================================================================== *)
(** * Properties                                                      *)
(* ================================================================== *)

(** ** The builtins on examples *)

Example lower_ex : lower "5th Ave AND 23rd St" = "5th ave and 23rd st".
Proof. vm_compute. reflexivity. Qed.

(** Letters of other scripts, the capital I with a dot, which becomes two
    code points, and the capital sigma, which is the final sigma at the end
    of a word only. *)
Example lower_unicode_ex :
  lower "École St and Ölweg" = "école st and ölweg"
  /\ lower "ЛЕНИНА И МИРА" = "ленина и мира"
  /\ lower "İstanbul" = "i̇stanbul"
  /\ lower "ΟΔΟΣ ΣΟΦΙΑΣ" = "οδος σοφιας".
Proof. repeat split; vm_compute; reflexivity. Qed.

Example code_points_ex :
  code_points "aé€" = [0x61; 0xE9; 0x20AC]
  /\ encode [0x61; 0xE9; 0x20AC; 0x1F600] = "aé€😀"
  /\ chars "é€" = [PyStr "é"; PyStr "€"].
Proof. repeat split; vm_compute; reflexivity. Qed.

Example repr_str_ex :
  repr_str "{0;0}" = "'{0;0}'"
  /\ repr_str "it's" = String "034" ("it's" ++ String "034" EmptyString)
  /\ repr_str (String "010" "é" ++ no_break_space) = "'\né\xa0'".
Proof. repeat split; vm_compute; reflexivity. Qed.

Example replace_ex :
  replace " and " " & " "a and and b and c" = "a & and b & c".
Proof. reflexivity. Qed.

Example split_ex : split "," "40.7128, -74.0060" = ["40.7128"; " -74.0060"].
Proof. reflexivity. Qed.

(** [strip] takes off the white space of Unicode: the no-break space and
    the separator U+001F among it. *)
Example strip_ex :
  strip "  x y  " = "x y"
  /\ strip (no_break_space ++ "1" ++ no_break_space) = "1"
  /\ strip (String "031" "10") = "10".
Proof. repeat split; vm_compute; reflexivity. Qed.

(** [int] reads the digits of every script and strips the white space of
    Unicode except the separators U+001C to U+001F. *)
Example int_of_str_ex :
  int_of_str " -1_0 " = Some (-10) /\ int_of_str "1e5" = None
  /\ int_of_str "" = None /\ int_of_str "1__0" = None
  /\ int_of_str ("12" ++ no_break_space) = Some 12
  /\ int_of_str "١٢٣" = Some 123
  /\ int_of_str (String "031" "10") = None.
Proof. repeat split; vm_compute; reflexivity. Qed.

Example float_of_str_ex :
  float_of_str "40.7128" = Some 40.7128%float
  /\ float_of_str " -74.0060" = Some (-74.0060)%float
  /\ float_of_str "0.1" = Some 0.1%float
  /\ float_of_str "1e-320" = Some 1e-320%float
  /\ float_of_str "1.7976931348623159e308" = Some infinity
  /\ float_of_str "9007199254740993" = Some 9007199254740992%float
  /\ float_of_str "-0" = Some (-0)%float
  /\ float_of_str "." = None
  /\ float_of_str "1.5.2" = None
  /\ float_of_str "Infinity" = Some infinity
  /\ float_of_str ("1" ++ no_break_space) = Some 1%float
  /\ float_of_str "١٢٣.٥" = Some 123.5%float
  /\ float_of_str (String "029" "1.5") = None.
Proof. repeat split; vm_compute; reflexivity. Qed.

Example int_of_float_ex :
  int_of_float 5.5%float = Ok 5 /\ int_of_float (-5.5)%float = Ok (-5)
  /\ float_eq_Z 5%float 5 = true /\ float_eq_Z 5.5%float 5 = false.
Proof. repeat split; vm_compute; reflexivity. Qed.

(** ** The parameter encoder *)

Section FormatProperties.

Import compute_helpers.

Variable py_str : pyval -> string.

(** The precedence of [format_parameter] on every value whose conversion
    does not raise: text, then booleans, then integers, then floats by
    their truncation, then the textual form of anything else. *)
Lemma infer_type_precedence (value : pyval) :
  match value with
  | PyStr _ => infer_type py_str value = Ok ("System.String", value)
  | PyBool _ => infer_type py_str value = Ok ("System.Boolean", value)
  | PyInt _ => infer_type py_str value = Ok ("System.Int32", value)
  | PyFloat f =>
      forall n, int_of_float f = Ok n ->
        infer_type py_str value =
          if float_eq_Z f n then Ok ("System.Int32", PyInt n)
          else Ok ("System.Double", value)
  | _ => infer_type py_str value = Ok ("System.String", PyStr (py_str value))
  end.
Proof.
  destruct value; try reflexivity.
  intros n Hn. unfold infer_type. simpl. rewrite Hn. reflexivity.
Qed.

(** A boolean is never sent as an integer although it is an [int]. *)
Lemma infer_type_bool (b : bool) :
  isinstance_int (PyBool b) = true
  /\ infer_type py_str (PyBool b) = Ok ("System.Boolean", PyBool b).
Proof. split; reflexivity. Qed.

Example format_parameter_five :
  format_parameter py_str "n" (PyFloat 5%float) =
    Ok (PyDict [("ParamName", PyStr "n");
                ("InnerTree",
                 PyDict [("{0}", PyList [PyDict [("type", PyStr "System.Int32");
                                                 ("data", PyInt 5)]])])]).
Proof. reflexivity. Qed.

Example format_parameter_five_and_a_half :
  infer_type py_str (PyFloat 5.5%float) = Ok ("System.Double", PyFloat 5.5%float).
Proof. reflexivity. Qed.

(** A float is sent as an integer exactly when it is finite and has no
    fractional part. *)
Lemma infer_type_float (f : float) :
  match Prim2SF f with
  | S754_infinity _ | S754_nan =>
      exists e, infer_type py_str (PyFloat f) = Raise e
  | _ =>
      exists n, int_of_float f = Ok n
        /\ infer_type py_str (PyFloat f) =
             if float_eq_Z f n then Ok ("System.Int32", PyInt n)
             else Ok ("System.Double", PyFloat f)
  end.
Proof.
  unfold infer_type, int_of_float. simpl.
  destruct (Prim2SF f); simpl; eauto.
Qed.

(** C3 (failing input).  [format_parameter] evaluated at the float
    infinity: the test [value == int(value)] raises [OverflowError] in
    [int(value)], so no type is inferred and nothing is encoded, where the
    rule for a real number that is not integral asks for type "real". *)
Theorem format_parameter_infinity (param_name : string) :
  format_parameter py_str param_name (PyFloat infinity) =
    raise EOverflowError "cannot convert float infinity to integer".
Proof. reflexivity. Qed.

Example format_parameter_nan (param_name : string) :
  format_parameter py_str param_name (PyFloat nan) =
    raise EValueError "cannot convert float NaN to integer".
Proof. reflexivity. Qed.

End FormatProperties.

(** ** The compute caller *)

Section ComputeProperties.

Import compute_helpers.

Lemma process_response_ok (r : response) (j : pyval) :
  status_code r = 500 ->
  json r = Ok j ->
  in_str "values" j = Ok true ->
  process_response r = Ok j.
Proof.
  intros Hs Hj Hin. unfold process_response, read_response.
  rewrite Hj. simpl. rewrite Hs. simpl. rewrite Hin. reflexivity.
Qed.

Lemma process_response_200 (r : response) (j : pyval) :
  status_code r = 200 ->
  json r = Ok j ->
  process_response r = Ok j.
Proof.
  intros Hs Hj. unfold process_response, read_response.
  rewrite Hj. simpl. rewrite Hs. reflexivity.
Qed.

Lemma process_response_error (r : response) :
  status_code r <> 200 ->
  ~ (status_code r = 500
     /\ exists j, json r = Ok j /\ in_str "values" j = Ok true) ->
  exists msg, process_response r = raise EValueError msg.
Proof.
  intros H200 Hno. unfold process_response, read_response.
  destruct (json r) as [j | e] eqn:Hj; simpl; [ | eauto ].
  assert (Hne : (status_code r =? 200) = false) by (apply Z.eqb_neq; exact H200).
  destruct (status_code r =? 500) eqn:H500.
  - apply Z.eqb_eq in H500.
    destruct (in_str "values" j) as [[ | ] | e] eqn:Hin; simpl.
    + exfalso. apply Hno. split; [ exact H500 | exists j; split; [reflexivity | exact Hin] ].
    + rewrite Hne. simpl. eauto.
    + eauto.
  - simpl. rewrite Hne. simpl. eauto.
Qed.

(** C8 (counterexample).  A response with status 503 whose body is the
    JSON object [{"values": []}] is a failure status carrying a well-formed
    payload, and the caller raises instead of returning the payload. *)
Lemma run_rhino_compute_rejects_503 :
  let payload := PyDict [("values", PyList [])] in
  let r := mkResponse 503 (Ok payload) "busy" in
  status_code r <> 200
  /\ in_str "values" payload = Ok true
  /\ process_response r =
       raise EValueError
         "Failed to process response: Rhino.Compute returned status 503: busy"
  /\ ~ accepts_any_failure_status.
Proof.
  repeat split; try reflexivity; try discriminate.
  intro H.
  specialize (H (mkResponse 503 (Ok (PyDict [("values", PyList [])])) "busy")
                (PyDict [("values", PyList [])])).
  simpl in H. discriminate H; try reflexivity. discriminate.
Qed.

Variable http_post : string -> pyval -> result response.

(** C8 (amended).  When the compute server answers with status 500 and a
    body that parses as JSON and contains "values", [run_rhino_compute]
    returns the parsed body; when it answers with any other status than
    200 (or with status 500 and no such body), [run_rhino_compute] raises
    a [ValueError]; with status 200 it returns the parsed body. *)
Theorem run_rhino_compute_status
    (definition_path : string) (parameters : list pyval)
    (compute_url : string) :
  let url := rstrip_char "/" compute_url ++ "/grasshopper" in
  let payload := PyDict [("algo", PyNone);
                         ("pointer", PyStr definition_path);
                         ("values", PyList parameters)] in
  let answer := run_rhino_compute http_post definition_path parameters compute_url in
  forall r : response,
    http_post url payload = Ok r ->
    (forall j, status_code r = 500 -> json r = Ok j ->
               in_str "values" j = Ok true -> answer = Ok j)
    /\ (status_code r <> 200 ->
        ~ (status_code r = 500
           /\ exists j, json r = Ok j /\ in_str "values" j = Ok true) ->
        exists msg, answer = raise EValueError msg)
    /\ (forall j, status_code r = 200 -> json r = Ok j -> answer = Ok j).
Proof.
  intros url payload answer r Hpost.
  assert (Ha : answer = process_response r).
  { unfold answer, run_rhino_compute. fold url. fold payload.
    rewrite Hpost. reflexivity. }
  rewrite Ha. repeat split.
  - intros j Hs Hj Hin. exact (process_response_ok r j Hs Hj Hin).
  - intros H200 Hno. exact (process_response_error r H200 Hno).
  - intros j Hs Hj. exact (process_response_200 r j Hs Hj).
Qed.

End ComputeProperties.

Lemma run_rhino_compute_status_witness :
  let payload := PyDict [("values", PyList [])] in
  let post := fun (_ : string) (_ : pyval) =>
                Ok (compute_helpers.mkResponse 500 (Ok payload) "") in
  compute_helpers.run_rhino_compute post "twisty.gh" [] "http://localhost:6001/"
  = Ok payload.
Proof.
  intros payload post.
  destruct (run_rhino_compute_status post "twisty.gh" [] "http://localhost:6001/"
              (compute_helpers.mkResponse 500 (Ok payload) "") eq_refl)
    as [H500 _].
  apply H500; reflexivity.
Defined.

(** ** The response decoder *)

Lemma endswith_char_app (c : ascii) (s : string) :
  endswith_char c (s ++ String c EmptyString) = true.
Proof.
  induction s as [ | a s IH]; simpl.
  - apply Ascii.eqb_refl.
  - destruct s; simpl in *; exact IH.
Qed.

Lemma drop_last_app (c : ascii) (s : string) :
  drop_last (s ++ String c EmptyString) = s.
Proof.
  induction s as [ | a s IH]; simpl.
  - reflexivity.
  - destruct s; simpl in *; [ reflexivity | rewrite IH; reflexivity ].
Qed.

Lemma getitem_str_found (d : list (string * pyval)) (k : string) (v : pyval) :
  lookup k d = Some v -> getitem_str (PyDict d) k = Ok v.
Proof. intros H. unfold getitem_str. rewrite H. reflexivity. Qed.

Lemma getitem_str_missing (d : list (string * pyval)) (k : string) :
  lookup k d = None ->
  getitem_str (PyDict d) k = raise EKeyError (repr_str k).
Proof. intros H. unfold getitem_str. rewrite H. reflexivity. Qed.

Section DecodeProperties.

Import compute_rhino3dm_helpers.

Variable json_loads : string -> result pyval.
Variable Decode : pyval -> result pyval.

Abbreviation decode_item := (decode_item json_loads Decode).
Abbreviation try_geometry := (try_geometry json_loads Decode).
Abbreviation decode_items := (decode_items json_loads Decode).
Abbreviation decode_gh_output := (decode_gh_output json_loads Decode).

(** One layer of quotes is taken off, whatever is inside. *)
Lemma unquote_quoted (inner : string) :
  unquote (PyStr (quoted inner)) = PyStr inner.
Proof.
  unfold unquote, quoted. simpl startswith_char.
  change (String dquote (inner ++ String dquote EmptyString))
    with (String dquote inner ++ String dquote EmptyString).
  rewrite endswith_char_app. simpl andb. cbv iota.
  unfold slice_1_m1. simpl. rewrite drop_last_app. reflexivity.
Qed.

(** Text that does not both start and end with a quote is left alone. *)
Lemma unquote_plain (s : string) :
  (startswith_char dquote s && endswith_char dquote s)%bool = false ->
  unquote (PyStr s) = PyStr s.
Proof. intros H. unfold unquote. rewrite H. reflexivity. Qed.

(** The geometry step yields an object exactly when the text parses as
    JSON and the decoder returns something other than [None]. *)
Lemma try_geometry_spec (t : string) (obj : pyval) :
  try_geometry (PyStr t) = Some obj <->
  exists j, json_loads t = Ok j /\ Decode j = Ok obj /\ is_none obj = false.
Proof.
  unfold compute_rhino3dm_helpers.try_geometry, loads. simpl. split.
  - destruct (json_loads t) as [j | e]; simpl; [ | discriminate ].
    destruct (Decode j) as [o | e] eqn:HD; [ | discriminate ].
    destruct (is_none o) eqn:Hn; [ discriminate | ].
    intros H. injection H as <-. exists j. auto.
  - intros [j [Hj [HD Hn]]]. rewrite Hj. simpl. rewrite HD, Hn. reflexivity.
Qed.

(** The number step on text. *)
Lemma try_number_text (t : string) :
  try_number (PyStr t) =
    if contains "." t
    then option_map PyFloat (float_of_str t)
    else option_map PyInt (int_of_str t).
Proof.
  unfold try_number. simpl.
  destruct (contains "." t); simpl.
  - destruct (float_of_str t); reflexivity.
  - destruct (int_of_str t); reflexivity.
Qed.

(** The fallback chain on a text leaf whose quotes are off. *)
Lemma decode_item_text (s : string) :
  decode_item (PyStr s) =
    let t := match unquote (PyStr s) with PyStr t => t | _ => s end in
    match try_geometry (PyStr t) with
    | Some obj => obj
    | None =>
        if contains "." t
        then match float_of_str t with
             | Some f => PyFloat f
             | None => PyStr t
             end
        else match int_of_str t with
             | Some n => PyInt n
             | None => PyStr t
             end
    end.
Proof.
  unfold compute_rhino3dm_helpers.decode_item.
  assert (Hu : exists t, unquote (PyStr s) = PyStr t).
  { unfold unquote. destruct (_ && _)%bool; eauto. }
  destruct Hu as [t Ht]. rewrite Ht. cbv zeta.
  destruct (try_geometry (PyStr t)); [ reflexivity | ].
  rewrite try_number_text.
  destruct (contains "." t).
  - destruct (float_of_str t); reflexivity.
  - destruct (int_of_str t); reflexivity.
Qed.

(** Data that is no text stays as it is: [json.loads], the test for a
    point and the conversions raise, and the errors are passed over. *)
Lemma decode_item_not_text (data : pyval) :
  isinstance_str data = false -> decode_item data = data.
Proof.
  intros H.
  unfold compute_rhino3dm_helpers.decode_item,
    compute_rhino3dm_helpers.try_geometry, try_number.
  destruct data; try discriminate H; cbn; try reflexivity.
  - destruct (existsb _ l); reflexivity.
  - destruct (lookup "." d); reflexivity.
Qed.

(** The loop decodes every leaf that has a ['data'] entry, in order, and
    raises nothing. *)
Lemma decode_items_ok (items datas : list pyval) :
  Forall2 (fun item d => getitem_str item "data" = Ok d) items datas ->
  decode_items items = Ok (map decode_item datas).
Proof.
  induction 1 as [ | item d items datas Hd _ IH]; simpl.
  - reflexivity.
  - rewrite Hd. simpl. rewrite IH. reflexivity.
Qed.

(** C4.  [decode_gh_output] applies one and the same chain to every leaf of
    the branch it selects, and returns the results in the order of the
    leaves.  The chain: a text leaf loses one layer of quotes when it starts
    and ends with a double quote; the geometry decoder is tried on the result
    and its object is taken only when the JSON parses and the object is not
    [None]; otherwise the text is read as a float when it contains a point
    and as an integer when it does not; otherwise the text itself is the
    value; data that is no text is the value as it is.  No step raises.  A
    branch whose one leaf is ["10"] in quotes decodes to the integer 10 as
    soon as the geometry decoder does not take the text 10. *)
Theorem decode_leaf_chain :
  (forall d first rest tree tree_path items datas,
     lookup "values" d = Some (PyList (first :: rest)) ->
     getitem_str first "InnerTree" = Ok (PyDict tree) ->
     lookup tree_path tree = Some (PyList items) ->
     Forall2 (fun item x => getitem_str item "data" = Ok x) items datas ->
     decode_gh_output (PyDict d) tree_path = Ok (map decode_item datas))
  /\ (forall inner, unquote (PyStr (quoted inner)) = PyStr inner)
  /\ (forall s,
        (startswith_char dquote s && endswith_char dquote s)%bool = false ->
        unquote (PyStr s) = PyStr s)
  /\ (forall s t, unquote (PyStr s) = PyStr t ->
        (forall obj, try_geometry (PyStr t) = Some obj ->
           decode_item (PyStr s) = obj)
        /\ (try_geometry (PyStr t) = None ->
            contains "." t = true ->
            forall f, float_of_str t = Some f ->
              decode_item (PyStr s) = PyFloat f)
        /\ (try_geometry (PyStr t) = None ->
            contains "." t = false ->
            forall n, int_of_str t = Some n ->
              decode_item (PyStr s) = PyInt n)
        /\ (try_geometry (PyStr t) = None ->
            (if contains "." t then float_of_str t = None
             else int_of_str t = None) ->
            decode_item (PyStr s) = PyStr t))
  /\ (forall t obj,
        try_geometry (PyStr t) = Some obj <->
        exists j, json_loads t = Ok j /\ Decode j = Ok obj
                  /\ is_none obj = false)
  /\ (forall data, isinstance_str data = false -> decode_item data = data)
  /\ (try_geometry (PyStr "10") = None ->
      decode_gh_output (single_leaf_response (PyStr (quoted "10")))
        default_tree_path
      = Ok [PyInt 10]
      /\ PyInt 10 <> PyStr "10").
Proof.
  split.
  { intros d first rest tree tree_path items datas Hv Hf Hb Hd.
    unfold compute_rhino3dm_helpers.decode_gh_output.
    rewrite (getitem_str_found _ _ _ Hv).
    cbn [bind getitem_0 hd_error of_option]. rewrite Hf. cbn [bind].
    rewrite (getitem_str_found _ _ _ Hb). cbn [bind iterate].
    apply decode_items_ok. exact Hd. }
  split; [ exact unquote_quoted | ].
  split; [ exact unquote_plain | ].
  split.
  { intros s t Ht. pose proof (decode_item_text s) as Hc.
    rewrite Ht in Hc. cbv zeta in Hc.
    repeat split.
    - intros obj Hg. rewrite Hc, Hg. reflexivity.
    - intros Hg Hdot f Hf. rewrite Hc, Hg, Hdot, Hf. reflexivity.
    - intros Hg Hdot n Hn. rewrite Hc, Hg, Hdot, Hn. reflexivity.
    - intros Hg Hnone. rewrite Hc, Hg.
      destruct (contains "." t); rewrite Hnone; reflexivity. }
  split; [ exact try_geometry_spec | ].
  split; [ exact decode_item_not_text | ].
  intros Hg. split; [ | discriminate ].
  assert (H10 : decode_item (PyStr (quoted "10")) = PyInt 10).
  { rewrite decode_item_text, unquote_quoted. cbv zeta. rewrite Hg.
    reflexivity. }
  unfold compute_rhino3dm_helpers.decode_gh_output, single_leaf_response,
    default_tree_path.
  cbn [getitem_str lookup find fst snd String.eqb Ascii.eqb Bool.eqb of_option
       bind getitem_0 hd_error iterate compute_rhino3dm_helpers.decode_items].
  rewrite H10. reflexivity.
Qed.

(** C1 (amended).  [decode_gh_output] reads the branch map of the first
    entry of ['values'] and of no other: when that map has the requested
    path, the leaves of the branch are decoded in order (an empty branch
    gives the empty list); when it has not, a [KeyError] is raised whatever
    the later entries hold; with no entry at all an [IndexError] is
    raised. *)
Theorem decode_gh_output_first_entry
    (d : list (string * pyval)) (first : pyval) (rest : list pyval)
    (tree : list (string * pyval)) (tree_path : string) :
  (lookup "values" d = Some (PyList (first :: rest)) ->
   getitem_str first "InnerTree" = Ok (PyDict tree) ->
   (forall items datas,
      lookup tree_path tree = Some (PyList items) ->
      Forall2 (fun item x => getitem_str item "data" = Ok x) items datas ->
      decode_gh_output (PyDict d) tree_path = Ok (map decode_item datas))
   /\ (lookup tree_path tree = Some (PyList []) ->
       decode_gh_output (PyDict d) tree_path = Ok [])
   /\ (lookup tree_path tree = None ->
       decode_gh_output (PyDict d) tree_path =
         raise EKeyError (repr_str tree_path)))
  /\ (lookup "values" d = Some (PyList []) ->
      decode_gh_output (PyDict d) tree_path =
        raise EIndexError "list index out of range").
Proof.
  unfold compute_rhino3dm_helpers.decode_gh_output. split.
  - intros Hv Hf. rewrite (getitem_str_found _ _ _ Hv).
    cbn [bind getitem_0 hd_error of_option]. rewrite Hf. cbn [bind].
    repeat split.
    + intros items datas Hb Hd. rewrite (getitem_str_found _ _ _ Hb).
      cbn [bind iterate]. apply decode_items_ok. exact Hd.
    + intros Hb. rewrite (getitem_str_found _ _ _ Hb). reflexivity.
    + intros Hb. rewrite (getitem_str_missing _ _ Hb). reflexivity.
  - intros Hv. rewrite (getitem_str_found _ _ _ Hv). reflexivity.
Qed.

End DecodeProperties.

(** C1 (counterexample).  In a response whose second entry holds the branch
    [{0;0}] and whose first entry does not, the wording selects the second
    entry while [decode_gh_output] raises a [KeyError]; and a response whose
    first entry has an empty branch [{0;0}] is decoded to the empty list, with
    no error. *)
Lemma decode_gh_output_not_first_match :
  let leaf := PyDict [("type", PyStr "System.Int32"); ("data", PyStr "5")] in
  let entry1 := PyDict [("ParamName", PyStr "RH_OUT:a"); ("InnerTree", PyDict [])] in
  let entry2 := PyDict [("ParamName", PyStr "RH_OUT:b");
                        ("InnerTree", PyDict [("{0;0}", PyList [leaf])])] in
  let entry3 := PyDict [("ParamName", PyStr "RH_OUT:c");
                        ("InnerTree", PyDict [("{0;0}", PyList [])])] in
  first_entry_with_path [entry1; entry2] "{0;0}" = Some entry2
  /\ (forall json_loads Decode,
        compute_rhino3dm_helpers.decode_gh_output json_loads Decode
          (PyDict [("values", PyList [entry1; entry2])])
          compute_rhino3dm_helpers.default_tree_path
        = raise EKeyError "'{0;0}'")
  /\ (forall json_loads Decode,
        compute_rhino3dm_helpers.decode_gh_output json_loads Decode
          (PyDict [("values", PyList [entry3])])
          compute_rhino3dm_helpers.default_tree_path
        = Ok []).
Proof. repeat split. Qed.

(** ** The multi-geometry file writer *)

Section SaveProperties.

Import compute_rhino3dm_helpers.

Variable File3dm : Type.
Variable new_model : File3dm.
Variable isinstance : pyval -> kind -> bool.
Variable add_to_model : kind -> pyval -> File3dm -> result unit * File3dm.
Variable write_model : File3dm -> string -> result unit.

Abbreviation add_first := (add_first File3dm isinstance add_to_model).
Abbreviation add_object := (add_object File3dm isinstance add_to_model).
Abbreviation save_3dm_file :=
  (save_3dm_file File3dm new_model isinstance add_to_model write_model).

(** Kinds the object is no instance of are passed over. *)
Lemma add_first_skip (before rest : list kind) (obj : pyval) (model : File3dm) :
  (forall k, In k before -> isinstance obj k = false) ->
  add_first (before ++ rest)%list obj model = add_first rest obj model.
Proof.
  induction before as [ | k before IH]; intros Hno; simpl.
  - reflexivity.
  - unfold try_add. rewrite (Hno k (or_introl eq_refl)).
    apply IH. intros k' Hin. apply Hno. right. exact Hin.
Qed.

(** A successful add ends the work on the object. *)
Lemma add_first_hit (k : kind) (rest : list kind) (obj : pyval)
    (model model' : File3dm) (u : unit) :
  isinstance obj k = true ->
  add_to_model k obj model = (Ok u, model') ->
  add_first (k :: rest) obj model = model'.
Proof.
  intros Hk Hadd. simpl. unfold try_add. rewrite Hk, Hadd. reflexivity.
Qed.

(** An add that raises leaves the object to the kinds that follow. *)
Lemma add_first_raise (k : kind) (rest : list kind) (obj : pyval)
    (model model' : File3dm) (e : exn) :
  isinstance obj k = true ->
  add_to_model k obj model = (Raise e, model') ->
  add_first (k :: rest) obj model = add_first rest obj model'.
Proof.
  intros Hk Hadd. simpl. unfold try_add. rewrite Hk, Hadd. reflexivity.
Qed.

(** The object goes to the add-operation of the first kind it is an
    instance of. *)
Lemma add_first_routes (before after : list kind) (k : kind) (obj : pyval)
    (model : File3dm) :
  (forall k', In k' before -> isinstance obj k' = false) ->
  isinstance obj k = true ->
  add_first (before ++ k :: after)%list obj model
  = match add_to_model k obj model with
    | (Ok _, model') => model'
    | (Raise _, model') => add_first after obj model'
    end.
Proof.
  intros Hno Hk. rewrite add_first_skip by exact Hno.
  destruct (add_to_model k obj model) as [[u | e] model'] eqn:Hadd.
  - exact (add_first_hit k after obj model model' u Hk Hadd).
  - exact (add_first_raise k after obj model model' e Hk Hadd).
Qed.

(** The object is filed by the first kind whose add-operation returns, when
    the kinds before it either do not match or fail without touching the
    model. *)
Lemma add_first_earliest_success (before after : list kind) (k : kind)
    (obj : pyval) (model model' : File3dm) (u : unit) :
  (forall k', In k' before ->
     isinstance obj k' = false
     \/ exists e, add_to_model k' obj model = (Raise e, model)) ->
  isinstance obj k = true ->
  add_to_model k obj model = (Ok u, model') ->
  add_first (before ++ k :: after)%list obj model = model'.
Proof.
  intros Hbefore Hk Hadd. induction before as [ | k0 before IH].
  - exact (add_first_hit k after obj model model' u Hk Hadd).
  - cbn [app compute_rhino3dm_helpers.add_first]. unfold try_add.
    assert (IH' : add_first (before ++ k :: after)%list obj model = model').
    { apply IH. intros k' Hin. apply Hbefore. right. exact Hin. }
    destruct (Hbefore k0 (or_introl eq_refl)) as [Hno | [e He]].
    + rewrite Hno. exact IH'.
    + rewrite He. destruct (isinstance obj k0); exact IH'.
Qed.

(** The object is left out when every kind either does not match or fails
    without touching the model. *)
Lemma add_first_all_fail (ks : list kind) (obj : pyval) (model : File3dm) :
  (forall k, In k ks ->
     isinstance obj k = false
     \/ exists e, add_to_model k obj model = (Raise e, model)) ->
  add_first ks obj model = model.
Proof.
  intros Hall. induction ks as [ | k ks IH]; [ reflexivity | ].
  cbn [compute_rhino3dm_helpers.add_first]. unfold try_add.
  assert (IH' : add_first ks obj model = model).
  { apply IH. intros k' Hin. apply Hall. right. exact Hin. }
  destruct (Hall k (or_introl eq_refl)) as [Hno | [e He]].
  - rewrite Hno. exact IH'.
  - rewrite He. destruct (isinstance obj k); exact IH'.
Qed.

(** C9 (amended).  For every sequence of objects the model written is the
    one obtained by handling the objects one after the other, and each object
    is handled by the kinds in the order curve, point, surface, mesh, solid:
    the kinds it is no instance of are passed over and the object goes to the
    add-operation of the first kind it is an instance of; when that operation
    returns, the object is filed and no later kind is tried, also when the
    object is an instance of a later kind too; when the operation raises, the
    error is passed over and the kinds after it are tried in the same way.
    So, with add-operations that leave the model as it was when they raise,
    the object is filed under the earliest kind it is an instance of whose
    add-operation returns, and it is left out when there is no such kind:
    when it is an instance of no kind, or when every add-operation it is
    routed to raises. *)
Theorem save_3dm_file_first_match (objects : list pyval) (filename : string) :
  kinds_in_order = [Curve; Point; Surface; Mesh; Brep]
  /\ snd (save_3dm_file objects filename)
     = fold_left (fun m obj => add_object obj m) objects new_model
  /\ fst (save_3dm_file objects filename)
     = write_model (snd (save_3dm_file objects filename)) filename
  /\ (forall obj model before k after,
        kinds_in_order = (before ++ k :: after)%list ->
        (forall k', In k' before -> isinstance obj k' = false) ->
        isinstance obj k = true ->
        add_object obj model
        = match add_to_model k obj model with
          | (Ok _, model') => model'
          | (Raise _, model') => add_first after obj model'
          end)
  /\ (forall obj model before k after model' u,
        kinds_in_order = (before ++ k :: after)%list ->
        (forall k', In k' before ->
           isinstance obj k' = false
           \/ exists e, add_to_model k' obj model = (Raise e, model)) ->
        isinstance obj k = true ->
        add_to_model k obj model = (Ok u, model') ->
        add_object obj model = model')
  /\ (forall obj model,
        (forall k,
           isinstance obj k = false
           \/ exists e, add_to_model k obj model = (Raise e, model)) ->
        add_object obj model = model)
  /\ (forall obj model,
        (forall k, isinstance obj k = false) ->
        add_object obj model = model).
Proof.
  split; [ reflexivity | ].
  split; [ reflexivity | ].
  split; [ reflexivity | ].
  split.
  { intros obj model before k after Hsplit Hno Hk.
    unfold compute_rhino3dm_helpers.add_object. rewrite Hsplit.
    exact (add_first_routes before after k obj model Hno Hk). }
  split.
  { intros obj model before k after model' u Hsplit Hbefore Hk Hadd.
    unfold compute_rhino3dm_helpers.add_object. rewrite Hsplit.
    exact (add_first_earliest_success before after k obj model model' u
             Hbefore Hk Hadd). }
  split.
  { intros obj model Hall.
    unfold compute_rhino3dm_helpers.add_object.
    apply add_first_all_fail. intros k _. apply Hall. }
  intros obj model Hno.
  unfold compute_rhino3dm_helpers.add_object.
  apply add_first_all_fail. intros k _. left. apply Hno.
Qed.

End SaveProperties.

(** A model that records the additions made, an object that is a curve and a
    surface at once, and a number: the first is added as a curve only, the
    second is left out. *)
Example save_3dm_file_example :
  let isinstance (obj : pyval) (k : compute_rhino3dm_helpers.kind) :=
    match obj, k with
    | PyObj _ _, compute_rhino3dm_helpers.Curve => true
    | PyObj _ _, compute_rhino3dm_helpers.Surface => true
    | _, _ => false
    end in
  let add k obj (model : list (compute_rhino3dm_helpers.kind * pyval)) :=
    (Ok tt, (model ++ [(k, obj)])%list) in
  let curve := PyObj "NurbsCurve" "c1" in
  snd (compute_rhino3dm_helpers.save_3dm_file _ [] isinstance add
         (fun _ _ => Ok tt) [curve; PyInt 10] "out.3dm")
  = [(compute_rhino3dm_helpers.Curve, curve)].
Proof. reflexivity. Qed.

(** C9 (counterexample).  With an add-operation for curves that raises, an
    object that is a curve and a surface at once is filed as a surface, not
    under the earliest kind it is an instance of; and a point whose
    add-operation raises is an instance of a listed kind and is left out all
    the same. *)
Lemma save_3dm_file_later_kind :
  let both := PyObj "NurbsSurface" "s1" in
  let point := PyObj "Point" "p1" in
  let written (objects : list pyval) :=
    snd (compute_rhino3dm_helpers.save_3dm_file _ [] sample_isinstance
           sample_add (fun _ _ => Ok tt) objects "out.3dm") in
  sample_isinstance both compute_rhino3dm_helpers.Curve = true
  /\ written [both] = [(compute_rhino3dm_helpers.Surface, both)]
  /\ sample_isinstance point compute_rhino3dm_helpers.Point = true
  /\ written [point] = [].
Proof. repeat split. Qed.

(** ** The location-resolution pipeline *)

Lemma prefix_app (s t : string) : prefix s (s ++ t) = true.
Proof.
  induction s as [ | a s IH]; simpl.
  - destruct t; reflexivity.
  - destruct (ascii_dec a a) as [_ | Hne]; [ exact IH | contradiction ].
Qed.

Lemma contains_prefix (s t : string) :
  prefix s t = true -> contains s t = true.
Proof.
  intros H. destruct t as [ | c t].
  - exact H.
  - change (contains s (String c t))
      with (prefix s (String c t) || contains s t)%bool.
    rewrite H. reflexivity.
Qed.

Lemma contains_here (s t : string) : contains s (s ++ t) = true.
Proof. apply contains_prefix, prefix_app. Qed.

(** A text contains each of its parts. *)
Lemma contains_middle (a s b : string) : contains s (a ++ s ++ b) = true.
Proof.
  induction a as [ | c a IH]; simpl.
  - apply contains_here.
  - rewrite IH. apply orb_true_r.
Qed.

Lemma bind_Ok_inv {A B : Type} (m : result A) (k : A -> result B) (b : B) :
  bind m k = Ok b -> exists a, m = Ok a /\ k a = Ok b.
Proof. destruct m as [a | e]; simpl; [ eauto | discriminate ]. Qed.

Lemma parse_direct_coordinates_cases (location : string) :
  (exists lat lon,
     location_helpers.parse_direct_coordinates location
     = (true, Some lat, Some lon))
  \/ location_helpers.parse_direct_coordinates location = (false, None, None).
Proof.
  unfold location_helpers.parse_direct_coordinates.
  destruct (negb (contains "," location)); [ right; reflexivity | ].
  destruct (map strip (split "," location)) as [ | p0 [ | p1 [ | p2 ps]]];
    try (right; reflexivity).
  destruct (float_of_str p0) as [lat | ]; [ | right; reflexivity ].
  destruct (float_of_str p1) as [lon | ]; [ | right; reflexivity ].
  destruct (_ && _)%bool; [ left; eauto | right; reflexivity ].
Qed.

(** The text is taken for coordinates exactly when it holds a comma, has two
    comma-separated parts, both parts read as floats, and the floats are in
    the ranges of a latitude and of a longitude. *)
Lemma parse_direct_coordinates_spec (location : string) (lat lon : float) :
  location_helpers.parse_direct_coordinates location
  = (true, Some lat, Some lon)
  <->
  contains "," location = true
  /\ exists p0 p1,
       split "," location = [p0; p1]
       /\ float_of_str (strip p0) = Some lat
       /\ float_of_str (strip p1) = Some lon
       /\ float_between (-90) lat 90 = true
       /\ float_between (-180) lon 180 = true.
Proof.
  unfold location_helpers.parse_direct_coordinates. split.
  - destruct (contains "," location); simpl; [ | discriminate ].
    destruct (split "," location) as [ | p0 [ | p1 [ | p2 ps]]]; simpl;
      try discriminate.
    destruct (float_of_str (strip p0)) as [a | ] eqn:H0; [ | discriminate ].
    destruct (float_of_str (strip p1)) as [b | ] eqn:H1; [ | discriminate ].
    destruct (float_between (-90) a 90) eqn:Ha; simpl; [ | discriminate ].
    destruct (float_between (-180) b 180) eqn:Hb; simpl; [ | discriminate ].
    intros H. injection H as <- <-.
    split; [ reflexivity | ]. exists p0, p1. repeat split; assumption.
  - intros [Hc [p0 [p1 [Hs [H0 [H1 [Ha Hb]]]]]]].
    rewrite Hc, Hs. simpl. rewrite H0, H1, Ha, Hb. reflexivity.
Qed.

Section PipelineProperties.

Import location_helpers.

Variable nominatim : world -> string -> result pyval.
Variable math_cos : float -> result float.
Variable float_repr : float -> string.

Abbreviation finish := (finish math_cos float_repr).
Abbreviation resolve := (resolve nominatim math_cos float_repr).
Abbreviation location_to_coordinates :=
  (location_to_coordinates nominatim math_cos float_repr).
Abbreviation location_to_coordinates_async :=
  (location_to_coordinates_async nominatim math_cos float_repr).
Abbreviation conclude := (conclude math_cos float_repr).

(** Direct coordinates: no request is sent. *)
Lemma resolve_direct (location : string) (size : float) (w : world)
    (lat lon : float) :
  parse_direct_coordinates location = (true, Some lat, Some lon) ->
  resolve location size w = (finish (Some lat) (Some lon) size, w).
Proof.
  intros H. unfold location_helpers.resolve. rewrite H. reflexivity.
Qed.

(** Anything else: one request with the text as it is, and a second one
    with the alternate query when the first has no result and the text looks
    like an intersection. *)
Lemma resolve_geocode (location : string) (size : float) (w : world) :
  parse_direct_coordinates location = (false, None, None) ->
  resolve location size w =
    match nominatim w location with
    | Raise e => (Raise e, (w ++ [location])%list)
    | Ok first =>
        if (negb (truthy first) && is_potential_intersection location)%bool
        then
          match nominatim (w ++ [location])%list (alternate_query location) with
          | Raise e =>
              (Raise e, ((w ++ [location]) ++ [alternate_query location])%list)
          | Ok second =>
              (conclude location size (is_potential_intersection location) second,
               ((w ++ [location]) ++ [alternate_query location])%list)
          end
        else (conclude location size (is_potential_intersection location) first, (w ++ [location])%list)
    end.
Proof.
  intros H. unfold location_helpers.resolve. rewrite H.
  cbn [negb]. unfold bindIO, geocode_location.
  destruct (nominatim w location) as [first | e]; [ | reflexivity ].
  destruct (negb (truthy first) && is_potential_intersection location)%bool.
  - unfold try_alternate_intersection_format, geocode_location.
    destruct (nominatim (w ++ [location])%list (alternate_query location))
      as [second | e]; [ | reflexivity ].
    reflexivity.
  - reflexivity.
Qed.

(** The requests sent by one call. *)
Lemma requests_direct (location : string) (size : float) (w : world) :
  is_coordinates location = true ->
  snd (location_to_coordinates location size w) = w.
Proof.
  intros H. unfold is_coordinates in H.
  destruct (parse_direct_coordinates_cases location) as [[lat [lon Hp]] | Hp];
    rewrite Hp in H; [ | discriminate ].
  unfold location_helpers.location_to_coordinates.
  rewrite (resolve_direct location size w lat lon Hp).
  destruct (finish (Some lat) (Some lon) size); reflexivity.
Qed.

Lemma requests_geocode (location : string) (size : float) (w : world) :
  is_coordinates location = false ->
  exists more,
    snd (location_to_coordinates location size w)
    = (w ++ location :: more)%list.
Proof.
  intros H. unfold is_coordinates in H.
  destruct (parse_direct_coordinates_cases location) as [[lat [lon Hp]] | Hp];
    rewrite Hp in H; [ discriminate | ].
  unfold location_helpers.location_to_coordinates.
  rewrite (resolve_geocode location size w Hp).
  destruct (nominatim w location) as [first | e].
  - destruct (negb (truthy first) && is_potential_intersection location)%bool.
    + exists [alternate_query location]. rewrite <- app_assoc. simpl.
      destruct (nominatim (w ++ [location])%list (alternate_query location));
        [ destruct (conclude location size (is_potential_intersection location) a) | ]; reflexivity.
    + exists []. destruct (conclude location size (is_potential_intersection location) first); reflexivity.
  - exists []. reflexivity.
Qed.

(** C5.  [parse_direct_coordinates] answers true exactly when the text has
    a comma, its split at the commas has two parts, both parts read as
    floats, and the first is within [-90, 90] and the second within
    [-180, 180]; it then returns the two floats.  When it answers true the
    pipeline sends no geocoding request; when it answers false the pipeline's
    first action is a geocoding request for the text.  The text
    "40.7128, -74.0060" is read as the coordinates 40.7128 and -74.006, and
    "0,200" is not read as coordinates. *)
Theorem direct_coordinates_classification :
  (forall location lat lon,
     parse_direct_coordinates location = (true, Some lat, Some lon)
     <->
     contains "," location = true
     /\ exists p0 p1,
          split "," location = [p0; p1]
          /\ float_of_str (strip p0) = Some lat
          /\ float_of_str (strip p1) = Some lon
          /\ float_between (-90) lat 90 = true
          /\ float_between (-180) lon 180 = true)
  /\ (forall location,
        is_coordinates location = true <->
        exists lat lon,
          parse_direct_coordinates location = (true, Some lat, Some lon))
  /\ (forall location size w,
        is_coordinates location = true ->
        snd (location_to_coordinates location size w) = w)
  /\ (forall location size w,
        is_coordinates location = false ->
        exists more,
          snd (location_to_coordinates location size w)
          = (w ++ location :: more)%list)
  /\ parse_direct_coordinates "40.7128, -74.0060"
     = (true, Some 40.7128%float, Some (-74.0060)%float)
  /\ parse_direct_coordinates "0,200" = (false, None, None).
Proof.
  split; [ exact parse_direct_coordinates_spec | ].
  split.
  { intros location. unfold is_coordinates. split.
    - intros H.
      destruct (parse_direct_coordinates_cases location) as [Hp | Hp];
        [ exact Hp | rewrite Hp in H; discriminate ].
    - intros [lat [lon Hp]]. rewrite Hp. reflexivity. }
  split; [ exact requests_direct | ].
  split; [ exact requests_geocode | ].
  split; vm_compute; reflexivity.
Qed.

(** C10.  The asynchronous entry point returns what the synchronous one
    returns, and sends the same requests. *)
Theorem location_to_coordinates_async_same
    (location : string) (box_size_meters : float) (w : world) :
  location_to_coordinates_async location box_size_meters w
  = location_to_coordinates location box_size_meters w.
Proof.
  unfold location_helpers.location_to_coordinates_async. reflexivity.
Qed.

(** One request only when the first one has results, or the text does not
    look like an intersection, or the request fails. *)
Lemma requests_without_retry (location : string) (size : float) (w : world) :
  is_coordinates location = false ->
  match nominatim w location with
  | Ok first => truthy first = true \/ is_potential_intersection location = false
  | Raise _ => True
  end ->
  snd (location_to_coordinates location size w) = (w ++ [location])%list.
Proof.
  intros H Hfirst. unfold is_coordinates in H.
  destruct (parse_direct_coordinates_cases location) as [[lat [lon Hp]] | Hp];
    rewrite Hp in H; [ discriminate | ].
  unfold location_helpers.location_to_coordinates.
  rewrite (resolve_geocode location size w Hp).
  destruct (nominatim w location) as [first | e]; [ | reflexivity ].
  assert (Hc : (negb (truthy first) && is_potential_intersection location)%bool
               = false).
  { destruct Hfirst as [Ht | Hi]; [ rewrite Ht | rewrite Hi, andb_false_r ];
      reflexivity. }
  rewrite Hc. destruct (conclude location size (is_potential_intersection location) first); reflexivity.
Qed.

(** C2 (amended).  When the text is not a pair of coordinates, looks like an
    intersection, and the first geocoding request comes back with no
    candidate, exactly one more request is sent and none after it.  Its query
    is the lower-cased text with every " and " replaced by " & " when the
    lower-cased text contains " and "; otherwise the lower-cased text with
    every " & " replaced by " and " when it contains " & "; otherwise the
    text as it was given. *)
Theorem intersection_retry_once
    (location : string) (size : float) (w : world) (first : pyval) :
  is_coordinates location = false ->
  is_potential_intersection location = true ->
  nominatim w location = Ok first ->
  truthy first = false ->
  snd (location_to_coordinates location size w)
  = (w ++ [location; alternate_query location])%list
  /\ alternate_query location
     = (if contains " and " (lower location)
        then replace " and " " & " (lower location)
        else if contains " & " (lower location)
        then replace " & " " and " (lower location)
        else location).
Proof.
  intros H Hflag Hfirst Hempty. split; [ | reflexivity ].
  unfold is_coordinates in H.
  destruct (parse_direct_coordinates_cases location) as [[lat [lon Hp]] | Hp];
    rewrite Hp in H; [ discriminate | ].
  unfold location_helpers.location_to_coordinates.
  rewrite (resolve_geocode location size w Hp).
  rewrite Hfirst, Hempty, Hflag. cbn [negb andb].
  rewrite <- app_assoc. cbn [app].
  destruct (nominatim (w ++ [location])%list (alternate_query location))
    as [second | e]; [ destruct (conclude _ _ _ second) | ]; reflexivity.
Qed.

(** A URL made by [finish] holds the four numbers of a bounding box. *)
Lemma finish_url (lat lon : option float) (size : float) (s : string) :
  finish lat lon size = Ok s ->
  exists a b c d, generate_overpass_url float_repr [a; b; c; d] = Ok s.
Proof.
  unfold location_helpers.finish.
  destruct lat as [la | ]; [ | discriminate ].
  destruct lon as [lo | ]; [ | discriminate ].
  intros H. apply bind_Ok_inv in H as [bbox [Hb Hu]].
  unfold calculate_bounding_box in Hb.
  apply bind_Ok_inv in Hb as [lat_offset [_ Hb]].
  apply bind_Ok_inv in Hb as [c [_ Hb]].
  apply bind_Ok_inv in Hb as [lon_offset [_ Hb]].
  injection Hb as <-. eauto.
Qed.

Lemma conclude_result (location : string) (size : float) (flag : bool)
    (r : pyval) (s : string) :
  conclude location size flag r = Ok s ->
  (exists a b c d, generate_overpass_url float_repr [a; b; c; d] = Ok s)
  \/ s = "Error: Location '" ++ location ++ "' not found".
Proof.
  unfold location_helpers.conclude. destruct (negb (truthy r)).
  - intros H. injection H as <-. right. reflexivity.
  - intros H. left.
    apply bind_Ok_inv in H as [selected [_ H]].
    apply bind_Ok_inv in H as [la [_ H]].
    apply bind_Ok_inv in H as [lo [_ H]].
    exact (finish_url _ _ _ _ H).
Qed.

Lemma handler_prefix (location : string) (e : exn) :
  prefix "Error: " (handler location e) = true.
Proof.
  destruct e as [c msg]. destruct c; try reflexivity; destruct msg; reflexivity.
Qed.

(** Whatever [resolve] returns or raises, the caller gets a URL or a text
    that starts with "Error: ". *)
Lemma resolve_result (location : string) (size : float) (w : world) :
  match fst (resolve location size w) with
  | Ok s =>
      (exists a b c d, generate_overpass_url float_repr [a; b; c; d] = Ok s)
      \/ s = "Error: Location '" ++ location ++ "' not found"
  | Raise _ => True
  end.
Proof.
  destruct (parse_direct_coordinates_cases location) as [[lat [lon Hp]] | Hp].
  - rewrite (resolve_direct location size w lat lon Hp). cbn [fst].
    destruct (finish (Some lat) (Some lon) size) as [s | e] eqn:Hf;
      [ left; exact (finish_url _ _ _ _ Hf) | exact I ].
  - rewrite (resolve_geocode location size w Hp).
    destruct (nominatim w location) as [first | e]; [ | exact I ].
    destruct (negb (truthy first) && is_potential_intersection location)%bool.
    + destruct (nominatim (w ++ [location])%list (alternate_query location))
        as [second | e]; [ | exact I ].
      cbn [fst].
      destruct (conclude location size (is_potential_intersection location) second) as [s | e] eqn:Hc;
        [ exact (conclude_result _ _ _ _ _ Hc) | exact I ].
    + cbn [fst].
      destruct (conclude location size (is_potential_intersection location) first) as [s | e] eqn:Hc;
        [ exact (conclude_result _ _ _ _ _ Hc) | exact I ].
Qed.

Lemma result_of_resolve (location : string) (size : float) (w : world) :
  fst (location_to_coordinates location size w)
  = match fst (resolve location size w) with
    | Ok s => s
    | Raise e => handler location e
    end.
Proof.
  unfold location_helpers.location_to_coordinates.
  destruct (resolve location size w) as [[s | e] w']; reflexivity.
Qed.

(** The four error texts differ from one another. *)
Lemma error_texts_distinct (location msg1 msg2 : string) :
  let timed_out := handler location (mkExn ETimeout msg1) in
  let network := handler location (mkExn ERequestException msg1) in
  let format := handler location (mkExn EValueError msg2) in
  let not_found := "Error: Location '" ++ location ++ "' not found" in
  timed_out <> network /\ timed_out <> format /\ timed_out <> not_found
  /\ network <> format /\ network <> not_found /\ format <> not_found.
Proof. cbn. repeat split; discriminate. Qed.

(** C6.  [location_to_coordinates] returns a text for every input and every
    behaviour of the services, and the text is a bounding-box URL or starts
    with "Error: ".  A time-out of the geocoding request, another failure of
    the request, a [ValueError] while the coordinates are read, and an empty
    list of candidates give four texts that differ from one another; the
    text for the empty list of candidates (after the retry, when there is
    one) contains the location as it was given. *)
Theorem location_to_coordinates_total
    (location : string) (size : float) (w : world) :
  let answer := fst (location_to_coordinates location size w) in
  ((exists a b c d, generate_overpass_url float_repr [a; b; c; d] = Ok answer)
   \/ prefix "Error: " answer = true)
  /\ (forall e, fst (resolve location size w) = Raise e ->
        answer = handler location e)
  /\ (forall msg,
        handler location (mkExn ETimeout msg)
        = "Error: Geocoding API request timed out"
        /\ handler location (mkExn ERequestException msg)
           = "Error: Network error when geocoding location: " ++ msg
        /\ handler location (mkExn EValueError msg)
           = "Error: Invalid location format: " ++ msg)
  /\ (is_coordinates location = false ->
      forall e, nominatim w location = Raise e ->
        answer = handler location e)
  /\ (is_coordinates location = false ->
      forall first, nominatim w location = Ok first ->
        truthy first = false ->
        (is_potential_intersection location = false
         \/ exists second,
              nominatim (w ++ [location])%list (alternate_query location)
              = Ok second
              /\ truthy second = false) ->
        answer = "Error: Location '" ++ location ++ "' not found"
        /\ contains location answer = true)
  /\ (forall msg1 msg2,
        let timed_out := handler location (mkExn ETimeout msg1) in
        let network := handler location (mkExn ERequestException msg1) in
        let format := handler location (mkExn EValueError msg2) in
        let not_found := "Error: Location '" ++ location ++ "' not found" in
        timed_out <> network /\ timed_out <> format /\ timed_out <> not_found
        /\ network <> format /\ network <> not_found /\ format <> not_found).
Proof.
  intros answer.
  assert (Ha : answer = match fst (resolve location size w) with
                        | Ok s => s
                        | Raise e => handler location e
                        end) by apply result_of_resolve.
  split.
  { rewrite Ha. pose proof (resolve_result location size w) as Hr.
    destruct (fst (resolve location size w)) as [s | e].
    - destruct Hr as [Hurl | ->]; [ left; exact Hurl | right; reflexivity ].
    - right. apply handler_prefix. }
  split.
  { intros e He. rewrite Ha, He. reflexivity. }
  split.
  { intros msg. repeat split. }
  assert (Hparse : is_coordinates location = false ->
                   parse_direct_coordinates location = (false, None, None)).
  { unfold is_coordinates. intros H.
    destruct (parse_direct_coordinates_cases location) as [[lat [lon Hp]] | Hp];
      [ rewrite Hp in H; discriminate | exact Hp ]. }
  split.
  { intros H e He. rewrite Ha, (resolve_geocode location size w (Hparse H)), He.
    reflexivity. }
  split.
  { intros H first Hfirst Hempty Hretry.
    assert (Hanswer : answer = "Error: Location '" ++ location ++ "' not found").
    { rewrite Ha, (resolve_geocode location size w (Hparse H)), Hfirst, Hempty.
      cbn [negb andb].
      destruct Hretry as [Hflag | [second [Hsecond Hempty2]]].
      - rewrite Hflag. cbn [fst]. unfold location_helpers.conclude. rewrite Hempty. reflexivity.
      - destruct (is_potential_intersection location).
        + rewrite Hsecond. cbn [fst]. unfold location_helpers.conclude. rewrite Hempty2.
          reflexivity.
        + cbn [fst]. unfold location_helpers.conclude. rewrite Hempty. reflexivity. }
    split; [ exact Hanswer | ].
    rewrite Hanswer. apply contains_middle. }
  intros msg1 msg2. apply error_texts_distinct.
Qed.

End PipelineProperties.

(** C2 (counterexample).  For "5th Ave and 23rd St, New York" and a
    geocoder that finds nothing, two requests are sent; the second query is
    "5th ave & 23rd st, new york", which is not the text with " and " replaced
    by " & " and nothing else changed. *)
Lemma retry_query_is_lower_cased :
  let nominatim := fun (_ : location_helpers.world) (_ : string) => Ok (PyList []) in
  let location := "5th Ave and 23rd St, New York" in
  is_coordinates location = false
  /\ location_helpers.is_potential_intersection location = true
  /\ snd (location_helpers.location_to_coordinates nominatim
            (fun x => Ok x) (fun _ => "") location 100 [])
     = [location; "5th ave & 23rd st, new york"]
  /\ toggled_as_worded location = "5th Ave & 23rd St, New York"
  /\ "5th ave & 23rd st, new york" <> toggled_as_worded location.
Proof.
  cbv zeta. repeat split; try (vm_compute; reflexivity).
  vm_compute. discriminate.
Qed.

Lemma intersection_retry_once_witness :
  let nominatim := fun (_ : location_helpers.world) (_ : string) => Ok (PyList []) in
  let location := "Main St & 1st Ave, Springfield" in
  snd (location_helpers.location_to_coordinates nominatim
         (fun x => Ok x) (fun _ => "") location 100 [])
  = [location; location_helpers.alternate_query location].
Proof.
  intros nominatim location.
  refine (proj1 (intersection_retry_once nominatim (fun x => Ok x) (fun _ => "")
                   location 100 [] (PyList []) _ _ _ _));
    vm_compute; reflexivity.
Defined.

(** ** The bounding box *)

Lemma float_of_Z_111320 : float_of_Z 111320 = 111320%float.
Proof. vm_compute. reflexivity. Qed.

Lemma radians_60 :
  (60 * location_helpers.deg_to_rad)%float = 0x1.0c152382d7365p+0%float.
Proof. vm_compute. reflexivity. Qed.

Section BoundingBoxProperties.

Import location_helpers.

Variable math_cos : float -> result float.
Variable float_repr : float -> string.

Lemma bounding_box_binary64 (lat lon size c : float) :
  math_cos (lat * deg_to_rad)%float = Ok c ->
  PrimFloat.eqb (111320 * PrimFloat.abs c) 0 = false ->
  calculate_bounding_box (IEEE math_cos) lat lon size
  = Ok [lon - size / (111320 * PrimFloat.abs c);
        lat - size / 111320;
        lon + size / (111320 * PrimFloat.abs c);
        lat + size / 111320]%float.
Proof.
  intros Hc Hnz. unfold calculate_bounding_box, IEEE.
  cbn [num add sub mul div absolute of_Z radians cosine].
  rewrite float_of_Z_111320. unfold float_div.
  change (PrimFloat.eqb 111320 0) with false. cbn [bind].
  rewrite Hc. cbn [bind]. rewrite Hnz. reflexivity.
Qed.

Lemma bounding_box_real (lat lon size : R) :
  cos (lat * (PI / 180)) <> 0%R ->
  calculate_bounding_box Real lat lon size
  = Ok [lon - size / 111320 / Rabs (cos (lat * (PI / 180)));
        lat - size / 111320;
        lon + size / 111320 / Rabs (cos (lat * (PI / 180)));
        lat + size / 111320]%R.
Proof.
  intros Hcos. unfold calculate_bounding_box, Real.
  cbn [num add sub mul div absolute of_Z radians cosine].
  destruct (Req_dec_T (IZR 111320) 0) as [H0 | _]; [ exfalso; lra | ].
  cbn [bind].
  assert (Habs : Rabs (cos (lat * (PI / 180))) <> 0%R)
    by (apply Rabs_no_R0; exact Hcos).
  destruct (Req_dec_T (111320 * Rabs (cos (lat * (PI / 180)))) 0) as [H0 | _].
  - exfalso. apply Rmult_integral in H0. destruct H0 as [H0 | H0];
      [ lra | exact (Habs H0) ].
  - cbn [bind].
    replace (size / (111320 * Rabs (cos (lat * (PI / 180)))))%R
      with (size / 111320 / Rabs (cos (lat * (PI / 180))))%R
      by (field; exact Habs).
    reflexivity.
Qed.

Lemma cos_radians_0 : cos (0 * (PI / 180)) = 1%R.
Proof. rewrite Rmult_0_l. apply cos_0. Qed.

Lemma cos_radians_60 : cos (60 * (PI / 180)) = (1 / 2)%R.
Proof.
  replace (60 * (PI / 180))%R with (PI / 3)%R by field. apply cos_PI3.
Qed.

(** C7 (amended).  The box is [lon - d_lon, lat - d_lat, lon + d_lon,
    lat + d_lat], in this order in the list and in the URL, with
    [d_lat = size / 111320] and [d_lon = size / (111320 * |cos(radians(lat))|)]
    computed in binary64 (whenever the cosine is returned and the divisor is
    not zero); at latitude 0 the two offsets are the same float as soon as
    the cosine of 0 is 1.  In exact real arithmetic [d_lon] is [d_lat] divided
    by [|cos(radians(lat))|]: the two are equal at latitude 0, and at latitude
    60 the longitude offset is 2 times the latitude offset. *)
Theorem bounding_box_offsets :
  (forall lat lon size c : float,
     math_cos (lat * deg_to_rad)%float = Ok c ->
     PrimFloat.eqb (111320 * PrimFloat.abs c) 0 = false ->
     let d_lat := (size / 111320)%float in
     let d_lon := (size / (111320 * PrimFloat.abs c))%float in
     calculate_bounding_box (IEEE math_cos) lat lon size
     = Ok [lon - d_lon; lat - d_lat; lon + d_lon; lat + d_lat]%float
     /\ generate_overpass_url float_repr
          [lon - d_lon; lat - d_lat; lon + d_lon; lat + d_lat]%float
        = Ok ("https://overpass-api.de/api/map?bbox="
              ++ float_repr (lon - d_lon)%float ++ ","
              ++ float_repr (lat - d_lat)%float ++ ","
              ++ float_repr (lon + d_lon)%float ++ ","
              ++ float_repr (lat + d_lat)%float))
  /\ (math_cos 0%float = Ok 1%float ->
      forall lon size : float,
        let d := (size / 111320)%float in
        calculate_bounding_box (IEEE math_cos) 0%float lon size
        = Ok [lon - d; 0 - d; lon + d; 0 + d]%float)
  /\ (forall lat lon size : R,
        cos (lat * (PI / 180)) <> 0%R ->
        let d_lat := (size / 111320)%R in
        let d_lon := (d_lat / Rabs (cos (lat * (PI / 180))))%R in
        calculate_bounding_box Real lat lon size
        = Ok [lon - d_lon; lat - d_lat; lon + d_lon; lat + d_lat]%R)
  /\ (forall lon size : R,
        let d := (size / 111320)%R in
        calculate_bounding_box Real 0%R lon size
        = Ok [lon - d; 0 - d; lon + d; 0 + d]%R)
  /\ (forall lon size : R,
        let d_lat := (size / 111320)%R in
        let d_lon := (2 * d_lat)%R in
        calculate_bounding_box Real 60%R lon size
        = Ok [lon - d_lon; 60 - d_lat; lon + d_lon; 60 + d_lat]%R).
Proof.
  split.
  { intros lat lon size c Hc Hnz d_lat d_lon. split.
    - exact (bounding_box_binary64 lat lon size c Hc Hnz).
    - reflexivity. }
  split.
  { intros Hcos lon size d.
    assert (H0 : (0 * deg_to_rad)%float = 0%float) by (vm_compute; reflexivity).
    assert (Hc : math_cos (0 * deg_to_rad)%float = Ok 1%float)
      by (rewrite H0; exact Hcos).
    rewrite (bounding_box_binary64 0%float lon size 1%float Hc);
      [ | vm_compute; reflexivity ].
    change (111320 * PrimFloat.abs 1)%float with 111320%float. reflexivity. }
  split.
  { intros lat lon size Hcos d_lat d_lon.
    exact (bounding_box_real lat lon size Hcos). }
  split.
  { intros lon size d.
    rewrite bounding_box_real by (rewrite cos_radians_0; lra).
    rewrite cos_radians_0, Rabs_R1. unfold d.
    replace (size / 111320 / 1)%R with (size / 111320)%R by field.
    reflexivity. }
  intros lon size d_lat d_lon.
  assert (Habs : Rabs (1 / 2) = (1 / 2)%R) by (apply Rabs_pos_eq; lra).
  rewrite bounding_box_real by (rewrite cos_radians_60; lra).
  rewrite cos_radians_60, Habs. unfold d_lon, d_lat.
  replace (size / 111320 / (1 / 2))%R with (2 * (size / 111320))%R by field.
  reflexivity.
Qed.

End BoundingBoxProperties.

(** C7 (counterexample).  In binary64, with the cosine that [math.cos]
    returns for 60 degrees, a box of size 111320 around latitude 60 has the
    latitude offset 1 and the longitude offset 1.9999999999999996, which is
    not 2 times the latitude offset. *)
Lemma bounding_box_60_binary64 :
  let d_lat := 1%float in
  let d_lon := 0x1.ffffffffffffep+0%float in
  libm_cos (60 * location_helpers.deg_to_rad)%float
  = Ok 0x1.0000000000001p-1%float
  /\ location_helpers.calculate_bounding_box (location_helpers.IEEE libm_cos)
       60%float 0%float 111320%float
     = Ok [0 - d_lon; 60 - d_lat; 0 + d_lon; 60 + d_lat]%float
  /\ PrimFloat.eqb d_lon (2 * d_lat) = false
  /\ d_lon <> (2 * d_lat)%float.
Proof.
  cbv zeta. repeat split; try (vm_compute; reflexivity).
  intros H.
  assert (Hb : PrimFloat.eqb 0x1.ffffffffffffep+0 (2 * 1) = true)
    by (rewrite H; vm_compute; reflexivity).
  vm_compute in Hb. discriminate Hb.
Qed.

(** ** The helpers on the stand-in services *)

Example decode_item_examples :
  let decode := compute_rhino3dm_helpers.decode_item sample_json_loads sample_Decode in
  decode (PyStr (quoted "10")) = PyInt 10
  /\ decode (PyStr "hello") = PyStr "hello"
  /\ decode (PyStr "2.5") = PyFloat 2.5%float
  /\ decode (PyStr "1e5") = PyStr "1e5"
  /\ decode (PyStr (quoted (quoted "7"))) = PyStr (quoted "7")
  /\ decode (PyStr (String compute_rhino3dm_helpers.dquote EmptyString))
     = PyStr EmptyString
  /\ decode (PyStr "{archive3dm: 70}") = PyObj "LineCurve" "archive3dm 70"
  /\ decode (PyInt 3) = PyInt 3.
Proof. cbv zeta. repeat split; vm_compute; reflexivity. Qed.

Example decode_gh_output_example :
  let leaf (data : pyval) := PyDict [("type", PyStr "System.String"); ("data", data)] in
  let output :=
    PyDict [("values",
             PyList [PyDict [("ParamName", PyStr "RH_OUT:lines");
                             ("InnerTree",
                              PyDict [("{0;0}",
                                       PyList [leaf (PyStr "{archive3dm: 70}");
                                               leaf (PyStr (quoted "10"));
                                               leaf (PyStr "hello")])])]])] in
  compute_rhino3dm_helpers.decode_gh_output sample_json_loads sample_Decode
    output compute_rhino3dm_helpers.default_tree_path
  = Ok [PyObj "LineCurve" "archive3dm 70"; PyInt 10; PyStr "hello"].
Proof. vm_compute. reflexivity. Qed.

Example location_to_coordinates_examples :
  let run := location_helpers.location_to_coordinates
               sample_nominatim libm_cos sample_repr in
  run "0, 0" 111320%float []
  = ("https://overpass-api.de/api/map?bbox=-1.0,-1.0,1.0,1.0", [])
  /\ run "Null Island" 111320%float []
     = ("https://overpass-api.de/api/map?bbox=-1.0,-1.0,1.0,1.0",
        ["Null Island"])
  /\ run "Elm St and Oak Ave" 100%float []
     = ("Error: Location 'Elm St and Oak Ave' not found",
        ["Elm St and Oak Ave"; "elm st & oak ave"])
  /\ run "Atlantis" 100%float []
     = ("Error: Location 'Atlantis' not found", ["Atlantis"])
  /\ run "Broken" 100%float []
     = ("Error: Invalid location format: could not convert string to float: 'abc'",
        ["Broken"])
  /\ run "Far away" 100%float []
     = ("Error: Geocoding API request timed out", ["Far away"])
  /\ run "0,200" 100%float []
     = ("Error: Location '0,200' not found", ["0,200"]).
Proof. cbv zeta. repeat split; vm_compute; reflexivity. Qed.

(** Text outside ASCII: the retry query is lower-cased as a whole, a
    no-break space around a coordinate is stripped, and a leaf that starts
    with the separator U+001F is no number. *)
Example unicode_examples :
  location_helpers.alternate_query "École St and Ölweg" = "école st & ölweg"
  /\ location_helpers.parse_direct_coordinates
       ("1" ++ no_break_space ++ ",2")
     = (true, Some 1%float, Some 2%float)
  /\ compute_rhino3dm_helpers.decode_item sample_json_loads sample_Decode
       (PyStr (String "031" "10"))
     = PyStr (String "031" "10").
Proof. repeat split; vm_compute; reflexivity. Qed.

(* ================================================================== *)
(** * Further properties                                              *)
(* ================================================================== *)

(** ** Encoding several parameters, and decoding what was encoded *)

Section EncodeProperties.

Import compute_helpers.

Variable py_str : pyval -> string.
Variable json_loads : string -> result pyval.
Variable Decode : pyval -> result pyval.

Lemma format_parameter_inv (name : string) (value p : pyval) :
  format_parameter py_str name value = Ok p ->
  exists ty v',
    infer_type py_str value = Ok (ty, v')
    /\ p = PyDict
             [("ParamName", PyStr name);
              ("InnerTree",
               PyDict [("{0}", PyList [PyDict [("type", PyStr ty);
                                               ("data", v')]])])].
Proof.
  unfold format_parameter. intros H.
  apply bind_Ok_inv in H as [[ty v'] [Hi Hp]].
  injection Hp as <-. exists ty, v'. split; [ exact Hi | reflexivity ].
Qed.

(** X1.  When [format_parameters] returns, it returns one entry for each
    item of the dictionary, in the order of the items: the entry carries the
    item's name, and its only leaf carries the type and the value
    [format_parameter] infers for the item's value. *)
Theorem format_parameters_in_order
    (param_dict : list (string * pyval)) (ps : list pyval) :
  format_parameters py_str param_dict = Ok ps ->
  Forall2
    (fun item p =>
       getitem_str p "ParamName" = Ok (PyStr (fst item))
       /\ exists ty v',
            infer_type py_str (snd item) = Ok (ty, v')
            /\ parameter_leaf p
               = Ok (PyDict [("type", PyStr ty); ("data", v')]))
    param_dict ps.
Proof.
  revert ps. induction param_dict as [ | [name value] rest IH]; intros ps H.
  - injection H as <-. constructor.
  - cbn [format_parameters] in H.
    apply bind_Ok_inv in H as [p [Hp H]].
    apply bind_Ok_inv in H as [ps' [Hps H]].
    injection H as <-.
    constructor; [ | exact (IH ps' Hps) ].
    destruct (format_parameter_inv name value p Hp) as [ty [v' [Hi ->]]].
    split; [ reflexivity | ].
    exists ty, v'. split; [ exact Hi | reflexivity ].
Qed.

(** X22.  [format_parameters] stops at the first value whose type
    inference raises (a float that is infinite or not a number): it raises
    that exception and returns no entry at all, also for the items before
    and after it. *)
Theorem format_parameters_raises
    (before : list (string * pyval)) (name : string) (value : pyval)
    (after : list (string * pyval)) (e : exn) :
  Forall (fun item => exists tv, infer_type py_str (snd item) = Ok tv) before ->
  infer_type py_str value = Raise e ->
  format_parameters py_str (before ++ (name, value) :: after)%list = Raise e.
Proof.
  induction 1 as [ | [n v] before [tv Htv] _ IH]; intros He.
  - cbn [app format_parameters]. unfold format_parameter. rewrite He.
    reflexivity.
  - cbn [app format_parameters]. unfold format_parameter at 1.
    cbn [snd] in Htv. rewrite Htv. cbn [bind]. rewrite (IH He). reflexivity.
Qed.

(** X2.  A boolean, an integer or a float that [format_parameter] encodes
    comes back from [decode_gh_output] at the path [{0}] as the value that
    was sent: the value itself, or the integer a float without fractional
    part was normalised to.  At the decoder's default path [{0;0}] the same
    entry raises a [KeyError]. *)
Theorem format_then_decode
    (name : string) (value : pyval) (ty : string) (v' : pyval) :
  (isinstance_int value || isinstance_float value)%bool = true ->
  infer_type py_str value = Ok (ty, v') ->
  exists p,
    format_parameter py_str name value = Ok p
    /\ compute_rhino3dm_helpers.decode_gh_output json_loads Decode
         (PyDict [("values", PyList [p])]) "{0}"
       = Ok [v']
    /\ compute_rhino3dm_helpers.decode_gh_output json_loads Decode
         (PyDict [("values", PyList [p])])
         compute_rhino3dm_helpers.default_tree_path
       = raise EKeyError "'{0;0}'"
    /\ (v' = value
        \/ exists f n,
             value = PyFloat f /\ v' = PyInt n /\ float_eq_Z f n = true).
Proof.
  intros Hnum Hi.
  assert (Hshape : isinstance_str v' = false
                   /\ (v' = value
                       \/ exists f n, value = PyFloat f /\ v' = PyInt n
                                      /\ float_eq_Z f n = true)).
  { destruct value; try discriminate Hnum.
    - injection Hi as _ <-. split; [ reflexivity | left; reflexivity ].
    - injection Hi as _ <-. split; [ reflexivity | left; reflexivity ].
    - unfold infer_type in Hi. cbn in Hi.
      apply bind_Ok_inv in Hi as [n [Hn Hi]].
      destruct (float_eq_Z f n) eqn:Heq; injection Hi as _ <-.
      + split; [ reflexivity | right; exists f, n; auto ].
      + split; [ reflexivity | left; reflexivity ]. }
  destruct Hshape as [Htext Hsame].
  exists (PyDict
            [("ParamName", PyStr name);
             ("InnerTree",
              PyDict [("{0}", PyList [PyDict [("type", PyStr ty);
                                              ("data", v')]])])]).
  split; [ unfold format_parameter; rewrite Hi; reflexivity | ].
  split; [ | split; [ reflexivity | exact Hsame ] ].
  unfold compute_rhino3dm_helpers.decode_gh_output.
  cbn [getitem_str lookup find fst snd String.eqb Ascii.eqb Bool.eqb
       of_option bind getitem_0 hd_error iterate].
  cbn [compute_rhino3dm_helpers.decode_items getitem_str lookup find fst snd
       String.eqb Ascii.eqb Bool.eqb of_option bind].
  rewrite (decode_item_not_text json_loads Decode v' Htext). reflexivity.
Qed.

End EncodeProperties.

Lemma format_then_decode_witness :
  compute_rhino3dm_helpers.decode_gh_output sample_json_loads sample_Decode
    (PyDict
       [("values",
         PyList [PyDict
                   [("ParamName", PyStr "angle");
                    ("InnerTree",
                     PyDict [("{0}",
                              PyList [PyDict [("type", PyStr "System.Int32");
                                              ("data", PyInt 20)]])])]])])
    "{0}"
  = Ok [PyInt 20].
Proof.
  destruct (format_then_decode (fun _ => "") sample_json_loads sample_Decode
              "angle" (PyFloat 20%float) "System.Int32" (PyInt 20)
              eq_refl eq_refl)
    as [p [Hp [Hd _]]].
  injection Hp as <-. exact Hd.
Defined.

Lemma format_parameters_in_order_witness :
  Forall2
    (fun (item : string * pyval) (p : pyval) =>
       getitem_str p "ParamName" = Ok (PyStr (fst item)))
    [("a", PyInt 2); ("b", PyFloat 2.5%float)]
    [PyDict [("ParamName", PyStr "a");
             ("InnerTree",
              PyDict [("{0}", PyList [PyDict [("type", PyStr "System.Int32");
                                              ("data", PyInt 2)]])])];
     PyDict [("ParamName", PyStr "b");
             ("InnerTree",
              PyDict [("{0}", PyList [PyDict [("type", PyStr "System.Double");
                                              ("data", PyFloat 2.5%float)]])])]].
Proof.
  refine (Forall2_impl _ _
            (format_parameters_in_order (fun _ => "")
               [("a", PyInt 2); ("b", PyFloat 2.5%float)] _ eq_refl)).
  intros item p [Hname _]. exact Hname.
Defined.

(** ** The compute caller: the URL and the exceptions *)

Lemma rstrip_char_app (ch : ascii) (s : string) :
  rstrip_char ch (s ++ String ch EmptyString) = rstrip_char ch s.
Proof.
  induction s as [ | c s IH].
  - cbn. rewrite Ascii.eqb_refl. reflexivity.
  - cbn [append rstrip_char]. rewrite IH. reflexivity.
Qed.

Lemma append_empty (s : string) : s ++ EmptyString = s.
Proof.
  induction s as [ | c s IH]; [ reflexivity | cbn; rewrite IH; reflexivity ].
Qed.

Lemma append_slashes_S (s : string) (n : nat) :
  s ++ slashes (S n) = (s ++ slashes n) ++ String "/" EmptyString.
Proof.
  induction s as [ | c s IH].
  - cbn [append]. induction n as [ | n IHn]; [ reflexivity | ].
    cbn [slashes append] in *. rewrite IHn. reflexivity.
  - cbn [append]. rewrite IH. reflexivity.
Qed.

Lemma rstrip_char_slashes (s : string) (n : nat) :
  rstrip_char "/" (s ++ slashes n) = rstrip_char "/" s.
Proof.
  induction n as [ | n IH].
  - cbn [slashes]. rewrite append_empty. reflexivity.
  - rewrite append_slashes_S, rstrip_char_app. exact IH.
Qed.

(** What is left of a text by [rstrip('/')] does not end with a slash. *)
Lemma rstrip_char_no_trailing (ch : ascii) (s : string) :
  endswith_char ch (rstrip_char ch s) = false.
Proof.
  induction s as [ | c s IH]; [ reflexivity | ].
  cbn [rstrip_char].
  destruct (rstrip_char ch s) as [ | c' r] eqn:Hr.
  - destruct (Ascii.eqb c ch) eqn:Hc; [ reflexivity | ].
    cbn. exact Hc.
  - cbn [endswith_char]. cbn [endswith_char] in IH. exact IH.
Qed.

Section ComputeMoreProperties.

Import compute_helpers.

Variable http_post : string -> pyval -> result response.

(** X3.  Slashes at the end of the server URL are of no consequence: with
    any number of them added, [run_rhino_compute] posts to the same address
    and returns the same; the address posted to is a text that does not end
    with a slash, followed by "/grasshopper". *)
Theorem run_rhino_compute_trailing_slashes
    (definition_path : string) (parameters : list pyval)
    (compute_url : string) (n : nat) :
  run_rhino_compute http_post definition_path parameters
    (compute_url ++ slashes n)
  = run_rhino_compute http_post definition_path parameters compute_url
  /\ endswith_char "/" (rstrip_char "/" (compute_url ++ slashes n)) = false.
Proof.
  split.
  - unfold run_rhino_compute. rewrite rstrip_char_slashes. reflexivity.
  - apply rstrip_char_no_trailing.
Qed.

(** Every exception of [process_response] is a [ValueError] whose text
    starts with "Failed to process response: ". *)
Lemma process_response_raises (r : response) (e : exn) :
  process_response r = Raise e ->
  exn_cls e = EValueError
  /\ prefix "Failed to process response: " (exn_msg e) = true.
Proof.
  unfold process_response.
  destruct (read_response r) as [v | e0]; [ discriminate | ].
  intros H. injection H as <-. split; [ reflexivity | ].
  exact (prefix_app "Failed to process response: " (exn_msg e0)).
Qed.

(** X4.  [run_rhino_compute] raises in two ways only: an exception of the
    POST request itself is raised as it is, and anything that goes wrong
    with the response (a body that is not JSON, a status that is not
    accepted) is raised as a [ValueError] whose text starts with
    "Failed to process response: ". *)
Theorem run_rhino_compute_raises
    (definition_path : string) (parameters : list pyval)
    (compute_url : string) (e : exn) :
  let url := rstrip_char "/" compute_url ++ "/grasshopper" in
  let payload := PyDict [("algo", PyNone);
                         ("pointer", PyStr definition_path);
                         ("values", PyList parameters)] in
  (http_post url payload = Raise e ->
   run_rhino_compute http_post definition_path parameters compute_url
   = Raise e)
  /\ (run_rhino_compute http_post definition_path parameters compute_url
      = Raise e ->
      http_post url payload = Raise e
      \/ (exn_cls e = EValueError
          /\ prefix "Failed to process response: " (exn_msg e) = true)).
Proof.
  intros url payload. unfold run_rhino_compute. fold url. fold payload.
  split.
  - intros H. rewrite H. reflexivity.
  - destruct (http_post url payload) as [r | e0]; cbn [bind].
    + intros H. right. exact (process_response_raises r e H).
    + intros H. left. injection H as <-. reflexivity.
Qed.

End ComputeMoreProperties.

(** ** The tools of the server that run a definition *)

Section ToolProperties.

Import compute_helpers.

Variable http_post : string -> pyval -> result response.
Variable json_dumps : pyval -> string.
Variable py_str : pyval -> string.
Variable json_loads : string -> result pyval.
Variable Decode : pyval -> result pyval.
Variable gh_evaluate : string -> list pyval -> result pyval.
Variable data_tree : string -> list Z -> list pyval -> pyval.

Abbreviation run_grasshopper_definition :=
  (server.run_grasshopper_definition http_post json_dumps).
Abbreviation run_simple_grasshopper_math :=
  (server.run_simple_grasshopper_math py_str json_loads Decode gh_evaluate
     data_tree).

(** X5.  What [run_grasshopper_definition] answers for a response of the
    compute server: with status 200 and a JSON body, the success text with
    the body; with a status other than 200 and 500 and a JSON body, the text
    "Error: Failed to process response: Rhino.Compute returned status",
    the status, a colon and the raw body; with a body that is not JSON,
    "Error: Failed to process response: " and the text of the JSON error,
    whatever the status. *)
Theorem run_grasshopper_definition_answers
    (definition_path : string) (parameters : list pyval)
    (compute_url : string) (r : response) :
  http_post (rstrip_char "/" compute_url ++ "/grasshopper")
    (PyDict [("algo", PyNone);
             ("pointer", PyStr definition_path);
             ("values", PyList parameters)])
  = Ok r ->
  let answer :=
    run_grasshopper_definition definition_path parameters compute_url in
  (forall j, status_code r = 200 -> json r = Ok j ->
     answer
     = "Grasshopper definition executed successfully. Result: "
       ++ json_dumps j)
  /\ (forall j, status_code r <> 200 -> status_code r <> 500 ->
        json r = Ok j ->
        answer
        = "Error: Failed to process response: Rhino.Compute returned status "
          ++ str_of_Z (status_code r) ++ ": " ++ text r)
  /\ (forall e, json r = Raise e ->
        answer = "Error: Failed to process response: " ++ exn_msg e).
Proof.
  intros Hpost answer.
  assert (Ha : answer
               = match process_response r with
                 | Ok result =>
                     "Grasshopper definition executed successfully. Result: "
                     ++ json_dumps result
                 | Raise e => "Error: " ++ exn_msg e
                 end).
  { unfold answer, server.run_grasshopper_definition, run_rhino_compute.
    rewrite Hpost. reflexivity. }
  rewrite Ha. unfold process_response, read_response.
  repeat split.
  - intros j Hs Hj. rewrite Hj, Hs. reflexivity.
  - intros j H200 H500 Hj. rewrite Hj. cbn [bind].
    apply Z.eqb_neq in H200. apply Z.eqb_neq in H500.
    rewrite H500. cbn [bind]. rewrite H200. reflexivity.
  - intros e He. rewrite He. reflexivity.
Qed.

(** The decoding of a response whose first entry is an object with the
    branch map [tree]. *)
Lemma decode_gh_output_branch
    (d : list (string * pyval)) (first : pyval) (rest : list pyval)
    (tree : list (string * pyval)) (tree_path : string) :
  lookup "values" d = Some (PyList (first :: rest)) ->
  getitem_str first "InnerTree" = Ok (PyDict tree) ->
  compute_rhino3dm_helpers.decode_gh_output json_loads Decode (PyDict d)
    tree_path
  = (branch <- getitem_str (PyDict tree) tree_path ;;
     items <- iterate branch ;;
     compute_rhino3dm_helpers.decode_items json_loads Decode items).
Proof.
  intros Hv Hf. unfold compute_rhino3dm_helpers.decode_gh_output.
  rewrite (getitem_str_found _ _ _ Hv).
  cbn [bind getitem_0 hd_error of_option]. rewrite Hf. reflexivity.
Qed.

(** X6.  [run_simple_grasshopper_math] reports the first decoded leaf of
    the branch [{0;0}] of the first entry of the evaluation's output.  When
    that branch is empty the answer is "Error: list index out of range", and
    when the first entry has no such branch it is "Error: '{0;0}'", whatever
    the other entries hold. *)
Theorem run_simple_grasshopper_math_answers
    (param_a param_b : Z) (d : list (string * pyval)) (first : pyval)
    (rest : list pyval) (tree : list (string * pyval)) :
  gh_evaluate "c:/Users/jszychowska/Desktop/compute/add.gh"
    [data_tree "a" [0] [PyInt param_a]; data_tree "b" [0] [PyInt param_b]]
  = Ok (PyDict d) ->
  lookup "values" d = Some (PyList (first :: rest)) ->
  getitem_str first "InnerTree" = Ok (PyDict tree) ->
  let answer := run_simple_grasshopper_math param_a param_b in
  (forall leaf leaves x xs,
     lookup "{0;0}" tree = Some (PyList (leaf :: leaves)) ->
     Forall2 (fun item v => getitem_str item "data" = Ok v)
       (leaf :: leaves) (x :: xs) ->
     answer
     = "Grasshopper definition executed successfully. Result: "
       ++ server.to_str py_str
            (compute_rhino3dm_helpers.decode_item json_loads Decode x))
  /\ (lookup "{0;0}" tree = Some (PyList []) ->
      answer = "Error: list index out of range")
  /\ (lookup "{0;0}" tree = None -> answer = "Error: '{0;0}'").
Proof.
  intros Hev Hv Hf answer.
  unfold answer, server.run_simple_grasshopper_math, server.add_parameter.
  cbv zeta. rewrite Hev. cbn [bind].
  rewrite (decode_gh_output_branch d first rest tree _ Hv Hf).
  unfold compute_rhino3dm_helpers.default_tree_path.
  repeat split.
  - intros leaf leaves x xs Hb Hd.
    rewrite (getitem_str_found _ _ _ Hb). cbn [bind iterate].
    rewrite (decode_items_ok json_loads Decode _ _ Hd). reflexivity.
  - intros Hb. rewrite (getitem_str_found _ _ _ Hb). reflexivity.
  - intros Hb. rewrite (getitem_str_missing _ _ Hb). reflexivity.
Qed.

End ToolProperties.

Lemma run_grasshopper_definition_answers_witness :
  let post := fun (_ : string) (_ : pyval) =>
                Ok (compute_helpers.mkResponse 404 (Ok (PyDict [])) "Not Found") in
  server.run_grasshopper_definition post (fun _ => "{}") "twisty.gh" []
    "http://localhost:6001"
  = "Error: Failed to process response: Rhino.Compute returned status 404: Not Found".
Proof.
  intros post.
  destruct (run_grasshopper_definition_answers post (fun _ => "{}")
              "twisty.gh" [] "http://localhost:6001"
              (compute_helpers.mkResponse 404 (Ok (PyDict [])) "Not Found")
              eq_refl)
    as [_ [H _]].
  apply (H (PyDict [])); [ discriminate | discriminate | reflexivity ].
Defined.

Lemma run_simple_grasshopper_math_answers_witness :
  let evaluate := fun (_ : string) (_ : list pyval) =>
    Ok (PyDict [("values",
                 PyList [PyDict [("ParamName", PyStr "RH_OUT:result");
                                 ("InnerTree",
                                  PyDict [("{0;0}", PyList [])])]])]) in
  server.run_simple_grasshopper_math (fun _ => "") sample_json_loads
    sample_Decode evaluate (fun _ _ _ => PyNone) 2 3
  = "Error: list index out of range".
Proof.
  intros evaluate.
  destruct (run_simple_grasshopper_math_answers (fun _ => "")
              sample_json_loads sample_Decode evaluate (fun _ _ _ => PyNone)
              2 3
              [("values",
                PyList [PyDict [("ParamName", PyStr "RH_OUT:result");
                                ("InnerTree",
                                 PyDict [("{0;0}", PyList [])])]])]
              (PyDict [("ParamName", PyStr "RH_OUT:result");
                       ("InnerTree", PyDict [("{0;0}", PyList [])])])
              [] [("{0;0}", PyList [])] eq_refl eq_refl eq_refl)
    as [_ [H _]].
  apply H. reflexivity.
Defined.

(** ** The reader of the context model *)

Section ParseProperties.

Import context_gen_helpers.

Variable b64decode : string -> result string.

Abbreviation parse_result := (parse_result b64decode).

(** Entries that do not pass the tests of the loop are passed over. *)
Lemma find_3dm_skip (skipped rest : list pyval) :
  Forall (fun d => entry_matches d = Ok false) skipped ->
  find_3dm (skipped ++ rest)%list = find_3dm rest.
Proof.
  induction 1 as [ | d skipped Hd _ IH]; [ reflexivity | ].
  cbn [app find_3dm]. rewrite Hd. exact IH.
Qed.

(** An entry with another name, an entry without the branch [{0;0;0}] and
    an entry whose branch [{0;0;0}] is empty do not pass the tests. *)
Lemma entry_matches_false (e tree : list (string * pyval)) (name : string) :
  lookup "ParamName" e = Some (PyStr name) ->
  lookup "InnerTree" e = Some (PyDict tree) ->
  String.eqb name output_key = false
  \/ lookup output_path tree = None
  \/ lookup output_path tree = Some (PyList []) ->
  entry_matches (PyDict e) = Ok false.
Proof.
  intros Hn Ht Hcase. unfold entry_matches.
  rewrite (getitem_str_found _ _ _ Hn). cbn [bind eq_str].
  destruct (String.eqb name output_key) eqn:Hname; [ | reflexivity ].
  rewrite (getitem_str_found _ _ _ Ht). cbn [bind in_str].
  destruct Hcase as [H | [H | H]].
  - discriminate H.
  - rewrite H. reflexivity.
  - rewrite H. cbn [bind]. rewrite (getitem_str_found _ _ _ H). reflexivity.
Qed.

(** X7.  [parse_result] takes the data of the first entry of ['values']
    that is named [RH_OUT:context_model_3dm] and has a non-empty branch
    [{0;0;0}]: the entries before it that fail these tests are passed over
    and the entries after it are not looked at.  When the data is a text the
    result is its base64 decoding, and a failure of the decoding is raised
    as a [ValueError] that starts with "Error parsing Rhino.Compute
    result: ". *)
Theorem parse_result_first_match
    (d : list (string * pyval)) (skipped : list pyval) (hit : pyval)
    (rest : list pyval) (s : string) :
  lookup "values" d = Some (PyList (skipped ++ hit :: rest)%list) ->
  Forall (fun entry => entry_matches entry = Ok false) skipped ->
  entry_matches hit = Ok true ->
  entry_data hit = Ok (PyStr s) ->
  parse_result (PyDict d)
  = match b64decode s with
    | Ok bytes => Ok (Decoded bytes)
    | Raise e =>
        raise EValueError ("Error parsing Rhino.Compute result: " ++ exn_msg e)
    end.
Proof.
  intros Hv Hskip Hhit Hdata.
  unfold context_gen_helpers.parse_result, parse_body.
  rewrite (getitem_str_found _ _ _ Hv). cbn [bind iterate].
  rewrite (find_3dm_skip skipped (hit :: rest) Hskip).
  cbn [find_3dm]. rewrite Hhit. cbn [bind]. rewrite Hdata.
  cbn [bind is_none].
  destruct (b64decode s); reflexivity.
Qed.

(** X8.  Every exception of [parse_result] is a [ValueError] whose text
    starts with "Error parsing Rhino.Compute result: ".  When no entry of
    ['values'] passes the tests, the text goes on with "No parameter with
    name 'RH_OUT:context_model_3dm' found in response"; when the response
    has no ['values'], with the text of the [KeyError]. *)
Theorem parse_result_errors (result : pyval) :
  (forall e, parse_result result = Raise e ->
     exn_cls e = EValueError
     /\ prefix "Error parsing Rhino.Compute result: " (exn_msg e) = true)
  /\ (forall d entries,
        result = PyDict d ->
        lookup "values" d = Some (PyList entries) ->
        Forall (fun entry => entry_matches entry = Ok false) entries ->
        parse_result result
        = raise EValueError
            ("Error parsing Rhino.Compute result: No parameter with name "
             ++ "'RH_OUT:context_model_3dm' found in response"))
  /\ (forall d,
        result = PyDict d ->
        lookup "values" d = None ->
        parse_result result
        = raise EValueError "Error parsing Rhino.Compute result: 'values'").
Proof.
  repeat split.
  - unfold context_gen_helpers.parse_result in H.
    destruct (parse_body b64decode result); [ discriminate | ].
    injection H as <-. reflexivity.
  - unfold context_gen_helpers.parse_result in H.
    destruct (parse_body b64decode result) as [b | e0]; [ discriminate | ].
    injection H as <-.
    exact (prefix_app "Error parsing Rhino.Compute result: " (exn_msg e0)).
  - intros d entries -> Hv Hnone.
    unfold context_gen_helpers.parse_result, parse_body.
    rewrite (getitem_str_found _ _ _ Hv). cbn [bind iterate].
    rewrite <- (app_nil_r entries).
    rewrite (find_3dm_skip entries [] Hnone). reflexivity.
  - intros d -> Hv.
    unfold context_gen_helpers.parse_result, parse_body.
    rewrite (getitem_str_missing _ _ Hv). reflexivity.
Qed.

End ParseProperties.

Lemma parse_result_first_match_witness :
  let leaf := PyDict [("type", PyStr "System.String"); ("data", PyStr "M2RtIGRhdGE=")] in
  let other := PyDict [("ParamName", PyStr "RH_OUT:log");
                       ("InnerTree", PyDict [("{0;0;0}", PyList [leaf])])] in
  let hit := PyDict [("ParamName", PyStr "RH_OUT:context_model_3dm");
                     ("InnerTree", PyDict [("{0;0;0}", PyList [leaf])])] in
  context_gen_helpers.parse_result (fun s => Ok s)
    (PyDict [("values", PyList [other; hit; other])])
  = Ok (context_gen_helpers.Decoded "M2RtIGRhdGE=").
Proof.
  intros leaf other hit.
  refine (parse_result_first_match (fun s => Ok s)
            [("values", PyList [other; hit; other])] [other] hit [other]
            "M2RtIGRhdGE=" eq_refl _ eq_refl eq_refl).
  constructor; [ reflexivity | constructor ].
Defined.

(** ** The context generator *)

Section ContextProperties.

Import location_helpers.

Variable nominatim : world -> string -> result pyval.
Variable math_cos : float -> result float.
Variable float_repr : float -> string.
Variable http_post : string -> pyval -> result compute_helpers.response.
Variable py_str : pyval -> string.
Variable b64decode : string -> result string.
Variable home : string.
Variable path_join : string -> string -> string.
Variable write_binary :
  string -> context_gen_helpers.byte_array -> result unit.

Abbreviation run_context_generator :=
  (server.run_context_generator nominatim math_cos float_repr http_post
     py_str b64decode home path_join write_binary).
Abbreviation save_context :=
  (server.save_context b64decode home path_join write_binary).
Abbreviation location_to_coordinates' :=
  (location_to_coordinates nominatim math_cos float_repr).

(** The parameter [run_context_generator] sends for the text [url]. *)
Lemma osm_parameter (url : string) :
  compute_helpers.format_parameter py_str "osmURL" (PyStr url)
  = Ok (PyDict
          [("ParamName", PyStr "osmURL");
           ("InnerTree",
            PyDict [("{0}", PyList [PyDict [("type", PyStr "System.String");
                                            ("data", PyStr url)]])])]).
Proof. reflexivity. Qed.

Lemma save_context_cases (location : string) (response : pyval) :
  (exists bytes,
     context_gen_helpers.parse_result b64decode response = Ok bytes
     /\ write_binary
          (path_join (path_join home "Downloads") "context_model.3dm") bytes
        = Ok tt
     /\ save_context location response
        = PyDict [("success", PyBool true);
                  ("download_path", PyStr (path_join home "Downloads"));
                  ("location", PyStr location)])
  \/ ((forall bytes,
         context_gen_helpers.parse_result b64decode response = Ok bytes ->
         write_binary
           (path_join (path_join home "Downloads") "context_model.3dm") bytes
         <> Ok tt)
      /\ exists text, save_context location response = server.failure text).
Proof.
  unfold server.save_context.
  destruct (context_gen_helpers.parse_result b64decode response)
    as [bytes | e] eqn:Hp; cbn [bind].
  - destruct (write_binary _ bytes) as [[] | e] eqn:Hw; cbn [bind].
    + left. exists bytes. auto.
    + right. split; [ | eauto ].
      intros b Hb. injection Hb as <-. rewrite Hw. discriminate.
  - right. split; [ intros b Hb; discriminate Hb | eauto ].
Qed.

(** X9.  [run_context_generator] answers with ["success": True] exactly
    when the compute call made with the text of [location_to_coordinates] as
    [osmURL] returns a response that contains "values", [parse_result]
    reads the model out of it and the file [context_model.3dm] is written to
    the Downloads folder; the answer then names that folder and the
    location.  In every other case the answer is ["success": False] with an
    error text. *)
Theorem run_context_generator_success
    (location compute_url : string) (size : float) (w : world) :
  let answer := fst (run_context_generator location compute_url size w) in
  let parameter :=
    PyDict
      [("ParamName", PyStr "osmURL");
       ("InnerTree",
        PyDict [("{0}",
                 PyList [PyDict [("type", PyStr "System.String");
                                 ("data",
                                  PyStr (fst (location_to_coordinates'
                                                location size w)))]])])] in
  let written :=
    exists response bytes,
      compute_helpers.run_rhino_compute http_post
        server.context_definition_path [parameter] compute_url
      = Ok response
      /\ in_str "values" response = Ok true
      /\ context_gen_helpers.parse_result b64decode response = Ok bytes
      /\ write_binary
           (path_join (path_join home "Downloads") "context_model.3dm") bytes
         = Ok tt in
  (written ->
   answer = PyDict [("success", PyBool true);
                    ("download_path", PyStr (path_join home "Downloads"));
                    ("location", PyStr location)])
  /\ (~ written -> exists text, answer = server.failure text)
  /\ snd (run_context_generator location compute_url size w)
     = snd (location_to_coordinates' location size w).
Proof.
  intros answer parameter written.
  unfold answer, server.run_context_generator.
  destruct (location_to_coordinates' location size w) as [url w'] eqn:Hl.
  cbn [fst snd] in *. unfold server.generate_context.
  rewrite osm_parameter. cbn [bind]. fold parameter.
  destruct (compute_helpers.run_rhino_compute http_post
              server.context_definition_path [parameter] compute_url)
    as [response | e] eqn:Hr; cbn [bind].
  - destruct (in_str "values" response) as [[ | ] | e] eqn:Hin; cbn [bind fst snd].
    + destruct (save_context_cases location response)
        as [[bytes [Hp [Hw Hs]]] | [Hno [text Hs]]].
      * repeat split.
        -- intros _. exact Hs.
        -- intros Hnot. exfalso. apply Hnot. exists response, bytes. auto.
      * repeat split.
        -- intros [response' [bytes [Hr' [_ [Hp Hw]]]]].
           injection Hr' as <-. exfalso. exact (Hno bytes Hp Hw).
        -- intros _. exists text. exact Hs.
    + repeat split.
      * intros [response' [bytes [Hr' [Hin' _]]]].
        injection Hr' as <-. rewrite Hin in Hin'. discriminate Hin'.
      * intros _. eauto.
    + repeat split.
      * intros [response' [bytes [Hr' [Hin' _]]]].
        injection Hr' as <-. rewrite Hin in Hin'. discriminate Hin'.
      * intros _. eauto.
  - cbn [fst snd]. repeat split.
    + intros [response' [bytes [Hr' _]]]. discriminate Hr'.
    + intros _. eauto.
Qed.

(** X10.  A location that the geocoder does not find (the first request has
    no candidate and, for a text that looks like an intersection, the retry
    has none either) does not stop the context generator: the compute call
    is still made, with the text "Error: Location '...' not found" sent as
    the value of [osmURL], and the answer is decided by the response to that
    call alone. *)
Theorem run_context_generator_location_not_found
    (location compute_url : string) (size : float) (w : world)
    (first : pyval) :
  is_coordinates location = false ->
  nominatim w location = Ok first ->
  truthy first = false ->
  (is_potential_intersection location = true ->
   exists second,
     nominatim (w ++ [location])%list (alternate_query location) = Ok second
     /\ truthy second = false) ->
  let parameter :=
    PyDict
      [("ParamName", PyStr "osmURL");
       ("InnerTree",
        PyDict [("{0}",
                 PyList [PyDict [("type", PyStr "System.String");
                                 ("data",
                                  PyStr ("Error: Location '" ++ location
                                         ++ "' not found"))]])])] in
  fst (run_context_generator location compute_url size w)
  = match compute_helpers.run_rhino_compute http_post
            server.context_definition_path [parameter] compute_url with
    | Ok response =>
        match in_str "values" response with
        | Ok true => save_context location response
        | Ok false =>
            server.failure "No values found in Rhino.Compute response"
        | Raise e => server.failure ("Error: " ++ exn_msg e)
        end
    | Raise e => server.failure ("Error: " ++ exn_msg e)
    end.
Proof.
  intros Hc Hfirst Hempty Hretry parameter.
  assert (Hparse : parse_direct_coordinates location = (false, None, None)).
  { unfold is_coordinates in Hc.
    destruct (parse_direct_coordinates_cases location) as [[lat [lon Hp]] | Hp];
      [ rewrite Hp in Hc; discriminate | exact Hp ]. }
  assert (Hl : exists w',
             location_to_coordinates' location size w
             = ("Error: Location '" ++ location ++ "' not found", w')).
  { unfold location_to_coordinates.
    rewrite (resolve_geocode nominatim math_cos float_repr location size w
               Hparse).
    rewrite Hfirst, Hempty. cbn [negb andb].
    destruct (is_potential_intersection location) eqn:Hflag.
    - destruct (Hretry eq_refl) as [second [Hsecond Hnone]].
      rewrite Hsecond. unfold conclude. rewrite Hnone.
      eexists. reflexivity.
    - unfold conclude. rewrite Hempty. eexists. reflexivity. }
  destruct Hl as [w' Hl].
  unfold server.run_context_generator. rewrite Hl.
  unfold server.generate_context. rewrite osm_parameter. cbn [bind].
  fold parameter.
  destruct (compute_helpers.run_rhino_compute http_post
              server.context_definition_path [parameter] compute_url)
    as [response | e]; cbn [bind]; [ | reflexivity ].
  destruct (in_str "values" response) as [[ | ] | e]; reflexivity.
Qed.

End ContextProperties.

Lemma run_context_generator_location_not_found_witness :
  let leaf := PyDict [("type", PyStr "System.String"); ("data", PyStr "M2Rt")] in
  let response :=
    PyDict [("values",
             PyList [PyDict [("ParamName", PyStr "RH_OUT:context_model_3dm");
                             ("InnerTree",
                              PyDict [("{0;0;0}", PyList [leaf])])]])] in
  let post := fun (_ : string) (_ : pyval) =>
                Ok (compute_helpers.mkResponse 200 (Ok response) "") in
  fst (server.run_context_generator sample_nominatim libm_cos sample_repr
         post (fun _ => "") (fun s => Ok s) "/home/user"
         (fun a b => a ++ "/" ++ b) (fun _ _ => Ok tt)
         "Lost St and Found Ave" "http://localhost:6001" 100%float [])
  = PyDict [("success", PyBool true);
            ("download_path", PyStr "/home/user/Downloads");
            ("location", PyStr "Lost St and Found Ave")].
Proof.
  intros leaf response post.
  rewrite (run_context_generator_location_not_found sample_nominatim libm_cos
             sample_repr post (fun _ => "") (fun s => Ok s) "/home/user"
             (fun a b => a ++ "/" ++ b) (fun _ _ => Ok tt)
             "Lost St and Found Ave" "http://localhost:6001" 100%float []
             (PyList []) eq_refl eq_refl eq_refl
             (fun _ => ex_intro _ (PyList []) (conj eq_refl eq_refl))).
  reflexivity.
Defined.

(** ** The geocoding requests of one call *)

(** *** Lower-casing keeps plain ASCII text in place *)

Lemma trail_conts (n : nat) (s : string) : conts (List.length (trail n s)) s.
Proof.
  revert s. induction n as [ | n IH]; intros s.
  - destruct s; exact I.
  - destruct s as [ | c r]; [ exact I | ].
    cbn [trail]. destruct (is_cont c) eqn:Hc; [ | exact I ].
    cbn [List.length conts]. split; [ exact Hc | apply IH ].
Qed.

Lemma conts_le (m n : nat) (s : string) : (m <= n)%nat -> conts n s -> conts m s.
Proof.
  revert n s. induction m as [ | m IH]; intros n s Hle H; [ exact I | ].
  destruct n as [ | n]; [ lia | ].
  destruct s as [ | c r]; [ exact H | ].
  cbn [conts] in *. destruct H as [Hc H]. split; [ exact Hc | ].
  apply (IH n); [ lia | exact H ].
Qed.

(** The bytes a sequence takes after its first one are continuation
    bytes. *)
Lemma next_conts (c : ascii) (r : string) :
  conts (Nat.pred (snd (next (String c r)))) r.
Proof.
  pose proof (trail_conts 3 r) as Ht. unfold next.
  destruct (byte c <? 128); [ exact I | ].
  destruct ((194 <=? byte c) && (byte c <? 224))%bool.
  { destruct (trail 3 r) as [ | t1 l]; [ exact I | ].
    apply (conts_le 1 _ r) in Ht; [ exact Ht | cbn; lia ]. }
  destruct ((224 <=? byte c) && (byte c <? 240))%bool.
  { destruct (trail 3 r) as [ | t1 [ | t2 l]]; try exact I.
    cbv zeta. destruct (_ && _)%bool; [ | exact I ].
    apply (conts_le 2 _ r) in Ht; [ exact Ht | cbn; lia ]. }
  destruct ((240 <=? byte c) && (byte c <? 245))%bool; [ | exact I ].
  destruct (trail 3 r) as [ | t1 [ | t2 [ | t3 l]]]; try exact I.
  cbv zeta. destruct (_ && _)%bool; [ | exact I ].
  apply (conts_le 3 _ r) in Ht; [ exact Ht | cbn; lia ].
Qed.

Lemma trail_app (n : nat) (a : string) (c : ascii) (r : string) :
  is_cont c = false -> trail n (a ++ String c r) = trail n a.
Proof.
  intros Hc. revert a. induction n as [ | n IH]; intros a.
  - destruct a; reflexivity.
  - destruct a as [ | x a]; cbn [append trail].
    + rewrite Hc. reflexivity.
    + rewrite IH. reflexivity.
Qed.

Lemma next_app (x : ascii) (a : string) (c : ascii) (r : string) :
  is_cont c = false ->
  next (String x (a ++ String c r)) = next (String x a).
Proof. intros Hc. unfold next. rewrite (trail_app 3 a c r Hc). reflexivity. Qed.

(** Reading the code points of a text does not look past a byte that is no
    continuation byte. *)
Lemma code_points_from_app (a : string) (c : ascii) (r : string) (skip : nat) :
  is_cont c = false -> conts skip a ->
  code_points_from skip (a ++ String c r)
  = (code_points_from skip a ++ code_points (String c r))%list.
Proof.
  intros Hc. revert skip. induction a as [ | x a IH]; intros skip Hs.
  - destruct skip as [ | k]; [ reflexivity | contradiction ].
  - cbn [append code_points_from]. destruct skip as [ | k].
    + rewrite (next_app x a c r Hc). cbn [app]. f_equal.
      apply IH, next_conts.
    + apply IH. exact (proj2 Hs).
Qed.

Lemma ascii_not_cont (c : ascii) : (byte c <? 128) = true -> is_cont c = false.
Proof. intros H. unfold is_cont. apply Z.ltb_lt in H. destruct (128 <=? byte c) eqn:E; [ apply Z.leb_le in E; lia | reflexivity ]. Qed.

Lemma next_ascii (c : ascii) (r : string) :
  (byte c <? 128) = true -> next (String c r) = (byte c, 1%nat).
Proof. intros H. unfold next. rewrite H. reflexivity. Qed.

Lemma code_points_plain (k b : string) :
  plain k -> code_points (k ++ b) = (bytes k ++ code_points b)%list.
Proof.
  unfold code_points. induction k as [ | c k IH]; intros Hk; [ reflexivity | ].
  destruct Hk as [[Hc _] Hk].
  cbn [append code_points_from bytes app]. rewrite (next_ascii c _ Hc).
  cbn [fst snd Nat.pred]. f_equal. exact (IH Hk).
Qed.

Lemma lower_cps_app (l1 l2 : list Z) (st : bool) :
  exists X st', lower_cps st (l1 ++ l2)%list = (X ++ lower_cps st' l2)%list.
Proof.
  revert st. induction l1 as [ | cp l1 IH]; intros st.
  - exists [], st. reflexivity.
  - cbn [app lower_cps].
    destruct (IH (if case_ignorable cp then st else cased cp)) as [X [st' H]].
    rewrite H. eexists. exists st'. rewrite app_assoc. reflexivity.
Qed.

Lemma byte_bound (c : ascii) : 0 <= byte c < 256.
Proof.
  unfold byte. pose proof (N_ascii_bounded c) as H. lia.
Qed.

Lemma lower_cps_plain (k : string) (l : list Z) (st : bool) :
  plain k ->
  exists st', lower_cps st (bytes k ++ l)%list = (bytes k ++ lower_cps st' l)%list.
Proof.
  revert st. induction k as [ | c k IH]; intros st Hk.
  - exists st. reflexivity.
  - destruct Hk as [[Hc Hl] Hk]. cbn [bytes app lower_cps].
    assert (Hs : (byte c =? 0x3A3) = false).
    { apply Z.ltb_lt in Hc. apply Z.eqb_neq. lia. }
    rewrite Hs, Hl.
    destruct (IH (if case_ignorable (byte c) then st else cased (byte c)) Hk)
      as [st' H].
    rewrite H. exists st'. reflexivity.
Qed.

Lemma encode_app (l1 l2 : list Z) : encode (l1 ++ l2) = encode l1 ++ encode l2.
Proof.
  induction l1 as [ | cp l1 IH]; [ reflexivity | ].
  cbn [app encode]. rewrite IH.
  generalize (encode_cp cp) as s. intros s.
  induction s as [ | c s IHs]; [ reflexivity | ].
  cbn [append]. rewrite IHs. reflexivity.
Qed.

Lemma encode_plain (k : string) : plain k -> encode (bytes k) = k.
Proof.
  induction k as [ | c k IH]; intros Hk; [ reflexivity | ].
  destruct Hk as [[Hc _] Hk]. cbn [bytes encode]. rewrite (IH Hk).
  unfold encode_cp. pose proof (byte_bound c) as Hb.
  destruct (byte c <? 0) eqn:E0; [ apply Z.ltb_lt in E0; lia | ].
  change 0x80 with 128. rewrite Hc. cbn [append].
  unfold char_of, byte. rewrite N2Z.id, ascii_N_embedding. reflexivity.
Qed.

Lemma prefix_split (k s : string) :
  prefix k s = true -> exists b, s = k ++ b.
Proof.
  revert s. induction k as [ | c k IH]; intros s H.
  - exists s. reflexivity.
  - destruct s as [ | x s]; [ discriminate H | ].
    cbn [prefix] in H. destruct (ascii_dec c x) as [-> | ]; [ | discriminate H ].
    destruct (IH s H) as [b ->]. exists b. reflexivity.
Qed.

Lemma contains_split (k s : string) :
  contains k s = true -> exists a b, s = a ++ k ++ b.
Proof.
  induction s as [ | x s IH]; intros H.
  - destruct (prefix_split k EmptyString H) as [b Hb].
    exists EmptyString, b. exact Hb.
  - change (contains k (String x s))
      with (prefix k (String x s) || contains k s)%bool in H.
    destruct (prefix k (String x s)) eqn:Hp.
    + destruct (prefix_split _ _ Hp) as [b Hb].
      exists EmptyString, b. exact Hb.
    + destruct (IH H) as [a [b ->]]. exists (String x a), b. reflexivity.
Qed.

(** Lower-casing a text leaves the plain ASCII texts it contains where they
    are. *)
Lemma contains_lower (k s : string) :
  plain k -> contains k s = true -> contains k (lower s) = true.
Proof.
  intros Hk H. destruct (contains_split k s H) as [a [b ->]].
  unfold lower, code_points.
  destruct k as [ | c k'] eqn:Ek.
  - destruct (encode _); reflexivity.
  - rewrite <- Ek in *. 
    assert (Hc : is_cont c = false).
    { apply ascii_not_cont. rewrite Ek in Hk. exact (proj1 (proj1 Hk)). }
    assert (Hsplit : code_points_from 0 (a ++ k ++ b)
                     = (code_points_from 0 a ++ bytes k ++ code_points b)%list).
    { rewrite Ek at 1. cbn [append].
      rewrite (code_points_from_app a c (k' ++ b) 0 Hc I).
      change (String c (k' ++ b)) with (String c k' ++ b). rewrite <- Ek.
      rewrite (code_points_plain k b Hk). reflexivity. }
    rewrite Hsplit.
    destruct (lower_cps_app (code_points_from 0 a) (bytes k ++ code_points b)
                false) as [X [st H1]].
    destruct (lower_cps_plain k (code_points b) st Hk) as [st' H2].
    rewrite H1, H2, !encode_app, (encode_plain k Hk).
    apply contains_middle.
Qed.

(** A text that contains [old] contains [new] once [old] is replaced. *)
Lemma contains_replace (old new s : string) :
  old <> EmptyString ->
  contains old s = true -> contains new (replace old new s) = true.
Proof.
  intros Hold. unfold replace. induction s as [ | c s IH]; intros H.
  - destruct old; [ contradiction | discriminate H ].
  - cbn [replace_from].
    destruct (prefix old (String c s)) eqn:Hp.
    + apply contains_here.
    + change (contains old (String c s))
        with (prefix old (String c s) || contains old s)%bool in H.
      rewrite Hp in H. cbn [orb] in H.
      change (contains new (String c (replace_from old new s 0)))
        with (prefix new (String c (replace_from old new s 0))
              || contains new (replace_from old new s 0))%bool.
      rewrite (IH H). apply orb_true_r.
Qed.

Section RequestProperties.

Import location_helpers.

Variable nominatim : world -> string -> result pyval.
Variable math_cos : float -> result float.
Variable float_repr : float -> string.

Abbreviation location_to_coordinates_ :=
  (location_to_coordinates nominatim math_cos float_repr).

(** X11.  One call of [location_to_coordinates] sends at most two
    geocoding requests: none for coordinates, otherwise one for the text as
    it was given, followed by at most one for the alternate query, and that
    only for a text that looks like an intersection. *)
Theorem geocoding_requests (location : string) (size : float) (w : world) :
  let sent := snd (location_to_coordinates_ location size w) in
  (is_coordinates location = true /\ sent = w)
  \/ (is_coordinates location = false /\ sent = (w ++ [location])%list)
  \/ (is_coordinates location = false
      /\ is_potential_intersection location = true
      /\ sent = (w ++ [location; alternate_query location])%list).
Proof.
  intros sent. unfold sent.
  destruct (is_coordinates location) eqn:Hc.
  - left. split; [ reflexivity | ].
    exact (requests_direct nominatim math_cos float_repr location size w Hc).
  - right.
    assert (Hp : parse_direct_coordinates location = (false, None, None)).
    { unfold is_coordinates in Hc.
      destruct (parse_direct_coordinates_cases location)
        as [[lat [lon Hp]] | Hp];
        [ rewrite Hp in Hc; discriminate | exact Hp ]. }
    unfold location_to_coordinates.
    rewrite (resolve_geocode nominatim math_cos float_repr location size w Hp).
    destruct (nominatim w location) as [first | e];
      [ | left; split; reflexivity ].
    destruct (negb (truthy first)); cbn [andb].
    + destruct (is_potential_intersection location) eqn:Hflag.
      * right. split; [ reflexivity | split; [ reflexivity | ] ].
        rewrite <- app_assoc. cbn [app].
        destruct (nominatim (w ++ [location])%list (alternate_query location))
          as [second | e]; [ destruct (conclude _ _ _ _ _ second) | ];
          reflexivity.
      * left. split; [ reflexivity | ].
        destruct (conclude _ _ _ _ _ first); reflexivity.
    + left. split; [ reflexivity | ].
      destruct (conclude _ _ _ _ _ first); reflexivity.
Qed.

End RequestProperties.

(** X12.  The alternate query of a text that looks like an intersection
    looks like an intersection again: it holds " & " where the lower-cased
    text held " and ", " and " where it held " & " and no " and ", and it is
    the text itself otherwise. *)
Theorem alternate_query_is_intersection (location : string) :
  location_helpers.is_potential_intersection location = true ->
  location_helpers.is_potential_intersection
    (location_helpers.alternate_query location) = true.
Proof.
  intros Hflag. unfold location_helpers.alternate_query.
  destruct (contains " and " (lower location)) eqn:Hand.
  - unfold location_helpers.is_potential_intersection,
      location_helpers.intersection_keywords.
    cbn [existsb].
    rewrite (contains_lower " & " _ ltac:(repeat split)
               (contains_replace " and " " & " (lower location)
                  ltac:(discriminate) Hand)).
    apply orb_true_r.
  - destruct (contains " & " (lower location)) eqn:Hamp; [ | exact Hflag ].
    unfold location_helpers.is_potential_intersection,
      location_helpers.intersection_keywords.
    cbn [existsb].
    rewrite (contains_lower " and " _ ltac:(repeat split)
               (contains_replace " & " " and " (lower location)
                  ltac:(discriminate) Hamp)).
    reflexivity.
Qed.

Lemma alternate_query_is_intersection_witness :
  location_helpers.is_potential_intersection
    (location_helpers.alternate_query "Main St & 1st Ave, Springfield")
  = true.
Proof.
  apply alternate_query_is_intersection. vm_compute. reflexivity.
Defined.

(** ** The choice of a candidate *)

Lemma first_highway_candidates (items : list pyval) :
  Forall (fun item => candidate item = true) items ->
  location_helpers.first_highway items
  = Ok (match find is_highway items with
        | Some item => item
        | None => PyNone
        end).
Proof.
  induction 1 as [ | item items Hc _ IH]; [ reflexivity | ].
  destruct item as [ | | | | | | d | ]; try discriminate Hc.
  cbn [location_helpers.first_highway find is_highway in_str bind].
  cbn [candidate] in Hc.
  destruct (lookup "type" d) as [[ | | | | t | | | ] | ] eqn:Ht;
    try discriminate Hc.
  - rewrite (getitem_str_found _ _ _ Ht). cbn [bind lower_of].
    destruct (contains "highway" (lower t)); [ reflexivity | ].
    cbn [orb].
    destruct (lookup "class" d) as [c | ] eqn:Hclass.
    + rewrite (getitem_str_found _ _ _ Hclass). cbn [bind].
      destruct (eq_str c "highway"); [ reflexivity | exact IH ].
    + cbn [bind]. exact IH.
  - cbn [bind orb].
    destruct (lookup "class" d) as [c | ] eqn:Hclass.
    + rewrite (getitem_str_found _ _ _ Hclass). cbn [bind].
      destruct (eq_str c "highway"); [ reflexivity | exact IH ].
    + cbn [bind]. exact IH.
Qed.

(** The candidate preferred for an intersection. *)
Lemma select_best_candidates (first : pyval) (rest : list pyval) :
  Forall (fun item => candidate item = true) (first :: rest) ->
  location_helpers.select_best_geocoding_result (PyList (first :: rest)) false
  = Ok first
  /\ location_helpers.select_best_geocoding_result (PyList (first :: rest)) true
     = Ok (match find is_highway (first :: rest) with
           | Some item => item
           | None => first
           end).
Proof.
  intros Hall.
  assert (Hfirst : exists d, first = PyDict d).
  { inversion Hall as [ | x l Hc _ ]; subst.
    destruct first; try discriminate Hc. eauto. }
  destruct Hfirst as [d0 ->].
  split; [ reflexivity | ].
  unfold location_helpers.select_best_geocoding_result.
  cbn [truthy negb iterate bind].
  rewrite (first_highway_candidates _ Hall). cbn [bind].
  destruct (find is_highway (PyDict d0 :: rest)) as [item | ] eqn:Hfind;
    [ | reflexivity ].
  apply find_some in Hfind as [Hin Hh].
  destruct item as [ | | | | | | d | ]; try discriminate Hh.
  destruct d as [ | kv d]; [ discriminate Hh | reflexivity ].
Qed.

(** X13.  For a non-empty list of candidates,
    [select_best_geocoding_result] returns the first candidate when the text
    is no intersection; for an intersection it returns the first candidate
    whose type contains "highway" (in any case of letters) or whose class is
    "highway", and the first candidate of the list when there is none.  The
    result is always one of the candidates. *)
Theorem select_best_geocoding_result_choice
    (first : pyval) (rest : list pyval) :
  Forall (fun item => candidate item = true) (first :: rest) ->
  let data := PyList (first :: rest) in
  let preferred :=
    match find is_highway (first :: rest) with
    | Some item => item
    | None => first
    end in
  location_helpers.select_best_geocoding_result data false = Ok first
  /\ location_helpers.select_best_geocoding_result data true = Ok preferred
  /\ In preferred (first :: rest)
  /\ (is_highway preferred = true
      \/ forall item, In item (first :: rest) -> is_highway item = false).
Proof.
  intros Hall data preferred.
  destruct (select_best_candidates first rest Hall) as [Hplain Hflag].
  split; [ exact Hplain | ]. split; [ exact Hflag | ].
  unfold preferred.
  destruct (find is_highway (first :: rest)) as [item | ] eqn:Hfind.
  - apply find_some in Hfind as [Hin Hh]. split; [ exact Hin | left; exact Hh ].
  - split; [ left; reflexivity | right ].
    intros item Hin. exact (find_none _ _ Hfind item Hin).
Qed.

Lemma select_best_geocoding_result_choice_witness :
  let road := PyDict [("lat", PyStr "1"); ("lon", PyStr "2");
                      ("class", PyStr "highway");
                      ("type", PyStr "residential")] in
  let shop := PyDict [("lat", PyStr "3"); ("lon", PyStr "4");
                      ("class", PyStr "shop"); ("type", PyStr "bakery")] in
  location_helpers.select_best_geocoding_result (PyList [shop; road]) true
  = Ok road.
Proof.
  intros road shop.
  refine (proj1 (proj2 (select_best_geocoding_result_choice shop [road] _))).
  repeat constructor.
Defined.

Section ChoiceProperties.

Import location_helpers.

Variable nominatim : world -> string -> result pyval.
Variable math_cos : float -> result float.
Variable float_repr : float -> string.

(** X14.  When the first geocoding request returns a non-empty list of
    candidates, no second request is sent and the box is built around the
    coordinates of one candidate alone: the first of the list, or for a text
    that looks like an intersection the first highway candidate if there is
    one.  The other candidates have no influence on the result. *)
Theorem location_to_coordinates_uses_chosen_candidate
    (location : string) (size : float) (w : world)
    (first : pyval) (rest : list pyval) (d : list (string * pyval))
    (lat_text lon_text : string) (lat lon : float) :
  is_coordinates location = false ->
  nominatim w location = Ok (PyList (first :: rest)) ->
  Forall (fun item => candidate item = true) (first :: rest) ->
  (if is_potential_intersection location
   then match find is_highway (first :: rest) with
        | Some item => item
        | None => first
        end
   else first) = PyDict d ->
  lookup "lat" d = Some (PyStr lat_text) ->
  lookup "lon" d = Some (PyStr lon_text) ->
  float_of_str lat_text = Some lat ->
  float_of_str lon_text = Some lon ->
  location_to_coordinates nominatim math_cos float_repr location size w
  = (match finish math_cos float_repr (Some lat) (Some lon) size with
     | Ok url => url
     | Raise e => handler location e
     end,
     (w ++ [location])%list).
Proof.
  intros Hc Hfirst Hall Hchosen Hlat Hlon Hla Hlo.
  assert (Hp : parse_direct_coordinates location = (false, None, None)).
  { unfold is_coordinates in Hc.
    destruct (parse_direct_coordinates_cases location)
      as [[la [lo Hp]] | Hp];
      [ rewrite Hp in Hc; discriminate | exact Hp ]. }
  unfold location_to_coordinates.
  rewrite (resolve_geocode nominatim math_cos float_repr location size w Hp).
  rewrite Hfirst. cbn [truthy negb andb].
  unfold conclude. cbn [truthy negb].
  destruct (select_best_candidates first rest Hall)
    as [Hplain Hflag].
  assert (Hsel : select_best_geocoding_result (PyList (first :: rest))
                   (is_potential_intersection location) = Ok (PyDict d)).
  { destruct (is_potential_intersection location);
      [ rewrite Hflag | rewrite Hplain ]; rewrite Hchosen; reflexivity. }
  rewrite Hsel. cbn [bind].
  rewrite (getitem_str_found _ _ _ Hlat), (getitem_str_found _ _ _ Hlon).
  cbn [bind float_of]. rewrite Hla, Hlo. cbn [of_option bind].
  destruct (finish math_cos float_repr (Some lat) (Some lon) size);
    reflexivity.
Qed.

End ChoiceProperties.

Lemma location_to_coordinates_uses_chosen_candidate_witness :
  location_helpers.location_to_coordinates sample_nominatim libm_cos
    sample_repr "Null Island" 111320%float []
  = ("https://overpass-api.de/api/map?bbox=-1.0,-1.0,1.0,1.0",
     ["Null Island"]).
Proof.
  assert (Hall : Forall (fun item => candidate item = true)
                   [PyDict [("lat", PyStr "0"); ("lon", PyStr "0");
                            ("class", PyStr "place"); ("type", PyStr "islet");
                            ("display_name", PyStr "Null Island")]])
    by (repeat constructor).
  rewrite (location_to_coordinates_uses_chosen_candidate sample_nominatim
             libm_cos sample_repr "Null Island" 111320%float []
             (PyDict [("lat", PyStr "0"); ("lon", PyStr "0");
                      ("class", PyStr "place"); ("type", PyStr "islet");
                      ("display_name", PyStr "Null Island")])
             []
             [("lat", PyStr "0"); ("lon", PyStr "0");
              ("class", PyStr "place"); ("type", PyStr "islet");
              ("display_name", PyStr "Null Island")]
             "0" "0" 0%float 0%float
             eq_refl eq_refl Hall eq_refl eq_refl eq_refl eq_refl eq_refl).
  vm_compute. reflexivity.
Defined.

(** ** The exceptions of the pipeline *)

Lemma no_index_error_bind {A B : Type} (m : result A) (k : A -> result B) :
  no_index_error m ->
  (forall a, m = Ok a -> no_index_error (k a)) ->
  no_index_error (bind m k).
Proof.
  intros Hm Hk. destruct m as [a | e0]; cbn [bind].
  - apply Hk. reflexivity.
  - intros e H. injection H as <-. apply Hm. reflexivity.
Qed.

Lemma no_index_error_Ok {A : Type} (a : A) : no_index_error (Ok a).
Proof. intros e H. discriminate H. Qed.

Lemma no_index_error_Raise {A B : Type} (e : exn) :
  no_index_error (@Raise A e) -> no_index_error (@Raise B e).
Proof.
  intros H e0 H0. injection H0 as <-. exact (H e eq_refl).
Qed.

Ltac no_index_by_cases :=
  intros ? H;
  repeat match type of H with
         | context [match ?x with _ => _ end] => destruct x
         end;
  try discriminate H; injection H as <-; discriminate.

Lemma no_index_error_in_str (needle : string) (v : pyval) :
  no_index_error (in_str needle v).
Proof. unfold in_str. no_index_by_cases. Qed.

Lemma no_index_error_getitem_str (v : pyval) (k : string) :
  no_index_error (getitem_str v k).
Proof. unfold getitem_str, of_option. no_index_by_cases. Qed.

Lemma no_index_error_lower_of (v : pyval) : no_index_error (lower_of v).
Proof. unfold lower_of. no_index_by_cases. Qed.

Lemma no_index_error_iterate (v : pyval) : no_index_error (iterate v).
Proof. unfold iterate. no_index_by_cases. Qed.

Lemma no_index_error_float_of (v : pyval) : no_index_error (float_of v).
Proof. unfold float_of, of_option. no_index_by_cases. Qed.

Lemma no_index_error_has_get (v : pyval) :
  no_index_error (location_helpers.has_get v).
Proof. unfold location_helpers.has_get. no_index_by_cases. Qed.

(** [data[0]] for data that is true. *)
Lemma no_index_error_getitem_0 (v : pyval) :
  truthy v = true -> no_index_error (getitem_0 v).
Proof.
  intros Ht. destruct v as [ | | | | s | l | d | ]; cbn in *;
    try (intros e H; injection H as <-; discriminate).
  - destruct s; [ discriminate Ht | apply no_index_error_Ok ].
  - destruct l; [ discriminate Ht | apply no_index_error_Ok ].
Qed.

Lemma no_index_error_first_highway (items : list pyval) :
  no_index_error (location_helpers.first_highway items).
Proof.
  induction items as [ | item items IH]; [ apply no_index_error_Ok | ].
  cbn [location_helpers.first_highway].
  apply no_index_error_bind; [ apply no_index_error_in_str | ].
  intros has_type _. apply no_index_error_bind.
  { destruct has_type; [ | apply no_index_error_Ok ].
    apply no_index_error_bind; [ apply no_index_error_getitem_str | ].
    intros t _. apply no_index_error_bind; [ apply no_index_error_lower_of | ].
    intros l _. apply no_index_error_Ok. }
  intros by_type _. destruct by_type; [ apply no_index_error_Ok | ].
  apply no_index_error_bind; [ apply no_index_error_in_str | ].
  intros has_class _. apply no_index_error_bind.
  { destruct has_class; [ | apply no_index_error_Ok ].
    apply no_index_error_bind; [ apply no_index_error_getitem_str | ].
    intros c _. apply no_index_error_Ok. }
  intros by_class _. destruct by_class; [ apply no_index_error_Ok | exact IH ].
Qed.

Lemma no_index_error_select_best (data : pyval) (flag : bool) :
  no_index_error (location_helpers.select_best_geocoding_result data flag).
Proof.
  unfold location_helpers.select_best_geocoding_result.
  destruct (truthy data) eqn:Ht; cbn [negb].
  - apply no_index_error_bind.
    { destruct flag; [ | apply no_index_error_Ok ].
      apply no_index_error_bind; [ apply no_index_error_iterate | ].
      intros items _. apply no_index_error_first_highway. }
    intros selected _. apply no_index_error_bind.
    { destruct (negb (truthy selected));
        [ apply no_index_error_getitem_0; exact Ht | apply no_index_error_Ok ]. }
    intros chosen _. apply no_index_error_bind;
      [ apply no_index_error_has_get | ].
    intros _ _. apply no_index_error_Ok.
  - intros e H. injection H as <-. discriminate.
Qed.

Section ExceptionProperties.

Import location_helpers.

Variable nominatim : world -> string -> result pyval.
Variable math_cos : float -> result float.
Variable float_repr : float -> string.

Hypothesis nominatim_no_index_error :
  forall w q, no_index_error (nominatim w q).
Hypothesis math_cos_no_index_error : forall x, no_index_error (math_cos x).

Lemma no_index_error_finish (lat lon : option float) (size : float) :
  no_index_error (finish math_cos float_repr lat lon size).
Proof.
  unfold finish. destruct lat as [la | ]; [ | no_index_by_cases ].
  destruct lon as [lo | ]; [ | no_index_by_cases ].
  apply no_index_error_bind.
  - unfold calculate_bounding_box.
    apply no_index_error_bind; [ unfold IEEE, div, float_div; no_index_by_cases | ].
    intros lat_offset _. apply no_index_error_bind;
      [ apply math_cos_no_index_error | ].
    intros c _. apply no_index_error_bind;
      [ unfold IEEE, div, float_div; no_index_by_cases | ].
    intros lon_offset _. apply no_index_error_Ok.
  - intros bbox Hb. unfold calculate_bounding_box in Hb.
    apply bind_Ok_inv in Hb as [lat_offset [_ Hb]].
    apply bind_Ok_inv in Hb as [c [_ Hb]].
    apply bind_Ok_inv in Hb as [lon_offset [_ Hb]].
    injection Hb as <-. apply no_index_error_Ok.
Qed.

Lemma no_index_error_conclude (location : string) (size : float)
    (flag : bool) (results : pyval) :
  no_index_error (conclude math_cos float_repr location size flag results).
Proof.
  unfold conclude. destruct (negb (truthy results));
    [ apply no_index_error_Ok | ].
  apply no_index_error_bind; [ apply no_index_error_select_best | ].
  intros selected _. apply no_index_error_bind.
  { apply no_index_error_bind; [ apply no_index_error_getitem_str | ].
    intros v _. apply no_index_error_float_of. }
  intros la _. apply no_index_error_bind.
  { apply no_index_error_bind; [ apply no_index_error_getitem_str | ].
    intros v _. apply no_index_error_float_of. }
  intros lo _. apply no_index_error_finish.
Qed.

(** X15.  As long as the geocoder and the cosine raise no [IndexError]
    themselves, the [try] block of [location_to_coordinates] raises none:
    the clause [except IndexError] is never entered. *)
Theorem resolve_raises_no_index_error
    (location : string) (size : float) (w : world) :
  no_index_error (fst (resolve nominatim math_cos float_repr location size w)).
Proof.
  destruct (parse_direct_coordinates_cases location) as [[lat [lon Hp]] | Hp].
  - rewrite (resolve_direct nominatim math_cos float_repr location size w
               lat lon Hp).
    cbn [fst]. apply no_index_error_finish.
  - rewrite (resolve_geocode nominatim math_cos float_repr location size w Hp).
    pose proof (nominatim_no_index_error w location) as H1.
    destruct (nominatim w location) as [first | e];
      [ | exact (no_index_error_Raise e H1) ].
    destruct (negb (truthy first) && is_potential_intersection location)%bool.
    + pose proof (nominatim_no_index_error (w ++ [location])%list
                    (alternate_query location)) as H2.
      destruct (nominatim (w ++ [location])%list (alternate_query location))
        as [second | e]; [ | exact (no_index_error_Raise e H2) ].
      cbn [fst]. apply no_index_error_conclude.
    + cbn [fst]. apply no_index_error_conclude.
Qed.

End ExceptionProperties.

Lemma resolve_raises_no_index_error_witness :
  no_index_error
    (fst (location_helpers.resolve sample_nominatim libm_cos sample_repr
            "Far away" 100%float [])).
Proof.
  apply resolve_raises_no_index_error.
  - intros w q e. unfold sample_nominatim.
    destruct (String.eqb q "Null Island"); [ discriminate | ].
    destruct (String.eqb q "Broken"); [ discriminate | ].
    destruct (String.eqb q "Far away"); [ | discriminate ].
    intros H. injection H as <-. discriminate.
  - intros x e. unfold libm_cos.
    destruct (PrimFloat.eqb x 0); [ discriminate | ].
    destruct (PrimFloat.eqb x 0x1.0c152382d7365p+0); [ discriminate | ].
    intros H. injection H as <-. discriminate.
Defined.

(** ** The geometry of a model by layer *)

Section LayerProperties.

Import rhino_helpers.

Lemma find_layer_update (i j : Z) (f : layer_stats -> layer_stats)
    (d : layer_table) :
  find_layer i (update_layer j f d)
  = if i =? j then option_map f (find_layer i d) else find_layer i d.
Proof.
  induction d as [ | [k g] d IH].
  - cbn. destruct (i =? j); reflexivity.
  - cbn [update_layer]. destruct (j =? k) eqn:Hjk.
    + apply Z.eqb_eq in Hjk. subst k. cbn [find_layer].
      destruct (i =? j); reflexivity.
    + cbn [find_layer]. destruct (i =? k) eqn:Hik.
      * apply Z.eqb_eq in Hik. subst k.
        rewrite Z.eqb_sym in Hjk. rewrite Hjk. reflexivity.
      * exact IH.
Qed.

Lemma find_layer_app (i j : Z) (g : layer_stats) (d : layer_table) :
  find_layer i (d ++ [(j, g)])%list
  = match find_layer i d with
    | Some x => Some x
    | None => if i =? j then Some g else None
    end.
Proof.
  induction d as [ | [k h] d IH]; [ reflexivity | ].
  cbn [app find_layer]. destruct (i =? k); [ reflexivity | exact IH ].
Qed.

Lemma find_layer_None (i : Z) (d : layer_table) :
  find_layer i d = None -> ~ In i (map fst d).
Proof.
  induction d as [ | [k g] d IH]; intros H; [ intros [] | ].
  cbn [find_layer] in H. destruct (i =? k) eqn:Hik; [ discriminate | ].
  apply Z.eqb_neq in Hik. intros [Heq | Hin].
  - cbn in Heq. congruence.
  - exact (IH H Hin).
Qed.

Lemma keys_update (j : Z) (f : layer_stats -> layer_stats) (d : layer_table) :
  map fst (update_layer j f d) = map fst d.
Proof.
  induction d as [ | [k g] d IH]; [ reflexivity | ].
  cbn [update_layer]. destruct (j =? k); cbn [map fst];
    [ reflexivity | rewrite IH; reflexivity ].
Qed.

Lemma total_count_app (d : layer_table) (j : Z) (g : layer_stats) :
  total_count (d ++ [(j, g)])%list = total_count d + count g.
Proof.
  induction d as [ | [k h] d IH]; cbn [app total_count]; lia.
Qed.

Lemma total_count_update (j : Z) (f : layer_stats -> layer_stats)
    (d : layer_table) (g : layer_stats) :
  find_layer j d = Some g ->
  total_count (update_layer j f d) = total_count d - count g + count (f g).
Proof.
  induction d as [ | [k h] d IH]; intros H; [ discriminate H | ].
  cbn [find_layer] in H. cbn [update_layer].
  destruct (j =? k).
  - injection H as <-. cbn [total_count]. lia.
  - cbn [total_count]. rewrite (IH H). lia.
Qed.

Lemma In_set_add (t x : string) (s : list string) :
  In x (set_add t s) <-> x = t \/ In x s.
Proof.
  unfold set_add. destruct (existsb (String.eqb t) s) eqn:He.
  - apply existsb_exists in He as [y [Hy Heq]].
    apply String.eqb_eq in Heq. subst y.
    split; [ auto | intros [-> | H]; assumption ].
  - rewrite in_app_iff. cbn [In]. split.
    + intros [H | [<- | []]]; auto.
    + intros [-> | H]; auto.
Qed.

(** The layer of [obj] after [record_object], and the other layers. *)
Lemma find_layer_record (table : layer_table) (obj : model_object) (i : Z) :
  find_layer i (record_object table obj)
  = if i =? LayerIndex obj
    then
      let g0 := match find_layer i table with
                | Some g => g
                | None => mkStats 0 []
                end in
      Some (mkStats (count g0 + 1)
              (match Geometry obj with
               | Some t => set_add t (types g0)
               | None => types g0
               end))
    else find_layer i table.
Proof.
  unfold record_object. cbv zeta.
  set (j := LayerIndex obj).
  assert (Hd1 : forall d1,
            d1 = match find_layer j table with
                 | Some _ => table
                 | None => (table ++ [(j, mkStats 0 [])])%list
                 end ->
            find_layer i d1
            = if i =? j
              then Some match find_layer i table with
                        | Some g => g
                        | None => mkStats 0 []
                        end
              else find_layer i table).
  { intros d1 ->. destruct (i =? j) eqn:Hij.
    - apply Z.eqb_eq in Hij. subst i.
      destruct (find_layer j table) as [g | ] eqn:Hf; [ exact Hf | ].
      rewrite find_layer_app, Hf, Z.eqb_refl. reflexivity.
    - destruct (find_layer j table) as [g | ] eqn:Hf; [ reflexivity | ].
      rewrite find_layer_app, Hij.
      destruct (find_layer i table); reflexivity. }
  specialize (Hd1 _ eq_refl).
  destruct (Geometry obj) as [t | ];
    repeat rewrite find_layer_update; rewrite Hd1;
    destruct (i =? j); reflexivity.
Qed.

Lemma keys_record (table : layer_table) (obj : model_object) :
  NoDup (map fst table) -> NoDup (map fst (record_object table obj)).
Proof.
  intros Hnd. unfold record_object. cbv zeta.
  assert (Hd1 : NoDup (map fst
                  match find_layer (LayerIndex obj) table with
                  | Some _ => table
                  | None => (table ++ [(LayerIndex obj, mkStats 0 [])])%list
                  end)).
  { destruct (find_layer (LayerIndex obj) table) eqn:Hf; [ exact Hnd | ].
    rewrite map_app. cbn [map fst].
    apply NoDup_app.
    - exact Hnd.
    - constructor; [ intros [] | constructor ].
    - intros x Hx [<- | []]. exact (find_layer_None _ _ Hf Hx). }
  destruct (Geometry obj); repeat rewrite keys_update; exact Hd1.
Qed.

Lemma total_count_record (table : layer_table) (obj : model_object) :
  total_count (record_object table obj) = total_count table + 1.
Proof.
  unfold record_object. cbv zeta.
  set (j := LayerIndex obj).
  set (d1 := match find_layer j table with
             | Some _ => table
             | None => (table ++ [(j, mkStats 0 [])])%list
             end).
  assert (Hd1 : exists g, find_layer j d1 = Some g
                          /\ total_count d1 = total_count table).
  { unfold d1. destruct (find_layer j table) as [g | ] eqn:Hf.
    - exists g. auto.
    - exists (mkStats 0 []). split.
      + rewrite find_layer_app, Hf, Z.eqb_refl. reflexivity.
      + rewrite total_count_app. cbn [count]. lia. }
  destruct Hd1 as [g [Hg Htot]].
  set (d2 := update_layer j (fun g => mkStats (count g + 1) (types g)) d1).
  assert (Hd2 : total_count d2 = total_count table + 1).
  { unfold d2. rewrite (total_count_update _ _ _ g Hg). cbn [count]. lia. }
  destruct (Geometry obj) as [t | ]; [ | exact Hd2 ].
  assert (Hg2 : find_layer j d2 = Some (mkStats (count g + 1) (types g))).
  { unfold d2. rewrite find_layer_update, Z.eqb_refl, Hg. reflexivity. }
  rewrite (total_count_update _ _ _ _ Hg2). cbn [count]. lia.
Qed.

Lemma count_on_layer_app (i : Z) (l : list model_object) (x : model_object) :
  count_on_layer i (l ++ [x])%list
  = count_on_layer i l + (if i =? LayerIndex x then 1 else 0).
Proof.
  induction l as [ | y l IH]; cbn [app count_on_layer]; [ lia | ].
  rewrite IH. lia.
Qed.

Lemma count_on_layer_nonneg (i : Z) (l : list model_object) :
  0 <= count_on_layer i l.
Proof.
  induction l as [ | y l IH]; cbn [count_on_layer]; [ lia | ].
  destruct (i =? LayerIndex y); lia.
Qed.

(** What the loop keeps true. *)
Lemma fold_record_invariant (objects : list model_object) :
  let table := fold_left record_object objects [] in
  NoDup (map fst table)
  /\ total_count table = Z.of_nat (List.length objects)
  /\ forall i, layer_agrees objects table i.
Proof.
  induction objects as [ | x l IH] using rev_ind.
  - cbn. split; [ constructor | ]. split; [ reflexivity | ].
    intros i. reflexivity.
  - cbv zeta in *. rewrite fold_left_app. cbn [fold_left].
    destruct IH as [Hnd [Htot Hag]].
    split; [ exact (keys_record _ x Hnd) | ].
    split.
    { rewrite total_count_record, Htot, length_app. cbn [List.length]. lia. }
    intros i. specialize (Hag i). unfold layer_agrees in *.
    rewrite find_layer_record, count_on_layer_app.
    destruct (i =? LayerIndex x) eqn:Hix.
    + apply Z.eqb_eq in Hix. cbv zeta.
      assert (Hprev :
        exists g0,
          g0 = match find_layer i (fold_left record_object l []) with
               | Some g => g
               | None => mkStats 0 []
               end
          /\ count g0 = count_on_layer i l
          /\ forall t, In t (types g0)
                       <-> exists obj, In obj l /\ has_type_on_layer i t obj).
      { destruct (find_layer i (fold_left record_object l [])) as [g | ].
        - exists g. destruct Hag as [Hc [_ Ht]]. auto.
        - exists (mkStats 0 []). split; [ reflexivity | ].
          split; [ symmetry; exact Hag | ].
          intros t. split; [ intros [] | ].
          intros [obj [Hin [Hl _]]]. exfalso.
          clear - Hag Hin Hl. induction l as [ | y l IHl]; [ exact Hin | ].
          cbn [count_on_layer] in Hag.
          pose proof (count_on_layer_nonneg i l) as Hnn.
          destruct Hin as [<- | Hin].
          + rewrite Hl, Z.eqb_refl in Hag. lia.
          + apply IHl; [ | exact Hin ].
            destruct (i =? LayerIndex y); lia. }
      destruct Hprev as [g0 [<- [Hc Ht]]].
      cbn [count types].
      pose proof (count_on_layer_nonneg i l) as Hnn.
      split; [ lia | ]. split; [ lia | ].
      intros t. unfold has_type_on_layer in *.
      destruct (Geometry x) as [tx | ] eqn:Hgx.
      * rewrite In_set_add, Ht. split.
        -- intros [-> | [obj [Hin Hobj]]].
           ++ exists x. split; [ apply in_or_app; right; left; reflexivity | ].
              split; [ symmetry; exact Hix | exact Hgx ].
           ++ exists obj. split; [ apply in_or_app; left; exact Hin | exact Hobj ].
        -- intros [obj [Hin Hobj]]. apply in_app_or in Hin as [Hin | [<- | []]].
           ++ right. exists obj. auto.
           ++ left. destruct Hobj as [_ Hg]. rewrite Hgx in Hg.
              injection Hg as <-. reflexivity.
      * rewrite Ht. split.
        -- intros [obj [Hin Hobj]]. exists obj.
           split; [ apply in_or_app; left; exact Hin | exact Hobj ].
        -- intros [obj [Hin Hobj]]. apply in_app_or in Hin as [Hin | [<- | []]].
           ++ exists obj. auto.
           ++ destruct Hobj as [_ Hg]. rewrite Hgx in Hg. discriminate Hg.
    + rewrite Z.add_0_r.
      destruct (find_layer i (fold_left record_object l [])) as [g | ].
      * destruct Hag as [Hc [Hpos Ht]]. split; [ exact Hc | ].
        split; [ exact Hpos | ].
        intros t. rewrite Ht. unfold has_type_on_layer. split.
        -- intros [obj [Hin Hobj]]. exists obj.
           split; [ apply in_or_app; left; exact Hin | exact Hobj ].
        -- intros [obj [Hin Hobj]]. apply in_app_or in Hin as [Hin | [<- | []]].
           ++ exists obj. auto.
           ++ destruct Hobj as [Hl _]. apply Z.eqb_neq in Hix. congruence.
      * exact Hag.
Qed.

(** X16.  For every model, the table of [get_geometry_by_layer] has an
    entry for a layer exactly when some object lies on the layer; the entry's
    count is the number of objects on the layer, which is at least one, and
    its types are exactly the types of the geometries of those objects. *)
Theorem get_geometry_by_layer_counts
    (objects : list model_object) (i : Z) :
  let table := get_geometry_by_layer (Some objects) in
  (find_layer i table = None <-> count_on_layer i objects = 0)
  /\ (forall g, find_layer i table = Some g ->
        count g = count_on_layer i objects
        /\ 1 <= count g
        /\ forall t, In t (types g)
                     <-> exists obj, In obj objects
                                     /\ LayerIndex obj = i
                                     /\ Geometry obj = Some t).
Proof.
  intros table. unfold table. cbn [get_geometry_by_layer].
  destruct (fold_record_invariant objects) as [_ [_ Hag]].
  specialize (Hag i). unfold layer_agrees, has_type_on_layer in Hag.
  destruct (find_layer i (fold_left record_object objects []))
    as [g | ] eqn:Hf.
  - destruct Hag as [Hc [Hpos Ht]]. split.
    + split; [ discriminate | intros H0; lia ].
    + intros g' Hg'. injection Hg' as <-.
      split; [ exact Hc | ]. split; [ lia | exact Ht ].
  - split; [ split; [ intros _; exact Hag | reflexivity ] | ].
    intros g Hg. discriminate Hg.
Qed.

(** X17.  The counts of the table of [get_geometry_by_layer] add up to
    [get_object_count]: every object of the model is counted on one layer.
    The layers of the table are distinct, and without a model the table is
    empty and the count is zero. *)
Theorem geometry_counts_add_up (objects : list model_object) :
  total_count (get_geometry_by_layer (Some objects))
  = get_object_count (Some objects)
  /\ get_object_count (Some objects) = Z.of_nat (List.length objects)
  /\ NoDup (map fst (get_geometry_by_layer (Some objects)))
  /\ get_geometry_by_layer None = []
  /\ get_object_count None = 0.
Proof.
  destruct (fold_record_invariant objects) as [Hnd [Htot _]].
  assert (Hcount : get_object_count (Some objects)
                   = Z.of_nat (List.length objects)).
  { destruct objects; reflexivity. }
  split; [ rewrite Hcount; exact Htot | ].
  split; [ exact Hcount | ].
  split; [ exact Hnd | split; reflexivity ].
Qed.

End LayerProperties.

(** X18.  [encode_geometry] returns the empty text for every geometry,
    whatever [Encode] and [json.dumps] do: the module does not import
    [json], so the call raises a [NameError] that the [except] clause
    turns into the empty text. *)
Theorem encode_geometry_is_empty
    (Encode : pyval -> result pyval) (json_dumps : pyval -> result string)
    (geometry : pyval) :
  rhino_helpers.encode_geometry Encode json_dumps geometry = EmptyString
  /\ existsb (String.eqb "json") rhino_helpers.module_names = false.
Proof.
  split; [ | reflexivity ].
  unfold rhino_helpers.encode_geometry.
  destruct (negb (truthy geometry)); reflexivity.
Qed.

Lemma format_parameters_raises_witness :
  compute_helpers.format_parameters (fun _ => "")
    [("a", PyInt 1); ("b", PyFloat infinity); ("c", PyStr "x")]
  = raise EOverflowError "cannot convert float infinity to integer".
Proof.
  refine (format_parameters_raises (fun _ => "") [("a", PyInt 1)] "b"
            (PyFloat infinity) [("c", PyStr "x")] _ _ eq_refl).
  constructor; [ | constructor ].
  exists ("System.Int32", PyInt 1). reflexivity.
Defined.

(** ** The exceptions of the decoder *)

Section DecodeExceptionProperties.

Import compute_rhino3dm_helpers.

Variable json_loads : string -> result pyval.
Variable Decode : pyval -> result pyval.

Lemma getitem_str_lookup_error (v : pyval) (k : string) (e : exn) :
  getitem_str v k = Raise e -> lookup_error (exn_cls e).
Proof.
  unfold getitem_str, of_option, lookup_error. intros H.
  destruct v; try (injection H as <-; cbn; auto).
  destruct (lookup k d); [ discriminate H | injection H as <-; cbn; auto ].
Qed.

Lemma getitem_0_lookup_error (v : pyval) (e : exn) :
  getitem_0 v = Raise e -> lookup_error (exn_cls e).
Proof.
  unfold getitem_0, of_option, lookup_error. intros H.
  destruct v as [ | | | | s | l | d | ]; try (injection H as <-; cbn; auto).
  - destruct s; [ injection H as <-; cbn; auto | discriminate H ].
  - destruct l; [ injection H as <-; cbn; auto | discriminate H ].
Qed.

Lemma iterate_lookup_error (v : pyval) (e : exn) :
  iterate v = Raise e -> lookup_error (exn_cls e).
Proof.
  unfold iterate, lookup_error. intros H.
  destruct v; try discriminate H; injection H as <-; cbn; auto.
Qed.

Lemma decode_items_lookup_error (items : list pyval) (e : exn) :
  decode_items json_loads Decode items = Raise e -> lookup_error (exn_cls e).
Proof.
  induction items as [ | item items IH]; [ discriminate | ].
  cbn [decode_items].
  destruct (getitem_str item "data") as [data | e0] eqn:Hd; cbn [bind].
  - destruct (decode_items json_loads Decode items) as [rs | e1];
      cbn [bind]; [ discriminate | ].
    intros H. injection H as <-. apply IH. reflexivity.
  - intros H. injection H as <-. exact (getitem_str_lookup_error _ _ _ Hd).
Qed.

(** X19.  Whatever [json.loads] and the geometry decoder raise,
    [decode_gh_output] lets none of it out: the only exceptions it raises are
    the [KeyError], [IndexError] and [TypeError] of reading the response
    (no ['values'], no entry, no branch, a leaf without ['data']). *)
Theorem decode_gh_output_exceptions
    (output : pyval) (tree_path : string) (e : exn) :
  decode_gh_output json_loads Decode output tree_path = Raise e ->
  exn_cls e = EKeyError \/ exn_cls e = EIndexError \/ exn_cls e = ETypeError.
Proof.
  unfold decode_gh_output. intros H. fold (lookup_error (exn_cls e)).
  destruct (getitem_str output "values") as [values | e0] eqn:H1;
    cbn [bind] in H;
    [ | injection H as <-; exact (getitem_str_lookup_error _ _ _ H1) ].
  destruct (getitem_0 values) as [first | e0] eqn:H2; cbn [bind] in H;
    [ | injection H as <-; exact (getitem_0_lookup_error _ _ H2) ].
  destruct (getitem_str first "InnerTree") as [tree | e0] eqn:H3;
    cbn [bind] in H;
    [ | injection H as <-; exact (getitem_str_lookup_error _ _ _ H3) ].
  destruct (getitem_str tree tree_path) as [branch | e0] eqn:H4;
    cbn [bind] in H;
    [ | injection H as <-; exact (getitem_str_lookup_error _ _ _ H4) ].
  destruct (iterate branch) as [items | e0] eqn:H5; cbn [bind] in H;
    [ | injection H as <-; exact (iterate_lookup_error _ _ H5) ].
  exact (decode_items_lookup_error items e H).
Qed.

End DecodeExceptionProperties.

Lemma decode_gh_output_exceptions_witness :
  exn_cls (mkExn EIndexError "list index out of range") = EKeyError
  \/ exn_cls (mkExn EIndexError "list index out of range") = EIndexError
  \/ exn_cls (mkExn EIndexError "list index out of range") = ETypeError.
Proof.
  exact (decode_gh_output_exceptions
           (fun _ => raise EValueError "Expecting value")
           (fun _ => raise EException "decoder failure")
           (PyDict [("values", PyList [])]) "{0;0}"
           (mkExn EIndexError "list index out of range") eq_refl).
Defined.

(** ** The retry for a text without " and " and " & " *)

Section RetryProperties.

Import location_helpers.

Variable nominatim : world -> string -> result pyval.
Variable math_cos : float -> result float.
Variable float_repr : float -> string.

(** X20.  For a text that looks like an intersection only by " at " or
    " intersection " (its lower case holds neither " and " nor " & "), the
    retry after an empty first result sends the very same query a second
    time. *)
Theorem retry_repeats_the_query
    (location : string) (size : float) (w : world) (first : pyval) :
  is_coordinates location = false ->
  is_potential_intersection location = true ->
  contains " and " (lower location) = false ->
  contains " & " (lower location) = false ->
  nominatim w location = Ok first ->
  truthy first = false ->
  snd (location_to_coordinates nominatim math_cos float_repr location size w)
  = (w ++ [location; location])%list.
Proof.
  intros Hc Hflag Hand Hamp Hfirst Hempty.
  assert (Hp : parse_direct_coordinates location = (false, None, None)).
  { unfold is_coordinates in Hc.
    destruct (parse_direct_coordinates_cases location)
      as [[la [lo Hp]] | Hp];
      [ rewrite Hp in Hc; discriminate | exact Hp ]. }
  assert (Halt : alternate_query location = location).
  { unfold alternate_query. rewrite Hand, Hamp. reflexivity. }
  unfold location_to_coordinates.
  rewrite (resolve_geocode nominatim math_cos float_repr location size w Hp).
  rewrite Hfirst, Hempty, Hflag, Halt. cbn [negb andb].
  rewrite <- app_assoc. cbn [app].
  destruct (nominatim (w ++ [location])%list location) as [second | e];
    [ destruct (conclude _ _ _ _ _ second) | ]; reflexivity.
Qed.

End RetryProperties.

Lemma retry_repeats_the_query_witness :
  snd (location_helpers.location_to_coordinates sample_nominatim libm_cos
         sample_repr "Cafe at the corner" 100%float [])
  = ["Cafe at the corner"; "Cafe at the corner"].
Proof.
  refine (retry_repeats_the_query sample_nominatim libm_cos sample_repr
            "Cafe at the corner" 100%float [] (PyList []) _ _ _ _ _ _);
    vm_compute; reflexivity.
Defined.
